(** * Strays Bengaluru (app.py): a shallow embedding of the request handlers

    The Flask application of [src/app.py] is modelled as pure functions over
    an explicit application state: the tables of the relational store, the
    upload folder, the flashed messages and a trace of the calls made to the
    external geocoder.  Handlers take a request and a state and return the
    next state together with a response.

    Conventions.
    - Python [str] is [string]; characters are compared by code point.
    - Python [float] coordinates are only stored, compared with [None] and
      copied into markers, never computed with: they are rationals written
      with the decimal literals of the source.
    - [app.logger] calls (and the helpers [send_notification],
      [post_to_twitter], [check_proximity], which only log) have no
      observable effect on the state and are left out. *)

From Stdlib Require Import QArith Ascii String.
From stdpp Require Import gmap strings list sorting pretty.

Close Scope Q_scope.

(** ** Text helpers: the [str] methods used by the source *)

Module Py.

Definition is_upper (c : ascii) : bool :=
  let n := nat_of_ascii c in (65 <=? n) && (n <=? 90).
Definition is_lower (c : ascii) : bool :=
  let n := nat_of_ascii c in (97 <=? n) && (n <=? 122).
Definition is_digit (c : ascii) : bool :=
  let n := nat_of_ascii c in (48 <=? n) && (n <=? 57).

(** [str.lower], on the ASCII letters.  No character outside ASCII
    lower-cases to a letter of an allowed extension or changes a match. *)
Definition lower_char (c : ascii) : ascii :=
  if is_upper c then ascii_of_nat (nat_of_ascii c + 32) else c.
Fixpoint lower (s : string) : string :=
  match s with
  | "" => ""
  | String c s' => String (lower_char c) (lower s')
  end.

(** [c in s] for a one-character [c]. *)
Fixpoint contains (c : ascii) (s : string) : bool :=
  match s with
  | "" => false
  | String a s' => if decide (a = c) then true else contains c s'
  end.

(** [s.rsplit(c, 1)]: [Some (head, tail)] around the last [c], [None]
    when [c] does not occur (Python then returns the one-element list). *)
Fixpoint rsplit1 (c : ascii) (s : string) : option (string * string) :=
  match s with
  | "" => None
  | String a s' =>
      match rsplit1 c s' with
      | Some (h, t) => Some (String a h, t)
      | None => if decide (a = c) then Some ("", s') else None
      end
  end.

(** [s.replace(c, d)] for one-character [c] and [d]. *)
Fixpoint replace (c d : ascii) (s : string) : string :=
  match s with
  | "" => ""
  | String a s' => String (if decide (a = c) then d else a) (replace c d s')
  end.

(** Whitespace of [str.split()] with no argument, within ASCII. *)
Definition is_space (c : ascii) : bool :=
  let n := nat_of_ascii c in
  ((9 <=? n) && (n <=? 13)) || ((28 <=? n) && (n <=? 32)).

(** [s.split()]: the maximal runs of non-whitespace characters. *)
Fixpoint split_go (cur : option string) (s : string) : list string :=
  match s with
  | "" => option_list (String.rev <$> cur)
  | String a s' =>
      if is_space a
      then option_list (String.rev <$> cur) ++ split_go None s'
      else split_go (Some (String a (default "" cur))) s'
  end.
Definition split : string → list string := split_go None.

(** [sep.join(l)]. *)
Fixpoint join (sep : string) (l : list string) : string :=
  match l with
  | [] => ""
  | [w] => w
  | w :: l' => w +:+ sep +:+ join sep l'
  end.

Fixpoint filter (p : ascii → bool) (s : string) : string :=
  match s with
  | "" => ""
  | String a s' => if p a then String a (filter p s') else filter p s'
  end.

(** [s.lstrip(chars)], [s.rstrip(chars)] and [s.strip(chars)]. *)
Fixpoint lstrip (p : ascii → bool) (s : string) : string :=
  match s with
  | "" => ""
  | String a s' => if p a then lstrip p s' else s
  end.
Fixpoint rstrip (p : ascii → bool) (s : string) : string :=
  match s with
  | "" => ""
  | String a s' =>
      match rstrip p s' with
      | "" => if p a then "" else String a ""
      | t => String a t
      end
  end.
Definition strip (p : ascii → bool) (s : string) : string :=
  rstrip p (lstrip p s).

(** [s.split(c)[0]]: the part before the first [c]. *)
Fixpoint before_first (c : ascii) (s : string) : string :=
  match s with
  | "" => ""
  | String a s' => if decide (a = c) then "" else String a (before_first c s')
  end.

Definition upper_char (c : ascii) : ascii :=
  if is_lower c then ascii_of_nat (nat_of_ascii c - 32) else c.
Fixpoint upper (s : string) : string :=
  match s with
  | "" => ""
  | String c s' => String (upper_char c) (upper s')
  end.

(** [str(n).zfill(w)] for a natural number [n]. *)
Definition zfill (w : nat) (s : string) : string :=
  string_of_list_ascii (replicate (w - String.length s) "0"%char) +:+ s.

End Py.

(** ** [allowed_file] *)

Definition ALLOWED_EXTENSIONS : gset string := {[ "png"; "jpg"; "jpeg"; "gif" ]}.

(** [return '.' in filename and
            filename.rsplit('.', 1)[1].lower() in ALLOWED_EXTENSIONS] *)
Definition allowed_file (filename : string) : bool :=
  Py.contains "." filename &&
  match Py.rsplit1 "." filename with
  | Some (_, ext) => bool_decide (Py.lower ext ∈ ALLOWED_EXTENSIONS)
  | None => false
  end.

(** ** [werkzeug.utils.secure_filename]

    The library function the report intake calls on an accepted file name.
    Two things of the platform are parameters: [nfkd_ascii] stands for
    [unicodedata.normalize("NFKD", s).encode("ascii", "ignore").decode("ascii")]
    (the identity on ASCII file names) and [os_nt] for [os.name == "nt"],
    which fixes [os.sep] and [os.path.altsep]. *)

Section Platform.

Variable nfkd_ascii : string → string.
Variable os_nt : bool.

Definition os_sep : ascii := if os_nt then "\"%char else "/"%char.
Definition os_altsep : option ascii := if os_nt then Some "/"%char else None.

(** The complement of [_filename_ascii_strip_re = [^A-Za-z0-9_.-]]. *)
Definition filename_char (c : ascii) : bool :=
  Py.is_upper c || Py.is_lower c || Py.is_digit c ||
  bool_decide (c = "_"%char) || bool_decide (c = "."%char) ||
  bool_decide (c = "-"%char).

Definition dot_or_underscore (c : ascii) : bool :=
  bool_decide (c = "."%char) || bool_decide (c = "_"%char).

Definition windows_device_files : gset string :=
  {[ "CON"; "PRN"; "AUX"; "NUL";
     "COM0"; "COM1"; "COM2"; "COM3"; "COM4";
     "COM5"; "COM6"; "COM7"; "COM8"; "COM9";
     "LPT0"; "LPT1"; "LPT2"; "LPT3"; "LPT4";
     "LPT5"; "LPT6"; "LPT7"; "LPT8"; "LPT9" ]}.

Definition secure_filename (filename : string) : string :=
  let filename := nfkd_ascii filename in
  let filename := Py.replace os_sep " " filename in
  let filename :=
    match os_altsep with
    | Some sep => Py.replace sep " " filename
    | None => filename
    end in
  let filename :=
    Py.strip dot_or_underscore
      (Py.filter filename_char (Py.join "_" (Py.split filename))) in
  if os_nt && negb (bool_decide (filename = "")) &&
     bool_decide (Py.upper (Py.before_first "." filename) ∈ windows_device_files)
  then "_" +:+ filename
  else filename.

End Platform.

(** ** [datetime]: the values, [strptime] and [strftime] *)

Module datetime.

Local Open Scope N_scope.

Record t := mk {
  year : N; month : N; day : N;
  hour : N; minute : N; second : N
}.

Global Instance eq_dec : EqDecision t.
Proof. solve_decision. Defined.

Definition is_leap (y : N) : bool :=
  (y mod 4 =? 0) && (negb (y mod 100 =? 0) || (y mod 400 =? 0)).

Definition days_in_month (y m : N) : N :=
  match m with
  | 2 => if is_leap y then 29 else 28
  | 4 | 6 | 9 | 11 => 30
  | _ => 31
  end.

(** The range checks of the [datetime] constructor (MINYEAR is 1). *)
Definition valid (d : t) : bool :=
  (1 <=? year d) && (year d <=? 9999) &&
  (1 <=? month d) && (month d <=? 12) &&
  (1 <=? day d) && (day d <=? days_in_month (year d) (month d)) &&
  (hour d <=? 23) && (minute d <=? 59) && (second d <=? 59).

Definition digit (c : ascii) : option N :=
  if Py.is_digit c then Some (N_of_ascii c - 48) else None.

(** The field patterns of [_strptime].  Each returns the ways its regular
    expression can match a prefix of the input, in the order in which the
    backtracking matcher tries them, with the field's value and the rest
    of the input.  [\d] is taken on the ASCII digits. *)

(** [%Y]: [\d\d\d\d] *)
Definition field_Y (s : list ascii) : list (N * list ascii) :=
  match s with
  | a :: b :: c :: d :: r =>
      match digit a, digit b, digit c, digit d with
      | Some a, Some b, Some c, Some d => [(1000 * a + 100 * b + 10 * c + d, r)]
      | _, _, _, _ => []
      end
  | _ => []
  end.

(** One or two leading digits of the input, as numbers. *)
Definition two (s : list ascii) : option (N * N * list ascii) :=
  match s with
  | a :: b :: r =>
      match digit a, digit b with
      | Some a, Some b => Some (a, b, r)
      | _, _ => None
      end
  | _ => None
  end.
Definition one (s : list ascii) : option (N * list ascii) :=
  match s with
  | a :: r => match digit a with Some a => Some (a, r) | None => None end
  | _ => None
  end.

Definition when {A} (b : bool) (x : A) : list A := if b then [x] else [].

(** [%m]: [1[0-2]|0[1-9]|[1-9]] *)
Definition field_m (s : list ascii) : list (N * list ascii) :=
  match two s with
  | Some (a, b, r) =>
      when ((a =? 1) && (b <=? 2)) (10 + b, r) ++
      when ((a =? 0) && (1 <=? b)) (b, r)
  | None => []
  end ++
  match one s with
  | Some (a, r) => when (1 <=? a) (a, r)
  | None => []
  end.

(** [%d]: [3[0-1]|[1-2]\d|0[1-9]|[1-9]| [1-9]] *)
Definition field_d (s : list ascii) : list (N * list ascii) :=
  match two s with
  | Some (a, b, r) =>
      when ((a =? 3) && (b <=? 1)) (30 + b, r) ++
      when ((1 <=? a) && (a <=? 2)) (10 * a + b, r) ++
      when ((a =? 0) && (1 <=? b)) (b, r)
  | None => []
  end ++
  match one s with
  | Some (a, r) => when (1 <=? a) (a, r)
  | None => []
  end ++
  match s with
  | " "%char :: s' =>
      match one s' with
      | Some (a, r) => when (1 <=? a) (a, r)
      | None => []
      end
  | _ => []
  end.

(** [%H]: [2[0-3]|[0-1]\d|\d] *)
Definition field_H (s : list ascii) : list (N * list ascii) :=
  match two s with
  | Some (a, b, r) =>
      when ((a =? 2) && (b <=? 3)) (20 + b, r) ++
      when (a <=? 1) (10 * a + b, r)
  | None => []
  end ++
  match one s with
  | Some (a, r) => [(a, r)]
  | None => []
  end.

(** [%M]: [[0-5]\d|\d] *)
Definition field_M (s : list ascii) : list (N * list ascii) :=
  match two s with
  | Some (a, b, r) => when (a <=? 5) (10 * a + b, r)
  | None => []
  end ++
  match one s with
  | Some (a, r) => [(a, r)]
  | None => []
  end.

(** A literal character of the format; the pattern is compiled with
    [IGNORECASE]. *)
Definition lit (c : ascii) (s : list ascii) : list (list ascii) :=
  match s with
  | a :: r => when (bool_decide (Py.lower_char a = Py.lower_char c)) r
  | [] => []
  end.

(** All matches of the pattern of ['%Y-%m-%dT%H:%M'] against a prefix of
    the input, first match first. *)
Definition matches (s : list ascii) : list (t * list ascii) :=
  '(Y, s) ← field_Y s;
  s ← lit "-" s;
  '(m, s) ← field_m s;
  s ← lit "-" s;
  '(d, s) ← field_d s;
  s ← lit "T" s;
  '(H, s) ← field_H s;
  s ← lit ":" s;
  '(M, s) ← field_M s;
  [(mk Y m d H M 0, s)].

(** [datetime.strptime(s, '%Y-%m-%dT%H:%M')]; [None] is [ValueError]:
    no match, unconverted data after the match, or a date out of range. *)
Definition strptime (s : string) : option t :=
  match matches (list_ascii_of_string s) with
  | (d, []) :: _ => if valid d then Some d else None
  | _ => None
  end.

(** [d.strftime("%Y-%m")].  The formatting is that of the C library:
    with glibc [%Y] is the year in decimal without padding, so that the
    year 999 prints as [999], and [%m] is the month on two digits. *)
Definition strftime_Ym (d : t) : string :=
  pretty (year d) +:+ "-" +:+ Py.zfill 2 (pretty (month d)).

End datetime.

(** ** The models (tables of the relational store) *)

Module User.
Record t := mk {
  id : nat;
  username : string;   (* unique, not null *)
  password : string;
  email : string;      (* unique, not null *)
  role : string;
  points : Z
}.
Definition add_points (n : Z) (u : t) : t :=
  mk (id u) (username u) (password u) (email u) (role u) (points u + n).
End User.

Module Donation.
Record t := mk {
  id : nat;
  description : string;
  food_type : string;
  quantity : string;   (* the submitted text, as the handler stores it *)
  pickup_location : string;
  pickup_time : option datetime.t;
  donor_id : nat;
  pickup_latitude : option Q;
  pickup_longitude : option Q
}.
Definition set_coordinates (lat lng : Q) (d : t) : t :=
  mk (id d) (description d) (food_type d) (quantity d) (pickup_location d)
     (pickup_time d) (donor_id d) (Some lat) (Some lng).
End Donation.

Module Report.
Record t := mk {
  id : nat;
  animal_type : string;
  description : string;
  location : string;
  contact : string;
  report_time : option datetime.t;   (* server_default=func.now() *)
  reporter_id : nat;
  image_filename : option string;
  latitude : option Q;
  longitude : option Q
}.
Definition set_coordinates (lat lng : Q) (r : t) : t :=
  mk (id r) (animal_type r) (description r) (location r) (contact r)
     (report_time r) (reporter_id r) (image_filename r) (Some lat) (Some lng).
Definition set_image_filename (f : string) (r : t) : t :=
  mk (id r) (animal_type r) (description r) (location r) (contact r)
     (report_time r) (reporter_id r) (Some f) (latitude r) (longitude r).
End Report.

Module Event.
Record t := mk {
  id : nat;
  title : string;
  description : string;
  event_time : datetime.t;
  location : string;
  participants : list nat
}.
End Event.

(** ** The geocoder and the trace of its use *)

(** The outcome of [geolocator.geocode(address)]: a location, [None], or an
    exception (transport or provider failure). *)
Inductive geo_result :=
  | Located (lat lng : Q)
  | NoMatch
  | GeoError.

Inductive kind := KReport | KDonation.

Global Instance kind_eq_dec : EqDecision kind.
Proof. solve_decision. Defined.

(** What a map builder does besides building markers: a call of the
    geocoder for a record, a commit of resolved coordinates onto a record,
    and [time.sleep(1)]. *)
Inductive event :=
  | Geocode (k : kind) (rid : nat) (address : string)
  | Persist (k : kind) (rid : nat) (lat lng : Q)
  | Sleep.

(** The external service answers as a function of everything that happened
    before the call and of the address asked. *)
Definition geocoder := list event → string → geo_result.

(** ** Application state, requests and responses *)

Record state := mk_state {
  users : list User.t;
  donations : list Donation.t;
  reports : list Report.t;
  events : list Event.t;
  uploads : list string;     (* file names saved under UPLOAD_FOLDER *)
  flashes : list string;     (* messages passed to [flash], oldest first *)
  trace : list event
}.

Definition flash (msg : string) (st : state) : state :=
  mk_state (users st) (donations st) (reports st) (events st) (uploads st)
           (flashes st ++ [msg]) (trace st).
Definition set_users (us : list User.t) (st : state) : state :=
  mk_state us (donations st) (reports st) (events st) (uploads st)
           (flashes st) (trace st).
Definition set_donations (ds : list Donation.t) (st : state) : state :=
  mk_state (users st) ds (reports st) (events st) (uploads st)
           (flashes st) (trace st).
Definition set_reports (rs : list Report.t) (st : state) : state :=
  mk_state (users st) (donations st) rs (events st) (uploads st)
           (flashes st) (trace st).
Definition set_events (es : list Event.t) (st : state) : state :=
  mk_state (users st) (donations st) (reports st) es (uploads st)
           (flashes st) (trace st).
Definition save_upload (f : string) (st : state) : state :=
  mk_state (users st) (donations st) (reports st) (events st) (uploads st ++ [f])
           (flashes st) (trace st).
Definition set_trace (tr : list event) (st : state) : state :=
  mk_state (users st) (donations st) (reports st) (events st) (uploads st)
           (flashes st) tr.

Inductive method := GET | POST.

Record request := mk_request {
  req_method : method;
  form : gmap string string;    (* request.form *)
  files : gmap string string;   (* request.files: field name to file name *)
  args : gmap string string;    (* request.args *)
  session_user : option nat     (* the user id kept in the session *)
}.

Inductive exn :=
  | BadRequestKeyError (key : string)   (* request.form[key], key missing: 400 *)
  | ValueError                          (* strptime on malformed text *)
  | AttributeError                      (* .strftime on None *)
  | IntegrityError.                     (* constraint violated at commit *)

Record marker := mk_marker { lat : Q; lng : Q; popup : string }.

Record chart := mk_chart { labels : list string; counts : list nat }.

(** The template arguments the claims are about.  [total_quantity], an SQL
    sum over the [quantity] column, is not modelled. *)
Inductive context :=
  | no_context
  | stats_context (donation_data report_data : chart) (total_donations : nat)
  | map_context (markers : list marker) (distinct_animals : list string)
                (selected_animal : string) (heat_data : list (Q * Q * nat))
  | donation_map_context (markers : list marker).

Inductive response :=
  | render_template (name : string) (ctx : context)
  | redirect (endpoint : string)        (* redirect(url_for(endpoint)) *)
  | raised (e : exn).                   (* an exception leaves the view *)

(** Computations that may raise. *)
Inductive result (A : Type) :=
  | Ok (a : A)
  | Raise (e : exn).
Arguments Ok {A} a.
Arguments Raise {A} e.

Global Instance result_ret : MRet result := λ A a, Ok a.
Global Instance result_bind : MBind result := λ A B f m,
  match m with
  | Ok a => f a
  | Raise e => Raise e
  end.

(** [request.form[key]] *)
Definition form_get (req : request) (key : string) : result string :=
  match form req !! key with
  | Some v => Ok v
  | None => Raise (BadRequestKeyError key)
  end.

(** [User.query.get(int(user_id))] and [current_user]. *)
Definition load_user (st : state) (uid : nat) : option User.t :=
  List.find (λ u, bool_decide (User.id u = uid)) (users st).
Definition current_user (req : request) (st : state) : option User.t :=
  uid ← session_user req; load_user st uid.

(** [@login_required], with [login_manager.login_view = 'login']. *)
Definition login_required (view : User.t → state → state * response)
    (req : request) (st : state) : state * response :=
  match current_user req st with
  | Some u => view u st
  | None => (flash "Please log in to access this page." st, redirect "login")
  end.

(** A fresh primary key: one more than the largest in the table. *)
Definition next_id (ids : list nat) : nat := S (max_list ids).

(** [current_user.points += n], committed. *)
Definition award_points (uid : nat) (n : Z) (st : state) : state :=
  set_users
    ((λ u, if bool_decide (User.id u = uid) then User.add_points n u else u)
       <$> users st) st.

(** ** SQL [LIKE], as used by [Report.animal_type.ilike] *)

(** [s LIKE p]: [%] matches any run of characters, [_] any one character. *)
Fixpoint like (p s : list ascii) : bool :=
  match p with
  | [] => match s with [] => true | _ => false end
  | c :: p' =>
      if decide (c = "%"%char) then
        (fix any (s : list ascii) : bool :=
           like p' s || match s with [] => false | _ :: s' => any s' end) s
      else
        match s with
        | [] => false
        | a :: s' => (bool_decide (c = "_"%char) || bool_decide (a = c)) && like p' s'
        end
  end.

(** [column.ilike(pattern)] is [lower(column) LIKE lower(pattern)]. *)
Definition ilike (column pattern : string) : bool :=
  like (list_ascii_of_string (Py.lower pattern))
       (list_ascii_of_string (Py.lower column)).

(** ** The map builders *)

(** The coordinate both branches of [map_view] fall back to. *)
Definition DEFAULT_LAT : Q := 12.9716%Q.
Definition DEFAULT_LNG : Q := 77.5946%Q.

Definition report_popup (r : Report.t) : string :=
  "<strong>" +:+ Report.animal_type r +:+ "</strong><br>" +:+
  Report.description r +:+ "<br><em>" +:+ Report.location r +:+
  "</em><br><a href='" +:+ ("/report_details/" +:+ pretty (Report.id r)) +:+
  "' target='_blank'>View Details</a>".

Definition donation_popup (d : Donation.t) : string :=
  "Donation: " +:+ Donation.description d.

(** The body of the loop of [map_view] for one report: the trace after it,
    the report as it is left in the store, and the coordinates of its
    marker. *)
Definition visit_report (geocode : geocoder) (tr : list event) (r : Report.t)
    : list event * Report.t * (Q * Q) :=
  match Report.latitude r, Report.longitude r with
  | Some lat, Some lng => (tr, r, (lat, lng))
  | _, _ =>
      let called := tr ++ [Geocode KReport (Report.id r) (Report.location r)] in
      match geocode tr (Report.location r) with
      | Located lat lng =>
          (called ++ [Persist KReport (Report.id r) lat lng; Sleep],
           Report.set_coordinates lat lng r, (lat, lng))
      | NoMatch => (called ++ [Sleep], r, (DEFAULT_LAT, DEFAULT_LNG))
      | GeoError => (called ++ [Sleep], r, (DEFAULT_LAT, DEFAULT_LNG))
      end
  end.

(** The loop of [map_view] over the table.  [selected] is the query filter:
    the reports it keeps are visited in table order, and, being the objects
    of the session, are updated in place. *)
Fixpoint map_view_loop (geocode : geocoder) (selected : Report.t → bool)
    (tr : list event) (rows : list Report.t)
    : list event * list Report.t * list marker * list (Q * Q * nat) :=
  match rows with
  | [] => (tr, [], [], [])
  | r :: rows' =>
      if selected r then
        let '(tr1, r1, (lat, lng)) := visit_report geocode tr r in
        let '(tr2, rows2, markers, heat_data) :=
          map_view_loop geocode selected tr1 rows' in
        (tr2, r1 :: rows2,
         mk_marker lat lng (report_popup r1) :: markers,
         (lat, lng, 1) :: heat_data)
      else
        let '(tr2, rows2, markers, heat_data) :=
          map_view_loop geocode selected tr rows' in
        (tr2, r :: rows2, markers, heat_data)
  end.

(** The query of [map_view]: every report when [animal_filter] is empty,
    else those whose [animal_type] is [ilike '%filter%']. *)
Definition report_filter (animal_filter : string) (r : Report.t) : bool :=
  if decide (animal_filter = "") then true
  else ilike (Report.animal_type r) ("%" +:+ animal_filter +:+ "%").

Definition map_view_body (geocode : geocoder) (req : request)
    (cu : User.t) (st : state) : state * response :=
  let animal_filter := default "" (args req !! "animal_type") in
  let distinct_animals := remove_dups (Report.animal_type <$> reports st) in
  let '(tr, rows, markers, heat_data) :=
    map_view_loop geocode (report_filter animal_filter) (trace st) (reports st) in
  (set_trace tr (set_reports rows st),
   render_template "map.html"
     (map_context markers distinct_animals animal_filter heat_data)).

Definition map_view (geocode : geocoder) (req : request)
    : state → state * response :=
  login_required (map_view_body geocode req) req.

(** The body of the loop of [donation_map] for one donation; no marker
    when the loop [continue]s. *)
Definition visit_donation (geocode : geocoder) (tr : list event) (d : Donation.t)
    : list event * Donation.t * option (Q * Q) :=
  match Donation.pickup_latitude d, Donation.pickup_longitude d with
  | Some lat, Some lng => (tr, d, Some (lat, lng))
  | _, _ =>
      let called :=
        tr ++ [Geocode KDonation (Donation.id d) (Donation.pickup_location d)] in
      match geocode tr (Donation.pickup_location d) with
      | Located lat lng =>
          (called ++ [Persist KDonation (Donation.id d) lat lng; Sleep],
           Donation.set_coordinates lat lng d, Some (lat, lng))
      | NoMatch => (called, d, None)
      | GeoError => (called, d, None)
      end
  end.

Fixpoint donation_map_loop (geocode : geocoder)
    (tr : list event) (rows : list Donation.t)
    : list event * list Donation.t * list marker :=
  match rows with
  | [] => (tr, [], [])
  | d :: rows' =>
      let '(tr1, d1, coords) := visit_donation geocode tr d in
      let '(tr2, rows2, markers) := donation_map_loop geocode tr1 rows' in
      (tr2, d1 :: rows2,
       match coords with
       | Some (lat, lng) => mk_marker lat lng (donation_popup d1) :: markers
       | None => markers
       end)
  end.

Definition donation_map_body (geocode : geocoder)
    (cu : User.t) (st : state) : state * response :=
  let '(tr, rows, markers) :=
    donation_map_loop geocode (trace st) (donations st) in
  (set_trace tr (set_donations rows st),
   render_template "donation_map.html" (donation_map_context markers)).

Definition donation_map (geocode : geocoder) (req : request)
    : state → state * response :=
  login_required (donation_map_body geocode) req.

(** ** The analytics view *)

(** [data[key] = data.get(key, 0) + 1] *)
Definition bump (key : string) (data : gmap string nat) : gmap string nat :=
  <[key := default 0 (data !! key) + 1]> data.

(** [sorted(data.keys())]: the keys are distinct, so the result is the one
    ascending arrangement of them whatever the sorting algorithm. *)
Definition sorted_keys (data : gmap string nat) : list string :=
  merge_sort String.le (elements (dom data)).

(** [{'labels': keys, 'counts': [data[k] for k in keys]}] *)
Definition chart_of (data : gmap string nat) : chart :=
  let keys := sorted_keys data in
  mk_chart keys ((λ k, default 0 (data !! k)) <$> keys).

Definition donation_key (d : Donation.t) : string :=
  match Donation.pickup_time d with
  | Some t => datetime.strftime_Ym t
  | None => "Unknown"
  end.

Definition donation_buckets (rows : list Donation.t) : gmap string nat :=
  foldl (λ data d, bump (donation_key d) data) ∅ rows.

(** The loop over the reports calls [strftime] on [report_time] as it is. *)
Fixpoint report_buckets (data : gmap string nat) (rows : list Report.t)
    : result (gmap string nat) :=
  match rows with
  | [] => Ok data
  | r :: rows' =>
      match Report.report_time r with
      | Some t => report_buckets (bump (datetime.strftime_Ym t) data) rows'
      | None => Raise AttributeError
      end
  end.

Definition stats_body (cu : User.t) (st : state) : state * response :=
  if decide (User.role cu ≠ "admin") then
    (flash "You are not authorized to view analytics." st, redirect "dashboard")
  else
    let total_donations := length (donations st) in
    let donation_chart := chart_of (donation_buckets (donations st)) in
    match report_buckets ∅ (reports st) with
    | Raise e => (st, raised e)
    | Ok report_data =>
        (st, render_template "stats.html"
               (stats_context donation_chart (chart_of report_data)
                              total_donations))
    end.

Definition stats (req : request) : state → state * response :=
  login_required stats_body req.

(** ** Registration, login and the intake handlers *)

Section Handlers.

(** The platform parameters of [secure_filename], and the two functions
    of [werkzeug.security]. *)
Variable nfkd_ascii : string → string.
Variable os_nt : bool.
Variable generate_password_hash : string → string.
Variable check_password_hash : string → string → bool.

(** [db.session.add(new_user); db.session.commit()]: the store enforces
    the two [unique=True] columns of [User]. *)
Definition insert_user (u : User.t) (st : state) : result state :=
  if bool_decide (User.username u ∈ User.username <$> users st) ||
     bool_decide (User.email u ∈ User.email <$> users st)
  then Raise IntegrityError
  else Ok (set_users (users st ++ [u]) st).

Definition register (req : request) (st : state) : state * response :=
  match req_method req with
  | POST =>
      match
        username ← form_get req "username";
        password ← form_get req "password";
        email ← form_get req "email";
        role ← form_get req "role";
        mret (username, password, email, role)
      with
      | Raise e => (st, raised e)
      | Ok (username, password, email, role) =>
          match List.find (λ u, bool_decide (User.email u = email)) (users st) with
          | Some _ =>
              (flash "Email already registered. Please use a different email." st,
               redirect "register")
          | None =>
              let hashed_password := generate_password_hash password in
              let new_user :=
                User.mk (next_id (User.id <$> users st))
                        username hashed_password email role 0 in
              match insert_user new_user st with
              | Raise e => (st, raised e)
              | Ok st' =>
                  (flash "Registration successful! Please login." st',
                   redirect "login")
              end
          end
      end
  | GET => (st, render_template "register.html" no_context)
  end.

(** [login]: besides the state and the response, the user id that
    [login_user] puts in the session, if any. *)
Definition login (req : request) (st : state)
    : state * response * option nat :=
  match req_method req with
  | POST =>
      match
        username ← form_get req "username";
        password ← form_get req "password";
        mret (username, password)
      with
      | Raise e => (st, raised e, None)
      | Ok (username, password) =>
          match List.find (λ u, bool_decide (User.username u = username))
                          (users st) with
          | Some user =>
              if check_password_hash (User.password user) password
              then (st, redirect "dashboard", Some (User.id user))
              else (flash "Invalid username or password" st,
                    redirect "login", None)
          | None =>
              (flash "Invalid username or password" st, redirect "login", None)
          end
      end
  | GET => (st, render_template "login.html" no_context, None)
  end.

Definition add_donation_body (req : request) (cu : User.t) (st : state)
    : state * response :=
  match req_method req with
  | POST =>
      match
        description ← form_get req "description";
        food_type ← form_get req "food_type";
        quantity ← form_get req "quantity";
        pickup_location ← form_get req "pickup_location";
        pickup_time_str ← form_get req "pickup_time";
        pickup_time ←
          match datetime.strptime pickup_time_str with
          | Some t => Ok t
          | None => Raise ValueError
          end;
        mret (description, food_type, quantity, pickup_location, pickup_time)
      with
      | Raise e => (st, raised e)
      | Ok (description, food_type, quantity, pickup_location, pickup_time) =>
          let new_donation :=
            Donation.mk (next_id (Donation.id <$> donations st))
                        description food_type quantity pickup_location
                        (Some pickup_time) (User.id cu) None None in
          let st := set_donations (donations st ++ [new_donation]) st in
          let st := award_points (User.id cu) 10 st in
          (flash "Donation added successfully!" st, redirect "dashboard")
      end
  | GET => (st, render_template "add_donation.html" no_context)
  end.

Definition add_donation (req : request) : state → state * response :=
  login_required (add_donation_body req) req.

(** [now] is the clock of the store, which fills [report_time] when the
    row is inserted. *)
Definition report_animal_body (now : datetime.t) (req : request)
    (cu : User.t) (st : state) : state * response :=
  match req_method req with
  | POST =>
      match
        animal_type ← form_get req "animal_type";
        description ← form_get req "description";
        location ← form_get req "location";
        contact ← form_get req "contact";
        mret (animal_type, description, location, contact)
      with
      | Raise e => (st, raised e)
      | Ok (animal_type, description, location, contact) =>
          let new_report :=
            Report.mk (next_id (Report.id <$> reports st))
                      animal_type description location contact
                      (Some now) (User.id cu) None None None in
          let '(new_report, st) :=
            match files req !! "image" with
            | Some file_name =>
                (* [if file and allowed_file(file.filename)]; a
                   [FileStorage] is true when its name is not empty *)
                if negb (bool_decide (file_name = "")) && allowed_file file_name
                then
                  let filename := secure_filename nfkd_ascii os_nt file_name in
                  (Report.set_image_filename filename new_report,
                   save_upload filename st)
                else (new_report, st)
            | None => (new_report, st)
            end in
          let st := set_reports (reports st ++ [new_report]) st in
          let st := award_points (User.id cu) 5 st in
          (flash "Report submitted successfully!" st, redirect "dashboard")
      end
  | GET => (st, render_template "report_animal.html" no_context)
  end.

Definition report_animal (now : datetime.t) (req : request)
    : state → state * response :=
  login_required (report_animal_body now req) req.

Definition create_event_body (req : request) (cu : User.t) (st : state)
    : state * response :=
  if decide (User.role cu ≠ "admin") then
    (flash "You are not authorized to create events." st, redirect "dashboard")
  else
    match req_method req with
    | POST =>
        match
          title ← form_get req "title";
          description ← form_get req "description";
          event_time_str ← form_get req "event_time";
          event_time ←
            match datetime.strptime event_time_str with
            | Some t => Ok t
            | None => Raise ValueError
            end;
          location ← form_get req "location";
          mret (title, description, event_time, location)
        with
        | Raise e => (st, raised e)
        | Ok (title, description, event_time, location) =>
            let new_event :=
              Event.mk (next_id (Event.id <$> events st))
                       title description event_time location [] in
            (flash "Event created successfully!"
                   (set_events (events st ++ [new_event]) st),
             redirect "events")
        end
    | GET => (st, render_template "create_event.html" no_context)
    end.

Definition create_event (req : request) : state → state * response :=
  login_required (create_event_body req) req.

(** *** Histories of requests

    The handlers that write to the tables of donations and reports or use
    the geocoder, together with registration, login, event creation and
    the analytics view.  A history is a list of such requests, each with
    what the environment supplies for it. *)
Inductive action :=
  | Register (req : request)
  | Login (req : request)
  | AddDonation (req : request)
  | ReportAnimal (now : datetime.t) (req : request)
  | CreateEvent (req : request)
  | Stats (req : request)
  | MapView (geocode : geocoder) (req : request)
  | DonationMap (geocode : geocoder) (req : request).

Definition step (a : action) (st : state) : state :=
  match a with
  | Register req => (register req st).1
  | Login req => (login req st).1.1
  | AddDonation req => (add_donation req st).1
  | ReportAnimal now req => (report_animal now req st).1
  | CreateEvent req => (create_event req st).1
  | Stats req => (stats req st).1
  | MapView geocode req => (map_view geocode req st).1
  | DonationMap geocode req => (donation_map geocode req st).1
  end.

Definition run (acts : list action) (st : state) : state :=
  foldl (λ st a, step a st) st acts.

End Handlers.

(** ** Further views: profile, event sign-up, leaderboard, report details *)

(** What these views answer with: a response of the kinds above, a page
    that shows rows of a table, or the HTTP error raised by the routing or
    by [get_or_404]. *)
Inductive page :=
  | plain (r : response)
  | leaderboard_page (users : list User.t)
  | report_details_page (report : Report.t)
  | not_found             (* 404 *)
  | method_not_allowed.   (* 405 *)

Definition login_required_page (view : User.t → state → state * page)
    (req : request) (st : state) : state * page :=
  match current_user req st with
  | Some u => view u st
  | None =>
      (flash "Please log in to access this page." st, plain (redirect "login"))
  end.

(** The first row of a table that passes a test, changed in place. *)
Fixpoint alter_first {A} (p : A → bool) (f : A → A) (l : list A) : list A :=
  match l with
  | [] => []
  | x :: l' => if p x then f x :: l' else x :: alter_first p f l'
  end.

(** [current_user.username = ...; current_user.email = ...] *)
Definition set_profile (username email : string) (u : User.t) : User.t :=
  User.mk (User.id u) username (User.password u) email (User.role u)
          (User.points u).

(** [db.session.commit()] of a changed profile: the two unique columns are
    checked against the other rows. *)
Definition commit_profile (uid : nat) (username email : string) (st : state)
    : result state :=
  let others :=
    List.filter (λ u, negb (bool_decide (User.id u = uid))) (users st) in
  if bool_decide (username ∈ User.username <$> others) ||
     bool_decide (email ∈ User.email <$> others)
  then Raise IntegrityError
  else Ok (set_users
             (alter_first (λ u, bool_decide (User.id u = uid))
                          (set_profile username email) (users st)) st).

Definition profile_body (req : request) (cu : User.t) (st : state)
    : state * response :=
  match req_method req with
  | POST =>
      match
        username ← form_get req "username";
        email ← form_get req "email";
        mret (username, email)
      with
      | Raise e => (st, raised e)
      | Ok (username, email) =>
          match commit_profile (User.id cu) username email st with
          | Raise e => (st, raised e)
          | Ok st' =>
              (flash "Profile updated successfully!" st', redirect "dashboard")
          end
      end
  | GET => (st, render_template "profile.html" no_context)
  end.

Definition profile (req : request) : state → state * response :=
  login_required (profile_body req) req.

(** [event.participants.append(current_user)] *)
Definition add_participant (uid : nat) (e : Event.t) : Event.t :=
  Event.mk (Event.id e) (Event.title e) (Event.description e)
           (Event.event_time e) (Event.location e)
           (Event.participants e ++ [uid]).

(** [Event.query.get(event_id)] *)
Definition get_event (st : state) (event_id : nat) : option Event.t :=
  List.find (λ e, bool_decide (Event.id e = event_id)) (events st).

Definition signup_event_body (event_id : nat) (cu : User.t) (st : state)
    : state * page :=
  match get_event st event_id with
  | None => (st, not_found)
  | Some event =>
      if bool_decide (User.id cu ∈ Event.participants event) then
        (flash "You are already signed up for this event." st,
         plain (redirect "events"))
      else
        (flash "Signed up for event successfully!"
           (set_events
              (alter_first (λ e, bool_decide (Event.id e = event_id))
                           (add_participant (User.id cu)) (events st)) st),
         plain (redirect "events"))
  end.

(** The route accepts POST only; the routing answers before the view. *)
Definition signup_event (event_id : nat) (req : request) (st : state)
    : state * page :=
  match req_method req with
  | GET => (st, method_not_allowed)
  | POST => login_required_page (signup_event_body event_id) req st
  end.

(** [User.query.order_by(User.points.desc()).limit(10).all()]; how the
    store orders users of equal points is its own choice. *)
Definition by_points_desc (u v : User.t) : Prop :=
  (User.points v ≤ User.points u)%Z.

Global Instance by_points_desc_dec u v : Decision (by_points_desc u v).
Proof. unfold by_points_desc. apply _. Defined.

Definition leaderboard_body (cu : User.t) (st : state) : state * page :=
  (st, leaderboard_page (take 10 (merge_sort by_points_desc (users st)))).

Definition leaderboard (req : request) : state → state * page :=
  login_required_page leaderboard_body req.

(** [Report.query.get_or_404(report_id)] *)
Definition report_details_body (report_id : nat) (cu : User.t) (st : state)
    : state * page :=
  match List.find (λ r, bool_decide (Report.id r = report_id)) (reports st) with
  | Some report => (st, report_details_page report)
  | None => (st, not_found)
  end.

Definition report_details (report_id : nat) (req : request)
    : state → state * page :=
  login_required_page (report_details_body report_id) req.

(** ** Vocabulary of the statements *)

(** How many of the rows fall under the key [k]. *)
Definition key_count {A} (key : A → string) (k : string) (rows : list A) : nat :=
  length (filter (λ x, key x = k) rows).

(** A chart groups [rows] by [key]: its labels are the keys that occur,
    each once and in ascending order, and its counts are, label by label,
    the number of rows under that label. *)
Definition groups_by {A} (key : A → string) (rows : list A) (c : chart) : Prop :=
  StronglySorted String.le (labels c) ∧
  NoDup (labels c) ∧
  (∀ k, k ∈ labels c ↔ ∃ x, x ∈ rows ∧ key x = k) ∧
  counts c = (λ k, key_count key k rows) <$> labels c.

(** The key under which [stats] files a report that has its [report_time]. *)
Definition report_key (r : Report.t) : string :=
  match Report.report_time r with
  | Some t => datetime.strftime_Ym t
  | None => ""
  end.

(** The number written by a string of decimal digits. *)
Definition digits_value (s : string) : N :=
  foldl (λ n c, 10 * n + (N_of_ascii c - 48))%N 0%N (list_ascii_of_string s).
(** The numbers below [n], largest first. *)
Definition below (n : N) : list N :=
  N.peano_rect (λ _, list N) [] (λ k l, k :: l) n.

(** Coordinates are stored on the record: both columns are non-null. *)
Definition report_cached (r : Report.t) : bool :=
  match Report.latitude r, Report.longitude r with
  | Some _, Some _ => true
  | _, _ => false
  end.
Definition donation_cached (d : Donation.t) : bool :=
  match Donation.pickup_latitude d, Donation.pickup_longitude d with
  | Some _, Some _ => true
  | _, _ => false
  end.

(** The components of what the two loops return. *)
Definition mv_trace g sel tr rows : list event := (map_view_loop g sel tr rows).1.1.1.
Definition mv_rows g sel tr rows : list Report.t := (map_view_loop g sel tr rows).1.1.2.
Definition mv_markers g sel tr rows : list marker := (map_view_loop g sel tr rows).1.2.
Definition dm_trace g tr rows : list event := (donation_map_loop g tr rows).1.1.
Definition dm_rows g tr rows : list Donation.t := (donation_map_loop g tr rows).1.2.
Definition dm_markers g tr rows : list marker := (donation_map_loop g tr rows).2.







(** File names as paths: the components between separators, and the
    property that every character of a string passes a test. *)
Definition is_separator (c : ascii) : bool :=
  bool_decide (c = "/"%char) || bool_decide (c = "\"%char).
Fixpoint path_components (s : string) : list string :=
  match s with
  | "" => [""]
  | String a s' =>
      if is_separator a then "" :: path_components s'
      else
        match path_components s' with
        | c :: cs => String a c :: cs
        | [] => [String a ""]
        end
  end.
Fixpoint all_chars (p : ascii → bool) (s : string) : bool :=
  match s with
  | "" => true
  | String a s' => p a && all_chars p s'
  end.

(** The checks that a year prints as digits that read back as the year, on
    four of them exactly from the year 1000 on, and that a month prints on
    two digits that read back as the month. *)
Definition check_year (y : N) : bool :=
  all_chars Py.is_digit (pretty y) &&
  (digits_value (pretty y) =? y)%N &&
  Bool.eqb (String.length (pretty y) =? 4) (1000 <=? y)%N.
Definition check_month (m : N) : bool :=
  (String.length (Py.zfill 2 (pretty m)) =? 2) &&
  (digits_value (Py.zfill 2 (pretty m)) =? m)%N.

(** A stored file name is a single path component, other than the two
    that name a directory. *)
Definition path_safe (f : string) : Prop :=
  Py.contains "/" f = false ∧ Py.contains "\" f = false ∧
  path_components f = [f] ∧ f ≠ ".." ∧ f ≠ ".".

(** ** Sample data *)

Definition admin_ann : User.t :=
  User.mk 1 "ann" "pbkdf2:sha256$ann" "ann@strays.example" "admin" 0.
Definition donor_bob : User.t :=
  User.mk 2 "bob" "pbkdf2:sha256$bob" "bob@strays.example" "donor" 15.

Definition at_month (y m : N) : datetime.t := datetime.mk y m 5 10 0 0.

Definition rice (id : nat) (pickup_time : option datetime.t) : Donation.t :=
  Donation.mk id "rice" "cooked" "5" "MG Road" pickup_time 2 None None.

Definition stray (id : nat) (report_time : option datetime.t) : Report.t :=
  Report.mk id "dog" "limping" "Indiranagar" "080-1234" report_time 2
            None None None.

Definition sample_state : state :=
  mk_state [admin_ann; donor_bob]
           [rice 1 (Some (at_month 2024 1)); rice 2 (Some (at_month 2024 1));
            rice 3 (Some (at_month 2024 3))]
           [stray 1 (Some (at_month 2024 2))]
           [] [] [] [].

(** A GET request of the logged-in user [uid], with query arguments. *)
Definition get_as (uid : nat) (query : gmap string string) : request :=
  mk_request GET ∅ ∅ query (Some uid).
(** A POST request of the logged-in user [uid]. *)
Definition post_as (uid : nat) (fields uploads : gmap string string) : request :=
  mk_request POST fields uploads ∅ (Some uid).

(** Geocoders: one that finds every address at the same place, one that
    finds nothing, one that always fails. *)
Definition geocode_found : geocoder := λ _ _, Located 12.9352%Q 77.6245%Q.
Definition geocode_nothing : geocoder := λ _ _, NoMatch.
Definition geocode_down : geocoder := λ _ _, GeoError.

(** A platform for the examples: ASCII file names on POSIX, and stand-ins
    for the two functions of [werkzeug.security]. *)
Definition ascii_name (s : string) : string := s.
Definition posix : bool := false.
Definition sample_hash (password : string) : string := "pbkdf2:sha256$" +:+ password.
Definition sample_check (pwhash password : string) : bool :=
  bool_decide (pwhash = sample_hash password).

(** The donation of the specification's example, a report, and two
    registrations. *)
Definition donation_form : gmap string string :=
  list_to_map [("description", "rice"); ("food_type", "cooked"); ("quantity", "5");
               ("pickup_location", "X"); ("pickup_time", "2024-06-01T10:00")].
Definition report_form : gmap string string :=
  list_to_map [("animal_type", "dog"); ("description", "limping");
               ("location", "Indiranagar"); ("contact", "080-1234")].
Definition registration_form (username email role : string) : gmap string string :=
  list_to_map [("username", username); ("password", "s3cret");
               ("email", email); ("role", role)].
Definition anonymous_post (fields : gmap string string) : request :=
  mk_request POST fields ∅ ∅ None.

Definition noon : datetime.t := datetime.mk 2024 6 1 12 0 0.

(** The sample state with one more report, which has no [report_time]. *)
Definition untimed_state : state :=
  set_reports [stray 1 (Some (at_month 2024 2)); stray 2 None] sample_state.

(** A report and a donation with stored coordinates. *)
Definition housed_stray (id : nat) : Report.t :=
  Report.set_coordinates 12.9784%Q 77.6408%Q (stray id (Some (at_month 2024 2))).
Definition mapped_rice (id : nat) : Donation.t :=
  Donation.set_coordinates 12.9756%Q 77.6050%Q (rice id (Some (at_month 2024 1))).

(** The sample state with those two records in its tables. *)
Definition mapped_state : state :=
  set_donations [mapped_rice 1; rice 2 None]
    (set_reports [housed_stray 1; stray 2 (Some (at_month 2024 2))] sample_state).

(** ** Vocabulary of the further properties *)

(** The three identifying columns of [User] hold no value twice. *)
Definition users_unique (st : state) : Prop :=
  NoDup (User.id <$> users st) ∧
  NoDup (User.username <$> users st) ∧
  NoDup (User.email <$> users st).

(** The heat data of [map_view], and the other counts of a trace. *)
Definition mv_heat g sel tr rows : list (Q * Q * nat) :=
  (map_view_loop g sel tr rows).2.
Definition is_sleep (e : event) : bool :=
  match e with Sleep => true | _ => false end.
Definition is_geocode (e : event) : bool :=
  match e with Geocode _ _ _ => true | _ => false end.
Definition is_persisted (e : event) : bool :=
  match e with Persist _ _ _ _ => true | _ => false end.
Definition sleeps (tr : list event) : nat := length (List.filter is_sleep tr).
Definition calls (tr : list event) : nat := length (List.filter is_geocode tr).
Definition persists (tr : list event) : nat := length (List.filter is_persisted tr).

(** The marker of a record as its coordinate columns stand: for a report
    the fallback coordinate stands in for missing columns, a donation
    without them has no marker. *)
Definition report_marker (r : Report.t) : marker :=
  match Report.latitude r, Report.longitude r with
  | Some la, Some lo => mk_marker la lo (report_popup r)
  | _, _ => mk_marker DEFAULT_LAT DEFAULT_LNG (report_popup r)
  end.
Definition donation_marker (d : Donation.t) : option marker :=
  match Donation.pickup_latitude d, Donation.pickup_longitude d with
  | Some la, Some lo => Some (mk_marker la lo (donation_popup d))
  | _, _ => None
  end.

(** All the points of the users. *)
Definition total_points (st : state) : Z :=
  foldr (λ u n, (User.points u + n)%Z) 0%Z (users st).

(** The books balance: user keys are unique and the points of all users
    are ten for each donation and five for each report. *)
Definition points_accounted (st : state) : Prop :=
  NoDup (User.id <$> users st) ∧
  total_points st =
    (10 * Z.of_nat (length (donations st)) + 5 * Z.of_nat (length (reports st)))%Z.

(** Every donation and every report belongs to a user of the table. *)
Definition owners_exist (st : state) : Prop :=
  (∀ d, d ∈ donations st → Donation.donor_id d ∈ (User.id <$> users st)) ∧
  (∀ r, r ∈ reports st → Report.reporter_id r ∈ (User.id <$> users st)).

(** No event lists a participant twice. *)
Definition participants_unique (st : state) : Prop :=
  ∀ e, e ∈ events st → NoDup (Event.participants e).

(** A filter text without the wildcards of LIKE. *)
Definition no_wildcard (s : string) : bool :=
  all_chars (λ c, negb (bool_decide (c = "%"%char) || bool_decide (c = "_"%char))) s.

(** An event with ann as participant, and the sample state with it. *)
Definition walk : Event.t :=
  Event.mk 1 "Walk" "Morning dog walk" (at_month 2024 7) "Cubbon Park" [1].
Definition event_state : state := set_events [walk] sample_state.

(** The four ways a request can leave users, donations and reports. *)
Definition ledger_step (st st' : state) : Prop :=
  (users st' = users st ∧
   Donation.donor_id <$> donations st' = Donation.donor_id <$> donations st ∧
   Report.reporter_id <$> reports st' = Report.reporter_id <$> reports st) ∨
  (∃ u, users st' = users st ++ [u] ∧
        User.id u = next_id (User.id <$> users st) ∧ User.points u = 0%Z ∧
        donations st' = donations st ∧ reports st' = reports st) ∨
  (∃ cu d, cu ∈ users st ∧
           users st' =
             ((λ u, if bool_decide (User.id u = User.id cu)
                    then User.add_points 10 u else u) <$> users st) ∧
           donations st' = donations st ++ [d] ∧
           Donation.donor_id d = User.id cu ∧ reports st' = reports st) ∨
  (∃ cu r, cu ∈ users st ∧
           users st' =
             ((λ u, if bool_decide (User.id u = User.id cu)
                    then User.add_points 5 u else u) <$> users st) ∧
           reports st' = reports st ++ [r] ∧
           Report.reporter_id r = User.id cu ∧ donations st' = donations st).

(** The store as [db.create_all()] leaves it, and a first history: ann
    registers and submits the donation of the example. *)
Definition empty_state : state := mk_state [] [] [] [] [] [] [].
Definition first_history : list action :=
  [Register (anonymous_post (registration_form "ann" "ann@strays.example" "donor"));
   AddDonation (post_as 1 donation_form ∅);
   ReportAnimal noon (post_as 1 report_form ∅);
   MapView geocode_found (get_as 1 ∅)].

(** The letters of ASCII. *)
Definition is_letter (c : ascii) : bool := Py.is_upper c || Py.is_lower c.

(** The request of a step of a history. *)
Definition request_of (a : action) : request :=
  match a with
  | Register req | Login req | AddDonation req | ReportAnimal _ req
  | CreateEvent req | Stats req | MapView _ req | DonationMap _ req => req
  end.

(** No request of the history carries a session. *)
Definition signed_out (acts : list action) : Prop :=
  Forall (λ a, session_user (request_of a) = None) acts.

(** * Properties *)

(** ** Monthly buckets *)

Section Tally.
Context {A : Type} (key : A → string).

Lemma bump_lookup k k' (data : gmap string nat) :
  default 0 (bump k data !! k') =
  default 0 (data !! k') + (if decide (k = k') then 1 else 0).
Proof.
  unfold bump. destruct (decide (k = k')) as [->|Hne].
  - rewrite lookup_insert_eq. simpl. reflexivity.
  - rewrite lookup_insert_ne by done. lia.
Qed.

Lemma bump_dom k (data : gmap string nat) : dom (bump k data) = {[k]} ∪ dom data.
Proof. unfold bump. apply dom_insert_L. Qed.

Lemma key_count_cons k x rows :
  key_count key k (x :: rows) =
  (if decide (key x = k) then 1 else 0) + key_count key k rows.
Proof.
  unfold key_count. rewrite filter_cons. destruct (decide (key x = k)); reflexivity.
Qed.

Lemma tally_lookup rows (data : gmap string nat) k :
  default 0 (foldl (λ data x, bump (key x) data) data rows !! k) =
  default 0 (data !! k) + key_count key k rows.
Proof.
  revert data. induction rows as [|x rows IH]; intros data; simpl.
  - unfold key_count. simpl. lia.
  - rewrite IH, bump_lookup, key_count_cons. lia.
Qed.

Lemma tally_dom rows (data : gmap string nat) k :
  k ∈ dom (foldl (λ data x, bump (key x) data) data rows) ↔
  k ∈ dom data ∨ ∃ x, x ∈ rows ∧ key x = k.
Proof.
  revert data. induction rows as [|x rows IH]; intros data; simpl.
  - split; [auto|]. intros [?|(x & Hx & _)]; [done|]. by apply elem_of_nil in Hx.
  - rewrite IH, bump_dom. split.
    + intros [Hk|(y & Hy & Hk)].
      * apply elem_of_union in Hk as [Hk|Hk]; [|by left].
        apply elem_of_singleton in Hk. right. exists x. split; [left|done].
      * right. exists y. split; [by right|done].
    + intros [Hk|(y & Hy & Hk)].
      * left. set_solver.
      * apply elem_of_cons in Hy as [->|Hy].
        -- left. set_solver.
        -- right. eauto.
Qed.

Lemma chart_of_tally rows :
  groups_by key rows (chart_of (foldl (λ data x, bump (key x) data) ∅ rows)).
Proof.
  set (data := foldl _ _ _).
  assert (Hperm : sorted_keys data ≡ₚ elements (dom data))
    by apply merge_sort_Permutation.
  assert (Hmem : ∀ k, k ∈ sorted_keys data ↔ ∃ x, x ∈ rows ∧ key x = k).
  { intros k. rewrite Hperm, elem_of_elements. unfold data.
    rewrite tally_dom, dom_empty_L. set_solver. }
  repeat split.
  - apply (StronglySorted_merge_sort String.le).
  - simpl. rewrite Hperm. apply NoDup_elements.
  - apply Hmem.
  - apply Hmem.
  - simpl. apply list_fmap_ext. intros _ k _. unfold data.
    rewrite tally_lookup, lookup_empty. reflexivity.
Qed.
End Tally.

Lemma report_buckets_all_timed rows data :
  Forall (λ r, is_Some (Report.report_time r)) rows →
  report_buckets data rows = Ok (foldl (λ data r, bump (report_key r) data) data rows).
Proof.
  intros Hall. revert data.
  induction Hall as [|r rows [t Ht] _ IH]; intros data; simpl; [done|].
  rewrite Ht, IH. unfold report_key. by rewrite Ht.
Qed.

Lemma report_buckets_untimed rows data :
  Exists (λ r, Report.report_time r = None) rows →
  report_buckets data rows = Raise AttributeError.
Proof.
  intros Hex. revert data.
  induction Hex as [r rows Hr|r rows _ IH]; intros data; simpl.
  - by rewrite Hr.
  - destruct (Report.report_time r); [apply IH|done].
Qed.

Lemma below_spec n k : (k < n)%N → k ∈ below n.
Proof.
  unfold below. induction n as [|n IH] using N.peano_ind; [lia|].
  rewrite N.peano_rect_succ. intros Hk.
  destruct (decide (k = n)) as [->|Hne]; [left|right; apply IH; lia].
Qed.

Lemma Y_roundtrip y :
  (y < 10000)%N →
  all_chars Py.is_digit (pretty y) = true ∧ digits_value (pretty y) = y ∧
  (String.length (pretty y) = 4 ↔ (1000 ≤ y)%N).
Proof.
  intros Hy.
  assert (Hall : forallb check_year (below 10000) = true) by (vm_compute; reflexivity).
  rewrite forallb_forall in Hall.
  specialize (Hall y). unfold check_year in Hall.
  rewrite !andb_true_iff, N.eqb_eq, Bool.eqb_true_iff in Hall.
  destruct Hall as [[Hdigits Hvalue] Hlen];
    [apply list_elem_of_In, below_spec, Hy|].
  split; [done|]. split; [done|].
  by rewrite <- Nat.eqb_eq, Hlen, N.leb_le.
Qed.

Lemma M2_roundtrip m :
  (m < 100)%N →
  String.length (Py.zfill 2 (pretty m)) = 2 ∧ digits_value (Py.zfill 2 (pretty m)) = m.
Proof.
  intros Hm.
  assert (Hall : forallb check_month (below 100) = true) by (vm_compute; reflexivity).
  rewrite forallb_forall in Hall.
  specialize (Hall m). unfold check_month in Hall.
  rewrite andb_true_iff, Nat.eqb_eq, N.eqb_eq in Hall. apply Hall.
  apply list_elem_of_In, below_spec, Hm.
Qed.

(** Two texts of digits followed by a dash end at the same place. *)
Lemma append_dash_inj (a b c d : string) :
  all_chars Py.is_digit a = true → all_chars Py.is_digit c = true →
  a +:+ String "-" b = c +:+ String "-" d → a = c ∧ b = d.
Proof.
  revert c. induction a as [|x a IH]; intros [|y c] Ha Hc Heq; simpl in *.
  - by simplify_eq.
  - apply andb_true_iff in Hc as [Hy _]. injection Heq as <- _. done.
  - apply andb_true_iff in Ha as [Hx _]. injection Heq as -> _. done.
  - apply andb_true_iff in Ha as [_ Ha]. apply andb_true_iff in Hc as [_ Hc].
    injection Heq as -> Heq. by destruct (IH c Ha Hc Heq) as [-> ->].
Qed.

Lemma append_length (a b : string) :
  String.length (a +:+ b) = String.length a + String.length b.
Proof.
  induction a as [|x a IH]; [done|].
  change (String x a +:+ b) with (String x (a +:+ b)). simpl. by rewrite IH.
Qed.

(** From the year 1000 on, and only then, the label has the seven
    characters of the form YYYY-MM. *)
Lemma strftime_Ym_length t :
  datetime.valid t = true →
  String.length (datetime.strftime_Ym t) = 7 ↔ (1000 ≤ datetime.year t)%N.
Proof.
  unfold datetime.valid. rewrite !andb_true_iff, !N.leb_le. intros V.
  destruct (Y_roundtrip (datetime.year t)) as (_ & _ & <-); [lia|].
  destruct (M2_roundtrip (datetime.month t)) as [Hm _]; [lia|].
  unfold datetime.strftime_Ym. rewrite !append_length, Hm. simpl. lia.
Qed.

Lemma strftime_Ym_inj t1 t2 :
  datetime.valid t1 = true → datetime.valid t2 = true →
  datetime.strftime_Ym t1 = datetime.strftime_Ym t2 ↔
  datetime.year t1 = datetime.year t2 ∧ datetime.month t1 = datetime.month t2.
Proof.
  unfold datetime.valid. rewrite !andb_true_iff, !N.leb_le. intros V1 V2.
  split; [|unfold datetime.strftime_Ym; by intros [-> ->]].
  unfold datetime.strftime_Ym. intros Heq.
  destruct (Y_roundtrip (datetime.year t1)) as (D1 & R1 & _); [lia|].
  destruct (Y_roundtrip (datetime.year t2)) as (D2 & R2 & _); [lia|].
  apply append_dash_inj in Heq as [HY HM]; [|done..].
  destruct (M2_roundtrip (datetime.month t1)) as [_ M1]; [lia|].
  destruct (M2_roundtrip (datetime.month t2)) as [_ M2]; [lia|].
  split.
  - rewrite <- R1, <- R2. by rewrite HY.
  - rewrite <- M1, <- M2. by rewrite HM.
Qed.

(** C2 (amended).  The analytics view groups the donations by the
    year-month label of [pickup_time], with the label "Unknown" for a
    donation that has none, and the reports by the year-month label of
    [report_time]; the labels come out in ascending order, each once, with
    the number of records of each label at the same position.  Two valid
    timestamps share a label exactly when they share year and month.  The
    label is the year without padding, a dash and the month on two digits:
    it has the form YYYY-MM exactly when the year is 1000 or later.  Three
    donations picked up in 2024-01, 2024-01 and 2024-03 give labels
    2024-01, 2024-03 and counts 2, 1; no records give no labels and no
    counts. *)
Theorem stats_groups_by_month :
  (∀ cu st,
     User.role cu = "admin" →
     Forall (λ r, is_Some (Report.report_time r)) (reports st) →
     ∃ donation_chart report_chart,
       stats_body cu st =
         (st, render_template "stats.html"
                (stats_context donation_chart report_chart
                               (length (donations st)))) ∧
       groups_by donation_key (donations st) donation_chart ∧
       groups_by report_key (reports st) report_chart) ∧
  (∀ d, Donation.pickup_time d = None → donation_key d = "Unknown") ∧
  (∀ d t, Donation.pickup_time d = Some t → donation_key d = datetime.strftime_Ym t) ∧
  (∀ r t, Report.report_time r = Some t → report_key r = datetime.strftime_Ym t) ∧
  (∀ t1 t2,
     datetime.valid t1 = true → datetime.valid t2 = true →
     datetime.strftime_Ym t1 = datetime.strftime_Ym t2 ↔
     datetime.year t1 = datetime.year t2 ∧ datetime.month t1 = datetime.month t2) ∧
  (∀ t,
     datetime.valid t = true →
     String.length (datetime.strftime_Ym t) = 7 ↔ (1000 ≤ datetime.year t)%N) ∧
  (∀ t,
     datetime.valid t = true → (1000 ≤ datetime.year t)%N →
     datetime.strftime_Ym t =
       Py.zfill 4 (pretty (datetime.year t)) +:+ "-" +:+
       Py.zfill 2 (pretty (datetime.month t))) ∧
  (∀ d1 d2 d3 t1 t2 t3,
     Donation.pickup_time d1 = Some t1 →
     Donation.pickup_time d2 = Some t2 →
     Donation.pickup_time d3 = Some t3 →
     (datetime.year t1, datetime.month t1) = (2024, 1)%N →
     (datetime.year t2, datetime.month t2) = (2024, 1)%N →
     (datetime.year t3, datetime.month t3) = (2024, 3)%N →
     chart_of (donation_buckets [d1; d2; d3]) =
       mk_chart ["2024-01"; "2024-03"] [2; 1]) ∧
  chart_of (donation_buckets []) = mk_chart [] [] ∧
  (report_buckets ∅ [] = Ok ∅ ∧ chart_of ∅ = mk_chart [] []).
Proof.
  repeat apply conj.
  - intros cu st Hadmin Htimed. unfold stats_body.
    destruct (decide (User.role cu ≠ "admin")) as [Hne|_]; [by destruct Hne|].
    rewrite (report_buckets_all_timed _ _ Htimed).
    eexists _, _. split; [reflexivity|].
    split; [apply (chart_of_tally donation_key)|apply (chart_of_tally report_key)].
  - intros d Hd. unfold donation_key. by rewrite Hd.
  - intros d t Hd. unfold donation_key. by rewrite Hd.
  - intros r t Hr. unfold report_key. by rewrite Hr.
  - intros t1 t2 V1 V2. by apply strftime_Ym_inj.
  - apply strftime_Ym_length.
  - intros t V Hy. unfold datetime.strftime_Ym.
    assert (Hlen : String.length (pretty (datetime.year t)) = 4).
    { revert V. unfold datetime.valid. rewrite !andb_true_iff, !N.leb_le.
      intros V. apply Y_roundtrip; [lia|done]. }
    assert (Hpad : Py.zfill 4 (pretty (datetime.year t)) = pretty (datetime.year t))
      by (unfold Py.zfill; by rewrite Hlen).
    by rewrite Hpad.
  - intros d1 d2 d3 t1 t2 t3 H1 H2 H3 E1 E2 E3.
    unfold donation_buckets. simpl. unfold donation_key. rewrite H1, H2, H3.
    unfold datetime.strftime_Ym.
    destruct t1, t2, t3. simplify_eq/=. vm_compute. reflexivity.
  - vm_compute. reflexivity.
  - reflexivity.
  - vm_compute. reflexivity.
Qed.

Lemma stats_groups_by_month_witness :
  (∃ donation_chart report_chart,
     stats_body admin_ann sample_state =
       (sample_state,
        render_template "stats.html"
          (stats_context donation_chart report_chart 3)) ∧
     groups_by donation_key (donations sample_state) donation_chart ∧
     groups_by report_key (reports sample_state) report_chart) ∧
  donation_key (rice 4 None) = "Unknown" ∧
  donation_key (rice 1 (Some (at_month 2024 1))) =
    datetime.strftime_Ym (at_month 2024 1) ∧
  report_key (stray 1 (Some (at_month 2024 2))) =
    datetime.strftime_Ym (at_month 2024 2) ∧
  (datetime.strftime_Ym (at_month 2024 1) =
     datetime.strftime_Ym (datetime.mk 2024 1 31 23 59 0) ↔
   datetime.year (at_month 2024 1) = datetime.year (datetime.mk 2024 1 31 23 59 0) ∧
   datetime.month (at_month 2024 1) = datetime.month (datetime.mk 2024 1 31 23 59 0)) ∧
  (String.length (datetime.strftime_Ym (at_month 2024 1)) = 7 ↔
   (1000 ≤ datetime.year (at_month 2024 1))%N) ∧
  datetime.strftime_Ym (at_month 2024 1) =
    Py.zfill 4 (pretty (datetime.year (at_month 2024 1))) +:+ "-" +:+
    Py.zfill 2 (pretty (datetime.month (at_month 2024 1))) ∧
  chart_of (donation_buckets
              [rice 1 (Some (at_month 2024 1)); rice 2 (Some (at_month 2024 1));
               rice 3 (Some (at_month 2024 3))]) =
    mk_chart ["2024-01"; "2024-03"] [2; 1].
Proof.
  destruct stats_groups_by_month
    as (Hstats & Hunknown & Hdonation & Hreport & Hmonth & Hform & Hpadded &
        Hexample & _).
  split.
  { apply (Hstats admin_ann sample_state).
    - reflexivity.
    - repeat constructor. by eexists. }
  split; [by apply Hunknown|].
  split; [by apply Hdonation|].
  split; [by apply Hreport|].
  split; [apply Hmonth; reflexivity|].
  split; [apply Hform; reflexivity|].
  split; [apply Hpadded; [reflexivity|by vm_compute]|].
  apply (Hexample _ _ _ (at_month 2024 1) (at_month 2024 1) (at_month 2024 3));
    reflexivity.
Defined.

(** C2: a pickup time of the year 999, which the donation form accepts
    written as 0999, is filed under the label 999-01.  The label has six
    characters, not the seven of YYYY-MM, and the chart lists it after the
    months of 2024. *)
Lemma early_year_label :
  let early := datetime.mk 999 1 1 0 0 0 in
  let req :=
    post_as 2 (list_to_map [("description", "rice"); ("food_type", "cooked");
                            ("quantity", "5"); ("pickup_location", "MG Road");
                            ("pickup_time", "0999-01-01T00:00")]) ∅ in
  let st := (add_donation req sample_state).1 in
  datetime.strptime "0999-01-01T00:00" = Some early ∧
  datetime.strftime_Ym early = "999-01" ∧
  String.length (datetime.strftime_Ym early) ≠ 7 ∧
  Donation.pickup_time <$> donations st =
    (Donation.pickup_time <$> donations sample_state) ++ [Some early] ∧
  stats_body admin_ann st =
    (st, render_template "stats.html"
           (stats_context (mk_chart ["2024-01"; "2024-03"; "999-01"] [2; 1; 1])
                          (mk_chart ["2024-02"] [1]) 4)).
Proof.
  split; [by vm_compute|]. split; [by vm_compute|].
  split; [by vm_compute|]. split; by vm_compute.
Qed.

(** ** The map builders, record by record *)

Lemma report_cached_inv r :
  report_cached r = true →
  ∃ la lo, Report.latitude r = Some la ∧ Report.longitude r = Some lo.
Proof.
  unfold report_cached. destruct (Report.latitude r), (Report.longitude r); naive_solver.
Qed.

Lemma donation_cached_inv d :
  donation_cached d = true →
  ∃ la lo, Donation.pickup_latitude d = Some la ∧ Donation.pickup_longitude d = Some lo.
Proof.
  unfold donation_cached.
  destruct (Donation.pickup_latitude d), (Donation.pickup_longitude d); naive_solver.
Qed.

Lemma visit_report_stored g tr r la lo :
  Report.latitude r = Some la → Report.longitude r = Some lo →
  visit_report g tr r = (tr, r, (la, lo)).
Proof. intros Hla Hlo. unfold visit_report. by rewrite Hla, Hlo. Qed.

Lemma visit_report_located g tr r la lo :
  report_cached r = false →
  g tr (Report.location r) = Located la lo →
  visit_report g tr r =
    (tr ++ [Geocode KReport (Report.id r) (Report.location r);
            Persist KReport (Report.id r) la lo; Sleep],
     Report.set_coordinates la lo r, (la, lo)).
Proof.
  unfold report_cached, visit_report. intros Hc Hg. rewrite Hg.
  destruct (Report.latitude r), (Report.longitude r);
    first [discriminate | by rewrite <- app_assoc].
Qed.

Lemma visit_report_fallback g tr r :
  report_cached r = false →
  (∀ la lo, g tr (Report.location r) ≠ Located la lo) →
  visit_report g tr r =
    (tr ++ [Geocode KReport (Report.id r) (Report.location r); Sleep],
     r, (DEFAULT_LAT, DEFAULT_LNG)).
Proof.
  unfold report_cached, visit_report. intros Hc Hg.
  destruct (g tr (Report.location r)) as [la lo| |] eqn:E;
    [by destruct (Hg la lo)|..];
    destruct (Report.latitude r), (Report.longitude r);
    first [discriminate | by rewrite <- app_assoc].
Qed.

Lemma visit_donation_stored g tr d la lo :
  Donation.pickup_latitude d = Some la → Donation.pickup_longitude d = Some lo →
  visit_donation g tr d = (tr, d, Some (la, lo)).
Proof. intros Hla Hlo. unfold visit_donation. by rewrite Hla, Hlo. Qed.

Lemma visit_donation_located g tr d la lo :
  donation_cached d = false →
  g tr (Donation.pickup_location d) = Located la lo →
  visit_donation g tr d =
    (tr ++ [Geocode KDonation (Donation.id d) (Donation.pickup_location d);
            Persist KDonation (Donation.id d) la lo; Sleep],
     Donation.set_coordinates la lo d, Some (la, lo)).
Proof.
  unfold donation_cached, visit_donation. intros Hc Hg. rewrite Hg.
  destruct (Donation.pickup_latitude d), (Donation.pickup_longitude d);
    first [discriminate | by rewrite <- app_assoc].
Qed.

Lemma visit_donation_skipped g tr d :
  donation_cached d = false →
  (∀ la lo, g tr (Donation.pickup_location d) ≠ Located la lo) →
  visit_donation g tr d =
    (tr ++ [Geocode KDonation (Donation.id d) (Donation.pickup_location d)],
     d, None).
Proof.
  unfold donation_cached, visit_donation. intros Hc Hg.
  destruct (g tr (Donation.pickup_location d)) as [la lo| |] eqn:E;
    [by destruct (Hg la lo)|..];
    destruct (Donation.pickup_latitude d), (Donation.pickup_longitude d);
    first [discriminate | reflexivity].
Qed.

(** The loops run through a table front to back: the part after a record
    starts from the trace its visit left. *)
Lemma map_view_loop_split g sel tr l1 r l2 :
  sel r = true →
  map_view_loop g sel tr (l1 ++ r :: l2) =
    let '(tr1, rows1, m1, h1) := map_view_loop g sel tr l1 in
    let '(trr, r', (la, lo)) := visit_report g tr1 r in
    let '(tr2, rows2, m2, h2) := map_view_loop g sel trr l2 in
    (tr2, rows1 ++ r' :: rows2,
     m1 ++ mk_marker la lo (report_popup r') :: m2,
     h1 ++ (la, lo, 1) :: h2).
Proof.
  intros Hsel. revert tr. induction l1 as [|x l1 IH]; intros tr; simpl.
  - rewrite Hsel. destruct (visit_report g tr r) as [[trr r'] [la lo]].
    by destruct (map_view_loop g sel trr l2) as [[[tr2 rows2] m2] h2].
  - destruct (sel x).
    + destruct (visit_report g tr x) as [[trx x'] [lax lox]].
      rewrite IH.
      destruct (map_view_loop g sel trx l1) as [[[tr1 rows1] m1] h1].
      destruct (visit_report g tr1 r) as [[trr r'] [la lo]].
      by destruct (map_view_loop g sel trr l2) as [[[tr2 rows2] m2] h2].
    + rewrite IH.
      destruct (map_view_loop g sel tr l1) as [[[tr1 rows1] m1] h1].
      destruct (visit_report g tr1 r) as [[trr r'] [la lo]].
      by destruct (map_view_loop g sel trr l2) as [[[tr2 rows2] m2] h2].
Qed.

Lemma donation_map_loop_split g tr l1 d l2 :
  donation_map_loop g tr (l1 ++ d :: l2) =
    let '(tr1, rows1, m1) := donation_map_loop g tr l1 in
    let '(trd, d', coords) := visit_donation g tr1 d in
    let '(tr2, rows2, m2) := donation_map_loop g trd l2 in
    (tr2, rows1 ++ d' :: rows2,
     m1 ++ match coords with
           | Some (la, lo) => mk_marker la lo (donation_popup d') :: m2
           | None => m2
           end).
Proof.
  revert tr. induction l1 as [|x l1 IH]; intros tr; simpl.
  - destruct (visit_donation g tr d) as [[trd d'] coords].
    by destruct (donation_map_loop g trd l2) as [[tr2 rows2] m2].
  - destruct (visit_donation g tr x) as [[trx x'] cx].
    rewrite IH.
    destruct (donation_map_loop g trx l1) as [[tr1 rows1] m1].
    destruct (visit_donation g tr1 d) as [[trd d'] coords].
    destruct (donation_map_loop g trd l2) as [[tr2 rows2] m2].
    by destruct cx as [[lax lox]|].
Qed.

(** ** Counting calls and persisted resolutions *)














(** ** Unique keys and the lazy-geocoding invariant *)













(** ** What each handler does to the tables *)

Lemma next_id_fresh ids : next_id ids ∉ ids.
Proof.
  unfold next_id. intros Hin. apply max_list_elem_of_le in Hin. lia.
Qed.




Section HandlerFacts.

Variable nfkd_ascii : string → string.
Variable os_nt : bool.
Variable generate_password_hash : string → string.
Variable check_password_hash : string → string → bool.

Ltac open_form :=
  repeat match goal with
         | |- context [form_get ?req ?k] => destruct (form_get req k); simpl
         end.

Lemma register_tables req st :
  let st' := (register generate_password_hash req st).1 in
  reports st' = reports st ∧ donations st' = donations st ∧ trace st' = trace st.
Proof.
  unfold register, insert_user. destruct (req_method req); [done|].
  simpl. open_form; try done.
  destruct (List.find _ _); [done|].
  by destruct (_ || _).
Qed.

Lemma login_tables req st :
  let st' := (login check_password_hash req st).1.1 in
  reports st' = reports st ∧ donations st' = donations st ∧ trace st' = trace st.
Proof.
  unfold login. destruct (req_method req); [done|].
  simpl. open_form; try done.
  destruct (List.find _ _); [|done].
  by destruct (check_password_hash _ _).
Qed.

Lemma create_event_tables req st :
  let st' := (create_event req st).1 in
  reports st' = reports st ∧ donations st' = donations st ∧ trace st' = trace st.
Proof.
  unfold create_event, login_required, create_event_body.
  destruct (current_user req st); [|done].
  destruct (decide _); [done|].
  destruct (req_method req); [done|].
  simpl. open_form; try done.
  all: destruct (datetime.strptime _); simpl; open_form; done.
Qed.

Lemma stats_tables req st : (stats req st).1 = st ∨ ∃ msg, (stats req st).1 = flash msg st.
Proof.
  unfold stats, login_required, stats_body.
  destruct (current_user req st); [|right; by eexists].
  destruct (decide _); [right; by eexists|].
  left. by destruct (report_buckets _ _).
Qed.

Lemma add_donation_tables req st :
  let st' := (add_donation req st).1 in
  reports st' = reports st ∧ trace st' = trace st ∧
  (donations st' = donations st ∨
   ∃ d, donations st' = donations st ++ [d] ∧
        Donation.id d = next_id (Donation.id <$> donations st)).
Proof.
  unfold add_donation, login_required, add_donation_body.
  destruct (current_user req st); [|by auto].
  destruct (req_method req); [by auto|].
  simpl. open_form; try by auto.
  destruct (datetime.strptime _); simpl; [|by auto].
  split; [done|]. split; [done|]. right. by eexists.
Qed.

Lemma report_animal_tables now req st :
  let st' := (report_animal nfkd_ascii os_nt now req st).1 in
  donations st' = donations st ∧ trace st' = trace st ∧
  (reports st' = reports st ∨
   ∃ r, reports st' = reports st ++ [r] ∧
        Report.id r = next_id (Report.id <$> reports st) ∧
        Report.report_time r = Some now).
Proof.
  unfold report_animal, login_required, report_animal_body.
  destruct (current_user req st); [|by auto].
  destruct (req_method req); [by auto|].
  simpl. open_form; try by auto.
  destruct (files req !! "image") as [fn|]; simpl.
  - destruct (negb _ && _); simpl; (split; [done|]); (split; [done|]);
      right; by eexists.
  - split; [done|]. split; [done|]. right. by eexists.
Qed.

End HandlerFacts.

(** ** Histories keep the lazy-geocoding invariant *)

Lemma map_view_state g req st cu :
  current_user req st = Some cu →
  (map_view g req st).1 =
    set_trace
      (mv_trace g (report_filter (default "" (args req !! "animal_type")))
                (trace st) (reports st))
      (set_reports
         (mv_rows g (report_filter (default "" (args req !! "animal_type")))
                  (trace st) (reports st)) st).
Proof.
  intros Hcu. unfold map_view, login_required, map_view_body, mv_trace, mv_rows.
  rewrite Hcu.
  by destruct (map_view_loop _ _ _ _) as [[[tr rows] ms] hs].
Qed.

Lemma donation_map_state g req st cu :
  current_user req st = Some cu →
  (donation_map g req st).1 =
    set_trace (dm_trace g (trace st) (donations st))
              (set_donations (dm_rows g (trace st) (donations st)) st).
Proof.
  intros Hcu. unfold donation_map, login_required, donation_map_body, dm_trace, dm_rows.
  rewrite Hcu.
  by destruct (donation_map_loop _ _ _) as [[tr rows] ms].
Qed.

Lemma map_view_anonymous g req st :
  current_user req st = None →
  (map_view g req st).1 = flash "Please log in to access this page." st.
Proof. intros Hcu. unfold map_view, login_required. by rewrite Hcu. Qed.

Lemma donation_map_anonymous g req st :
  current_user req st = None →
  (donation_map g req st).1 = flash "Please log in to access this page." st.
Proof. intros Hcu. unfold donation_map, login_required. by rewrite Hcu. Qed.

Section Histories.

Variable nfkd_ascii : string → string.
Variable os_nt : bool.
Variable generate_password_hash : string → string.
Variable check_password_hash : string → string → bool.

Local Abbreviation step :=
  (step nfkd_ascii os_nt generate_password_hash check_password_hash).
Local Abbreviation run :=
  (run nfkd_ascii os_nt generate_password_hash check_password_hash).






End Histories.

(** ** A record with stored coordinates *)

Lemma map_view_stored g sel tr l1 r l2 la lo :
  sel r = true →
  Report.latitude r = Some la → Report.longitude r = Some lo →
  mv_markers g sel tr (l1 ++ r :: l2) =
    mv_markers g sel tr l1 ++
    mk_marker la lo (report_popup r) :: mv_markers g sel (mv_trace g sel tr l1) l2 ∧
  mv_trace g sel tr (l1 ++ r :: l2) = mv_trace g sel (mv_trace g sel tr l1) l2 ∧
  mv_rows g sel tr (l1 ++ r :: l2) =
    mv_rows g sel tr l1 ++ r :: mv_rows g sel (mv_trace g sel tr l1) l2.
Proof.
  intros Hsel Hla Hlo. unfold mv_markers, mv_trace, mv_rows.
  rewrite (map_view_loop_split g sel tr l1 r l2 Hsel).
  destruct (map_view_loop g sel tr l1) as [[[tr1 rows1] m1] h1]. simpl.
  rewrite (visit_report_stored g tr1 r la lo Hla Hlo).
  by destruct (map_view_loop g sel tr1 l2) as [[[tr2 rows2] m2] h2].
Qed.

Lemma donation_map_stored g tr l1 d l2 la lo :
  Donation.pickup_latitude d = Some la → Donation.pickup_longitude d = Some lo →
  dm_markers g tr (l1 ++ d :: l2) =
    dm_markers g tr l1 ++
    mk_marker la lo (donation_popup d) :: dm_markers g (dm_trace g tr l1) l2 ∧
  dm_trace g tr (l1 ++ d :: l2) = dm_trace g (dm_trace g tr l1) l2 ∧
  dm_rows g tr (l1 ++ d :: l2) =
    dm_rows g tr l1 ++ d :: dm_rows g (dm_trace g tr l1) l2.
Proof.
  intros Hla Hlo. unfold dm_markers, dm_trace, dm_rows.
  rewrite (donation_map_loop_split g tr l1 d l2).
  destruct (donation_map_loop g tr l1) as [[tr1 rows1] m1]. simpl.
  rewrite (visit_donation_stored g tr1 d la lo Hla Hlo).
  by destruct (donation_map_loop g tr1 l2) as [[tr2 rows2] m2].
Qed.



(** ** A record the geocoder does not resolve, and one it resolves *)

Lemma map_view_unresolved g sel tr l1 r l2 :
  sel r = true → report_cached r = false →
  (∀ la lo, g (mv_trace g sel tr l1) (Report.location r) ≠ Located la lo) →
  let after :=
    mv_trace g sel tr l1 ++
    [Geocode KReport (Report.id r) (Report.location r); Sleep] in
  mv_markers g sel tr (l1 ++ r :: l2) =
    mv_markers g sel tr l1 ++
    mk_marker DEFAULT_LAT DEFAULT_LNG (report_popup r) :: mv_markers g sel after l2 ∧
  mv_trace g sel tr (l1 ++ r :: l2) = mv_trace g sel after l2 ∧
  mv_rows g sel tr (l1 ++ r :: l2) = mv_rows g sel tr l1 ++ r :: mv_rows g sel after l2.
Proof.
  intros Hsel Hc Hg. unfold mv_markers, mv_trace, mv_rows in *.
  rewrite (map_view_loop_split g sel tr l1 r l2 Hsel).
  destruct (map_view_loop g sel tr l1) as [[[tr1 rows1] m1] h1]. simpl in *.
  rewrite (visit_report_fallback g tr1 r Hc Hg).
  by destruct (map_view_loop g sel _ l2) as [[[tr2 rows2] m2] h2].
Qed.

Lemma map_view_resolved g sel tr l1 r l2 la lo :
  sel r = true → report_cached r = false →
  g (mv_trace g sel tr l1) (Report.location r) = Located la lo →
  let after :=
    mv_trace g sel tr l1 ++
    [Geocode KReport (Report.id r) (Report.location r);
     Persist KReport (Report.id r) la lo; Sleep] in
  mv_markers g sel tr (l1 ++ r :: l2) =
    mv_markers g sel tr l1 ++
    mk_marker la lo (report_popup r) :: mv_markers g sel after l2 ∧
  mv_trace g sel tr (l1 ++ r :: l2) = mv_trace g sel after l2 ∧
  mv_rows g sel tr (l1 ++ r :: l2) =
    mv_rows g sel tr l1 ++ Report.set_coordinates la lo r :: mv_rows g sel after l2.
Proof.
  intros Hsel Hc Hg. unfold mv_markers, mv_trace, mv_rows in *.
  rewrite (map_view_loop_split g sel tr l1 r l2 Hsel).
  destruct (map_view_loop g sel tr l1) as [[[tr1 rows1] m1] h1]. simpl in *.
  rewrite (visit_report_located g tr1 r la lo Hc Hg).
  by destruct (map_view_loop g sel _ l2) as [[[tr2 rows2] m2] h2].
Qed.

Lemma donation_map_unresolved g tr l1 d l2 :
  donation_cached d = false →
  (∀ la lo, g (dm_trace g tr l1) (Donation.pickup_location d) ≠ Located la lo) →
  let after :=
    dm_trace g tr l1 ++
    [Geocode KDonation (Donation.id d) (Donation.pickup_location d)] in
  dm_markers g tr (l1 ++ d :: l2) = dm_markers g tr l1 ++ dm_markers g after l2 ∧
  dm_trace g tr (l1 ++ d :: l2) = dm_trace g after l2 ∧
  dm_rows g tr (l1 ++ d :: l2) = dm_rows g tr l1 ++ d :: dm_rows g after l2.
Proof.
  intros Hc Hg. unfold dm_markers, dm_trace, dm_rows in *.
  rewrite (donation_map_loop_split g tr l1 d l2).
  destruct (donation_map_loop g tr l1) as [[tr1 rows1] m1]. simpl in *.
  rewrite (visit_donation_skipped g tr1 d Hc Hg).
  by destruct (donation_map_loop g _ l2) as [[tr2 rows2] m2].
Qed.

Lemma donation_map_resolved g tr l1 d l2 la lo :
  donation_cached d = false →
  g (dm_trace g tr l1) (Donation.pickup_location d) = Located la lo →
  let after :=
    dm_trace g tr l1 ++
    [Geocode KDonation (Donation.id d) (Donation.pickup_location d);
     Persist KDonation (Donation.id d) la lo; Sleep] in
  dm_markers g tr (l1 ++ d :: l2) =
    dm_markers g tr l1 ++
    mk_marker la lo (donation_popup d) :: dm_markers g after l2 ∧
  dm_trace g tr (l1 ++ d :: l2) = dm_trace g after l2 ∧
  dm_rows g tr (l1 ++ d :: l2) =
    dm_rows g tr l1 ++ Donation.set_coordinates la lo d :: dm_rows g after l2.
Proof.
  intros Hc Hg. unfold dm_markers, dm_trace, dm_rows in *.
  rewrite (donation_map_loop_split g tr l1 d l2).
  destruct (donation_map_loop g tr l1) as [[tr1 rows1] m1]. simpl in *.
  rewrite (visit_donation_located g tr1 d la lo Hc Hg).
  by destruct (donation_map_loop g _ l2) as [[tr2 rows2] m2].
Qed.

(** Wherever it stands in the table, a record with stored coordinates has
    its marker in the result. *)
Lemma map_view_stored_marker g sel tr rows r la lo :
  r ∈ rows → sel r = true →
  Report.latitude r = Some la → Report.longitude r = Some lo →
  mk_marker la lo (report_popup r) ∈ mv_markers g sel tr rows.
Proof.
  intros (l1 & l2 & ->)%list_elem_of_split Hsel Hla Hlo.
  destruct (map_view_stored g sel tr l1 r l2 la lo Hsel Hla Hlo) as [-> _].
  apply elem_of_app. right. left.
Qed.

Lemma donation_map_stored_marker g tr rows d la lo :
  d ∈ rows →
  Donation.pickup_latitude d = Some la → Donation.pickup_longitude d = Some lo →
  mk_marker la lo (donation_popup d) ∈ dm_markers g tr rows.
Proof.
  intros (l1 & l2 & ->)%list_elem_of_split Hla Hlo.
  destruct (donation_map_stored g tr l1 d l2 la lo Hla Hlo) as [-> _].
  apply elem_of_app. right. left.
Qed.

(** Both views answer a logged-in user with their page, whatever the
    geocoder does. *)
Lemma map_view_renders g req st cu :
  current_user req st = Some cu →
  ∃ ctx, (map_view g req st).2 = render_template "map.html" ctx.
Proof.
  intros Hcu. unfold map_view, login_required, map_view_body. rewrite Hcu.
  destruct (map_view_loop _ _ _ _) as [[[tr rows] ms] hs]. by eexists.
Qed.

Lemma donation_map_renders g req st cu :
  current_user req st = Some cu →
  ∃ ctx, (donation_map g req st).2 = render_template "donation_map.html" ctx.
Proof.
  intros Hcu. unfold donation_map, login_required, donation_map_body. rewrite Hcu.
  destruct (donation_map_loop _ _ _) as [[tr rows] ms]. by eexists.
Qed.

(** ** What the two views answer with *)

(** For a logged-in user the page of each view carries the markers of its
    loop over the table. *)
Lemma map_view_response g req st cu :
  current_user req st = Some cu →
  (map_view g req st).2 =
    render_template "map.html"
      (map_context
         (mv_markers g (report_filter (default "" (args req !! "animal_type")))
                     (trace st) (reports st))
         (remove_dups (Report.animal_type <$> reports st))
         (default "" (args req !! "animal_type"))
         (mv_heat g (report_filter (default "" (args req !! "animal_type")))
                  (trace st) (reports st))).
Proof.
  intros Hcu. unfold map_view, login_required, map_view_body, mv_markers, mv_heat.
  rewrite Hcu.
  by destruct (map_view_loop _ _ _ _) as [[[tr rows] ms] hs].
Qed.

Lemma donation_map_response g req st cu :
  current_user req st = Some cu →
  (donation_map g req st).2 =
    render_template "donation_map.html"
      (donation_map_context (dm_markers g (trace st) (donations st))).
Proof.
  intros Hcu. unfold donation_map, login_required, donation_map_body, dm_markers.
  rewrite Hcu.
  by destruct (donation_map_loop _ _ _) as [[tr rows] ms].
Qed.



(** A record that the geocoder does not resolve, in the answers. *)
Lemma map_view_page_unresolved g req st cu l1 r l2 :
  current_user req st = Some cu → reports st = l1 ++ r :: l2 →
  let animal_filter := default "" (args req !! "animal_type") in
  let sel := report_filter animal_filter in
  sel r = true → report_cached r = false →
  (∀ la lo, g (mv_trace g sel (trace st) l1) (Report.location r) ≠ Located la lo) →
  let after :=
    mv_trace g sel (trace st) l1 ++
    [Geocode KReport (Report.id r) (Report.location r); Sleep] in
  ∃ distinct_animals heat_data,
    (map_view g req st).2 =
      render_template "map.html"
        (map_context
           (mv_markers g sel (trace st) l1 ++
            mk_marker DEFAULT_LAT DEFAULT_LNG (report_popup r) ::
            mv_markers g sel after l2)
           distinct_animals animal_filter heat_data) ∧
    reports (map_view g req st).1 =
      mv_rows g sel (trace st) l1 ++ r :: mv_rows g sel after l2.
Proof.
  intros Hcu Hrows animal_filter sel Hsel Hc Hg after.
  rewrite (map_view_response g req st cu Hcu), (map_view_state g req st cu Hcu).
  fold animal_filter. fold sel. rewrite Hrows. simpl.
  destruct (map_view_unresolved g sel (trace st) l1 r l2 Hsel Hc Hg)
    as (-> & _ & ->).
  by eexists _, _.
Qed.

Lemma donation_map_page_unresolved g req st cu l1 d l2 :
  current_user req st = Some cu → donations st = l1 ++ d :: l2 →
  donation_cached d = false →
  (∀ la lo,
     g (dm_trace g (trace st) l1) (Donation.pickup_location d) ≠ Located la lo) →
  let after :=
    dm_trace g (trace st) l1 ++
    [Geocode KDonation (Donation.id d) (Donation.pickup_location d)] in
  (donation_map g req st).2 =
    render_template "donation_map.html"
      (donation_map_context
         (dm_markers g (trace st) l1 ++ dm_markers g after l2)) ∧
  donations (donation_map g req st).1 =
    dm_rows g (trace st) l1 ++ d :: dm_rows g after l2.
Proof.
  intros Hcu Hrows Hc Hg after.
  rewrite (donation_map_response g req st cu Hcu),
    (donation_map_state g req st cu Hcu), Hrows. simpl.
  by destruct (donation_map_unresolved g (trace st) l1 d l2 Hc Hg)
    as (-> & _ & ->).
Qed.

(** The markers that the answers always include: those of the records with
    stored coordinates and those of the records the geocoder resolves when
    their turn comes. *)
Lemma map_view_page_includes g req st cu :
  current_user req st = Some cu →
  let animal_filter := default "" (args req !! "animal_type") in
  let sel := report_filter animal_filter in
  ∃ markers distinct_animals heat_data,
    (map_view g req st).2 =
      render_template "map.html"
        (map_context markers distinct_animals animal_filter heat_data) ∧
    (∀ r la lo,
       r ∈ reports st → sel r = true →
       Report.latitude r = Some la → Report.longitude r = Some lo →
       mk_marker la lo (report_popup r) ∈ markers) ∧
    (∀ l1 r l2 la lo,
       reports st = l1 ++ r :: l2 → sel r = true → report_cached r = false →
       g (mv_trace g sel (trace st) l1) (Report.location r) = Located la lo →
       mk_marker la lo (report_popup r) ∈ markers).
Proof.
  intros Hcu animal_filter sel.
  rewrite (map_view_response g req st cu Hcu). fold animal_filter. fold sel.
  eexists _, _, _. split; [reflexivity|]. split.
  - intros r la lo Hin Hsel Hla Hlo. by apply map_view_stored_marker.
  - intros l1 r l2 la lo -> Hsel Hc Hg.
    destruct (map_view_resolved g sel (trace st) l1 r l2 la lo Hsel Hc Hg)
      as [-> _].
    apply elem_of_app. right. left.
Qed.

Lemma donation_map_page_includes g req st cu :
  current_user req st = Some cu →
  ∃ markers,
    (donation_map g req st).2 =
      render_template "donation_map.html" (donation_map_context markers) ∧
    (∀ d la lo,
       d ∈ donations st →
       Donation.pickup_latitude d = Some la → Donation.pickup_longitude d = Some lo →
       mk_marker la lo (donation_popup d) ∈ markers) ∧
    (∀ l1 d l2 la lo,
       donations st = l1 ++ d :: l2 → donation_cached d = false →
       g (dm_trace g (trace st) l1) (Donation.pickup_location d) = Located la lo →
       mk_marker la lo (donation_popup d) ∈ markers).
Proof.
  intros Hcu. rewrite (donation_map_response g req st cu Hcu).
  eexists. split; [reflexivity|]. split.
  - intros d la lo Hin Hla Hlo. by apply donation_map_stored_marker.
  - intros l1 d l2 la lo -> Hc Hg.
    destruct (donation_map_resolved g (trace st) l1 d l2 la lo Hc Hg) as [-> _].
    apply elem_of_app. right. left.
Qed.

(** ** Points *)

Lemma find_award uid n uid' us :
  List.find (λ u, bool_decide (User.id u = uid'))
    ((λ u, if bool_decide (User.id u = uid) then User.add_points n u else u) <$> us) =
  (λ u, if bool_decide (User.id u = uid) then User.add_points n u else u) <$>
    List.find (λ u, bool_decide (User.id u = uid')) us.
Proof.
  induction us as [|u us IH]; [done|]. rewrite fmap_cons. simpl.
  assert (Hid : User.id (if bool_decide (User.id u = uid)
                         then User.add_points n u else u) = User.id u)
    by (by destruct (bool_decide (User.id u = uid))).
  rewrite Hid. destruct (bool_decide (User.id u = uid')); [done|apply IH].
Qed.

Lemma award_points_others uid n (us : list User.t) :
  Forall2 (λ u u', if decide (User.id u = uid)
                   then u' = User.add_points n u else u' = u)
          us
          ((λ u, if bool_decide (User.id u = uid) then User.add_points n u else u)
             <$> us).
Proof.
  induction us as [|u us IH]; [constructor|].
  rewrite fmap_cons. constructor; [|done].
  destruct (decide (User.id u = uid)) as [Hid|Hid].
  - by rewrite bool_decide_true.
  - by rewrite bool_decide_false.
Qed.

Lemma current_user_load req st cu :
  current_user req st = Some cu → load_user st (User.id cu) = Some cu.
Proof.
  unfold current_user, load_user. destruct (session_user req) as [uid|]; [|done].
  simpl. intros Hfind. pose proof Hfind as [_ Hid%bool_decide_eq_true]%find_some.
  by rewrite Hid.
Qed.

(** ** File names *)

Lemma all_chars_filter p s : all_chars p (Py.filter p s) = true.
Proof.
  induction s as [|a s IH]; [done|]. simpl.
  destruct (p a) eqn:Hp; [simpl; by rewrite Hp|done].
Qed.

Lemma all_chars_lstrip p q s :
  all_chars p s = true → all_chars p (Py.lstrip q s) = true.
Proof.
  induction s as [|a s IH]; [done|]. simpl.
  intros [Ha Hs]%andb_true_iff. destruct (q a); [by apply IH|].
  simpl. by rewrite Ha, Hs.
Qed.

Lemma all_chars_rstrip p q s :
  all_chars p s = true → all_chars p (Py.rstrip q s) = true.
Proof.
  induction s as [|a s IH]; [done|]. simpl.
  intros [Ha Hs]%andb_true_iff. specialize (IH Hs).
  destruct (Py.rstrip q s); [destruct (q a); simpl; by rewrite ?Ha|].
  simpl in *. by rewrite Ha, IH.
Qed.

Lemma lstrip_head p s a t : Py.lstrip p s = String a t → p a = false.
Proof.
  induction s as [|b s IH]; [done|]. simpl.
  destruct (p b) eqn:Hp; [done|]. intros [= <- _]. done.
Qed.

Lemma rstrip_head p s a t : Py.rstrip p s = String a t → ∃ t', s = String a t'.
Proof.
  destruct s as [|b s]; [done|]. simpl.
  destruct (Py.rstrip p s); [destruct (p b)|]; intros [= <- _]; by eexists.
Qed.

Lemma strip_head p s a t : Py.strip p s = String a t → p a = false.
Proof.
  unfold Py.strip. intros [t' Ht']%rstrip_head. by apply lstrip_head in Ht'.
Qed.

Lemma all_chars_contains p c s :
  all_chars p s = true → p c = false → Py.contains c s = false.
Proof.
  intros Hall Hc. induction s as [|a s IH]; [done|]. simpl in *.
  apply andb_true_iff in Hall as [Ha Hs].
  destruct (decide (a = c)) as [->|_]; [congruence|by apply IH].
Qed.

Lemma single_component s :
  all_chars (λ c, negb (is_separator c)) s = true → path_components s = [s].
Proof.
  induction s as [|a s IH]; [done|]. simpl.
  intros [Ha Hs]%andb_true_iff. apply negb_true_iff in Ha. rewrite Ha.
  by rewrite (IH Hs).
Qed.

Lemma all_chars_weaken (p q : ascii → bool) s :
  (∀ c, p c = true → q c = true) → all_chars p s = true → all_chars q s = true.
Proof.
  intros Hpq. induction s as [|a s IH]; [done|]. simpl.
  intros [Ha Hs]%andb_true_iff. by rewrite (Hpq a Ha), IH.
Qed.

Lemma filename_char_not_separator c :
  filename_char c = true → negb (is_separator c) = true.
Proof.
  intros Hc. apply negb_true_iff. unfold is_separator.
  apply orb_false_iff. split; apply bool_decide_eq_false; intros ->; done.
Qed.

Lemma secure_filename_safe nfkd_ascii os_nt fn :
  all_chars filename_char (secure_filename nfkd_ascii os_nt fn) = true ∧
  path_safe (secure_filename nfkd_ascii os_nt fn).
Proof.
  unfold secure_filename.
  set (raw := Py.filter filename_char _).
  assert (Hraw : all_chars filename_char (Py.strip dot_or_underscore raw) = true).
  { unfold Py.strip. apply all_chars_rstrip, all_chars_lstrip, all_chars_filter. }
  assert (Hhead : ∀ a t, Py.strip dot_or_underscore raw = String a t →
                        dot_or_underscore a = false) by apply strip_head.
  set (name := Py.strip dot_or_underscore raw) in *.
  assert (Hall : all_chars filename_char
            (if os_nt && negb (bool_decide (name = "")) &&
                bool_decide (Py.upper (Py.before_first "." name) ∈ windows_device_files)
             then "_" +:+ name else name) = true).
  { by destruct (_ && _ && _). }
  split; [done|]. unfold path_safe.
  split; [by apply (all_chars_contains filename_char)|].
  split; [by apply (all_chars_contains filename_char)|].
  split.
  { apply single_component.
    apply (all_chars_weaken filename_char);
      [intros c; apply filename_char_not_separator|exact Hall]. }
  destruct (_ && _ && _); [done|].
  split; intros Heq; by specialize (Hhead _ _ Heq).
Qed.

(** [allowed_file] reads the extension after the last dot. *)
Lemma rsplit1_none c s : Py.rsplit1 c s = None ↔ Py.contains c s = false.
Proof.
  induction s as [|a s IH]; [done|]. simpl.
  destruct (Py.rsplit1 c s) as [[h t]|].
  - destruct (decide (a = c)); [done|]. split; [done|]. intros Hc.
    by apply IH in Hc.
  - destruct (decide (a = c)); [done|]. split; [intros _; by apply IH|done].
Qed.

Lemma rsplit1_sound c s h t :
  Py.rsplit1 c s = Some (h, t) →
  s = h +:+ String c t ∧ Py.contains c t = false.
Proof.
  revert h. induction s as [|a s IH]; intros h; [done|]. simpl.
  destruct (Py.rsplit1 c s) as [[h' t']|] eqn:Hs.
  - intros [= <- <-]. destruct (IH h' eq_refl) as [-> Hc]. done.
  - destruct (decide (a = c)) as [->|]; [|done]. intros [= <- <-].
    split; [done|]. by apply rsplit1_none.
Qed.

Lemma rsplit1_complete c h t :
  Py.contains c t = false → Py.rsplit1 c (h +:+ String c t) = Some (h, t).
Proof.
  intros Hc. induction h as [|a h IH]; simpl.
  - apply rsplit1_none in Hc. rewrite Hc. by rewrite decide_True.
  - change (String a h +:+ String c t) with (String a (h +:+ String c t)).
    simpl. by rewrite IH.
Qed.

Lemma contains_app c h t : Py.contains c (h +:+ String c t) = true.
Proof.
  induction h as [|a h IH]; simpl.
  - by rewrite decide_True.
  - change (String a h +:+ String c t) with (String a (h +:+ String c t)).
    simpl. destruct (decide (a = c)); [done|apply IH].
Qed.

Lemma allowed_file_spec fn :
  allowed_file fn = true ↔
  ∃ stem ext,
    fn = stem +:+ "." +:+ ext ∧ Py.contains "." ext = false ∧
    Py.lower ext ∈ ALLOWED_EXTENSIONS.
Proof.
  unfold allowed_file. split.
  - intros [_ Hext]%andb_true_iff.
    destruct (Py.rsplit1 "." fn) as [[stem ext]|] eqn:Hsplit; [|done].
    apply rsplit1_sound in Hsplit as [-> Hc].
    exists stem, ext. split; [done|]. split; [done|].
    by apply bool_decide_eq_true in Hext.
  - intros (stem & ext & -> & Hc & Hext).
    change (stem +:+ "." +:+ ext) with (stem +:+ String "." ext).
    rewrite contains_app, (rsplit1_complete "." stem ext Hc). simpl.
    by apply bool_decide_eq_true.
Qed.

Lemma allowed_extensions e :
  e ∈ ALLOWED_EXTENSIONS ↔ e = "png" ∨ e = "jpg" ∨ e = "jpeg" ∨ e = "gif".
Proof. unfold ALLOWED_EXTENSIONS. set_solver. Qed.

(** ** Lookups by column value, and totals of a chart *)

Lemma find_email_none email (us : list User.t) :
  email ∉ (User.email <$> us) →
  List.find (λ u, bool_decide (User.email u = email)) us = None.
Proof.
  induction us as [|u us IH]; [done|].
  rewrite fmap_cons, not_elem_of_cons. intros [Hne Hnot]. simpl.
  rewrite bool_decide_false by done. by apply IH.
Qed.

Lemma find_email_some email (us : list User.t) :
  email ∈ (User.email <$> us) →
  is_Some (List.find (λ u, bool_decide (User.email u = email)) us).
Proof.
  induction us as [|u us IH]; [by intros ?%elem_of_nil|].
  rewrite fmap_cons, elem_of_cons. intros Hin. simpl.
  case_bool_decide as Hu; [by eexists|].
  apply IH. by destruct Hin as [->|].
Qed.

Lemma find_new_user (f : User.t → bool) us u :
  (∀ x, x ∈ us → f x = false) → f u = true →
  List.find f (us ++ [u]) = Some u.
Proof.
  intros Hold Hu. induction us as [|x us IH]; simpl.
  - by rewrite Hu.
  - rewrite (Hold x) by left. apply IH. intros y Hy. apply Hold. by right.
Qed.

Lemma indicator_total (k : string) ks :
  NoDup ks → k ∈ ks →
  sum_list ((λ k', if decide (k = k') then 1 else 0) <$> ks) = 1.
Proof.
  induction 1 as [|k0 ks Hnot Hnd IH]; [by intros ?%elem_of_nil|].
  rewrite fmap_cons. simpl. intros [->|Hin]%elem_of_cons.
  - rewrite decide_True by done.
    assert (Hz : sum_list ((λ k', if decide (k0 = k') then 1 else 0) <$> ks) = 0).
    { clear IH Hnd. induction ks as [|k1 ks IH]; [done|].
      apply not_elem_of_cons in Hnot as [Hne Hnot].
      rewrite fmap_cons. simpl. rewrite decide_False by done. by apply IH. }
    lia.
  - rewrite decide_False by (intros ->; done). by apply IH.
Qed.

Lemma key_count_total {A} (key : A → string) rows ks :
  NoDup ks → (∀ x, x ∈ rows → key x ∈ ks) →
  sum_list ((λ k, key_count key k rows) <$> ks) = length rows.
Proof.
  intros Hnd. induction rows as [|x rows IH]; intros Hcov.
  - unfold key_count. simpl. clear. induction ks as [|k ks IHk]; [done|].
    rewrite fmap_cons. simpl. apply IHk.
  - replace (length (x :: rows)) with (1 + length rows) by done.
    rewrite <- IH by (intros y Hy; apply Hcov; by right).
    rewrite <- (indicator_total (key x) ks Hnd) by (apply Hcov; left).
    clear. induction ks as [|k ks IHk]; [done|].
    rewrite !fmap_cons. simpl. rewrite key_count_cons. lia.
Qed.

(** ** Every report keeps its [report_time] *)

Lemma visit_report_time g tr r :
  Report.report_time (visit_report g tr r).1.2 = Report.report_time r.
Proof.
  unfold visit_report.
  destruct (Report.latitude r), (Report.longitude r); try done;
    by destruct (g tr (Report.location r)).
Qed.

Lemma map_view_loop_timed g sel tr rows :
  Forall (λ r, is_Some (Report.report_time r)) rows →
  Forall (λ r, is_Some (Report.report_time r)) (mv_rows g sel tr rows).
Proof.
  unfold mv_rows. intros Hall. revert tr.
  induction Hall as [|r rows Hr _ IH]; intros tr; [constructor|]. simpl.
  destruct (sel r).
  - pose proof (visit_report_time g tr r) as Htime.
    destruct (visit_report g tr r) as [[tr1 r1] [la lo]]. simpl in Htime.
    specialize (IH tr1).
    destruct (map_view_loop g sel tr1 rows) as [[[tr2 rows2] m2] h2].
    simpl in *. constructor; [by rewrite Htime|done].
  - specialize (IH tr).
    destruct (map_view_loop g sel tr rows) as [[[tr2 rows2] m2] h2].
    simpl in *. by constructor.
Qed.

Section Timed.

Variable nfkd_ascii : string → string.
Variable os_nt : bool.
Variable generate_password_hash : string → string.
Variable check_password_hash : string → string → bool.

Local Abbreviation step :=
  (step nfkd_ascii os_nt generate_password_hash check_password_hash).
Local Abbreviation run :=
  (run nfkd_ascii os_nt generate_password_hash check_password_hash).

Lemma step_timed a st :
  Forall (λ r, is_Some (Report.report_time r)) (reports st) →
  Forall (λ r, is_Some (Report.report_time r)) (reports (step a st)).
Proof.
  intros Hall. destruct a as [req|req|req|now req|req|req|g req|g req]; simpl.
  - destruct (register_tables generate_password_hash req st) as (-> & _). done.
  - destruct (login_tables check_password_hash req st) as (-> & _). done.
  - destruct (add_donation_tables req st) as (-> & _). done.
  - destruct (report_animal_tables nfkd_ascii os_nt now req st)
      as (_ & _ & [->|(r & -> & _ & Htime)]); [done|].
    apply Forall_app. split; [done|]. repeat constructor. by rewrite Htime.
  - destruct (create_event_tables req st) as (-> & _). done.
  - by destruct (stats_tables req st) as [->|[msg ->]].
  - destruct (current_user req st) as [cu|] eqn:Hcu.
    + rewrite (map_view_state g req st cu Hcu). simpl.
      by apply map_view_loop_timed.
    + by rewrite (map_view_anonymous g req st Hcu).
  - destruct (current_user req st) as [cu|] eqn:Hcu.
    + by rewrite (donation_map_state g req st cu Hcu).
    + by rewrite (donation_map_anonymous g req st Hcu).
Qed.

Lemma run_timed acts st :
  Forall (λ r, is_Some (Report.report_time r)) (reports st) →
  Forall (λ r, is_Some (Report.report_time r)) (reports (run acts st)).
Proof.
  revert st. induction acts as [|a acts IH]; intros st Hall; [done|].
  simpl. by apply IH, step_timed.
Qed.

End Timed.

Section Claims.

Variable nfkd_ascii : string → string.
Variable os_nt : bool.
Variable generate_password_hash : string → string.
Variable check_password_hash : string → string → bool.

Local Abbreviation run :=
  (run nfkd_ascii os_nt generate_password_hash check_password_hash).


(** C3 (amended).  The fallback coordinate is (12.9716, 77.5946).  When the
    geocoder finds no match for the address of a report without stored
    coordinates, [map_view] emits the marker of that report at the fallback
    coordinate, persists nothing on it and goes on with the rest of the
    table.  When it finds no match for a donation without stored
    coordinates, [donation_map] emits no marker for that donation, persists
    nothing on it and goes on with the rest of the table.  This is stated
    of the loops and of the page with which each view answers a logged-in
    user: the markers of [map_view] have the fallback marker of the report
    between those of the records before and after it, and the markers of
    [donation_map] are those of the other donations. *)
Theorem unmatched_address_policy :
  (DEFAULT_LAT, DEFAULT_LNG) = (12.9716%Q, 77.5946%Q) ∧
  (∀ g sel tr l1 r l2,
     sel r = true → report_cached r = false →
     g (mv_trace g sel tr l1) (Report.location r) = NoMatch →
     mv_markers g sel tr (l1 ++ r :: l2) =
       mv_markers g sel tr l1 ++
       mk_marker DEFAULT_LAT DEFAULT_LNG (report_popup r) ::
       mv_markers g sel
         (mv_trace g sel tr l1 ++
          [Geocode KReport (Report.id r) (Report.location r); Sleep]) l2 ∧
     mv_rows g sel tr (l1 ++ r :: l2) =
       mv_rows g sel tr l1 ++ r ::
       mv_rows g sel
         (mv_trace g sel tr l1 ++
          [Geocode KReport (Report.id r) (Report.location r); Sleep]) l2) ∧
  (∀ g tr l1 d l2,
     donation_cached d = false →
     g (dm_trace g tr l1) (Donation.pickup_location d) = NoMatch →
     dm_markers g tr (l1 ++ d :: l2) =
       dm_markers g tr l1 ++
       dm_markers g
         (dm_trace g tr l1 ++
          [Geocode KDonation (Donation.id d) (Donation.pickup_location d)]) l2 ∧
     dm_rows g tr (l1 ++ d :: l2) =
       dm_rows g tr l1 ++ d ::
       dm_rows g
         (dm_trace g tr l1 ++
          [Geocode KDonation (Donation.id d) (Donation.pickup_location d)]) l2) ∧
  (∀ g req st cu l1 r l2,
     current_user req st = Some cu → reports st = l1 ++ r :: l2 →
     let animal_filter := default "" (args req !! "animal_type") in
     let sel := report_filter animal_filter in
     sel r = true → report_cached r = false →
     g (mv_trace g sel (trace st) l1) (Report.location r) = NoMatch →
     let after :=
       mv_trace g sel (trace st) l1 ++
       [Geocode KReport (Report.id r) (Report.location r); Sleep] in
     ∃ distinct_animals heat_data,
       (map_view g req st).2 =
         render_template "map.html"
           (map_context
              (mv_markers g sel (trace st) l1 ++
               mk_marker 12.9716%Q 77.5946%Q (report_popup r) ::
               mv_markers g sel after l2)
              distinct_animals animal_filter heat_data) ∧
       reports (map_view g req st).1 =
         mv_rows g sel (trace st) l1 ++ r :: mv_rows g sel after l2) ∧
  (∀ g req st cu l1 d l2,
     current_user req st = Some cu → donations st = l1 ++ d :: l2 →
     donation_cached d = false →
     g (dm_trace g (trace st) l1) (Donation.pickup_location d) = NoMatch →
     let after :=
       dm_trace g (trace st) l1 ++
       [Geocode KDonation (Donation.id d) (Donation.pickup_location d)] in
     (donation_map g req st).2 =
       render_template "donation_map.html"
         (donation_map_context
            (dm_markers g (trace st) l1 ++ dm_markers g after l2)) ∧
     donations (donation_map g req st).1 =
       dm_rows g (trace st) l1 ++ d :: dm_rows g after l2).
Proof using Type.
  split; [reflexivity|]. split; [|split; [|split]].
  - intros g sel tr l1 r l2 Hsel Hc Hg.
    destruct (map_view_unresolved g sel tr l1 r l2 Hsel Hc) as (Hm & _ & Hr);
      [intros ??; by rewrite Hg|].
    by split.
  - intros g tr l1 d l2 Hc Hg.
    destruct (donation_map_unresolved g tr l1 d l2 Hc) as (Hm & _ & Hr);
      [intros ??; by rewrite Hg|].
    by split.
  - intros g req st cu l1 r l2 Hcu Hrows animal_filter sel Hsel Hc Hg.
    apply (map_view_page_unresolved g req st cu l1 r l2 Hcu Hrows Hsel Hc).
    intros la lo Heq. discriminate (eq_trans (eq_sym Hg) Heq).
  - intros g req st cu l1 d l2 Hcu Hrows Hc Hg.
    apply (donation_map_page_unresolved g req st cu l1 d l2 Hcu Hrows Hc).
    intros ??. by rewrite Hg.
Qed.

(** C4.  When the geocoder call fails for a report without stored
    coordinates, [map_view] emits the marker of that report at the fallback
    coordinate; when it fails for a donation, [donation_map] emits no
    marker for it.  In both cases the loop goes on with the rest of the
    table; the view always answers with its page; every record with stored
    coordinates has its marker in the result, and so has every record the
    geocoder resolves when its turn comes.  This is stated of the loops and
    of the page with which each view answers a logged-in user: the markers
    of [map_view] have the fallback marker of the failed report between
    those of the records before and after it, the markers of
    [donation_map] are those of the other donations, and the markers of
    either page include those of every record with stored coordinates and
    of every record that the geocoder resolves. *)
Theorem geocoder_failure_contained :
  (∀ g sel tr l1 r l2,
     sel r = true → report_cached r = false →
     g (mv_trace g sel tr l1) (Report.location r) = GeoError →
     mv_markers g sel tr (l1 ++ r :: l2) =
       mv_markers g sel tr l1 ++
       mk_marker 12.9716%Q 77.5946%Q (report_popup r) ::
       mv_markers g sel
         (mv_trace g sel tr l1 ++
          [Geocode KReport (Report.id r) (Report.location r); Sleep]) l2) ∧
  (∀ g tr l1 d l2,
     donation_cached d = false →
     g (dm_trace g tr l1) (Donation.pickup_location d) = GeoError →
     dm_markers g tr (l1 ++ d :: l2) =
       dm_markers g tr l1 ++
       dm_markers g
         (dm_trace g tr l1 ++
          [Geocode KDonation (Donation.id d) (Donation.pickup_location d)]) l2) ∧
  (∀ g req st cu,
     current_user req st = Some cu →
     (∃ ctx, (map_view g req st).2 = render_template "map.html" ctx) ∧
     (∃ ctx, (donation_map g req st).2 = render_template "donation_map.html" ctx)) ∧
  (∀ g sel tr rows r la lo,
     r ∈ rows → sel r = true →
     Report.latitude r = Some la → Report.longitude r = Some lo →
     mk_marker la lo (report_popup r) ∈ mv_markers g sel tr rows) ∧
  (∀ g tr rows d la lo,
     d ∈ rows →
     Donation.pickup_latitude d = Some la → Donation.pickup_longitude d = Some lo →
     mk_marker la lo (donation_popup d) ∈ dm_markers g tr rows) ∧
  (∀ g sel tr l1 r l2 la lo,
     sel r = true → report_cached r = false →
     g (mv_trace g sel tr l1) (Report.location r) = Located la lo →
     mk_marker la lo (report_popup r) ∈ mv_markers g sel tr (l1 ++ r :: l2)) ∧
  (∀ g tr l1 d l2 la lo,
     donation_cached d = false →
     g (dm_trace g tr l1) (Donation.pickup_location d) = Located la lo →
     mk_marker la lo (donation_popup d) ∈ dm_markers g tr (l1 ++ d :: l2)) ∧
  (∀ g req st cu l1 r l2,
     current_user req st = Some cu → reports st = l1 ++ r :: l2 →
     let animal_filter := default "" (args req !! "animal_type") in
     let sel := report_filter animal_filter in
     sel r = true → report_cached r = false →
     g (mv_trace g sel (trace st) l1) (Report.location r) = GeoError →
     let after :=
       mv_trace g sel (trace st) l1 ++
       [Geocode KReport (Report.id r) (Report.location r); Sleep] in
     ∃ distinct_animals heat_data,
       (map_view g req st).2 =
         render_template "map.html"
           (map_context
              (mv_markers g sel (trace st) l1 ++
               mk_marker 12.9716%Q 77.5946%Q (report_popup r) ::
               mv_markers g sel after l2)
              distinct_animals animal_filter heat_data) ∧
       reports (map_view g req st).1 =
         mv_rows g sel (trace st) l1 ++ r :: mv_rows g sel after l2) ∧
  (∀ g req st cu l1 d l2,
     current_user req st = Some cu → donations st = l1 ++ d :: l2 →
     donation_cached d = false →
     g (dm_trace g (trace st) l1) (Donation.pickup_location d) = GeoError →
     let after :=
       dm_trace g (trace st) l1 ++
       [Geocode KDonation (Donation.id d) (Donation.pickup_location d)] in
     (donation_map g req st).2 =
       render_template "donation_map.html"
         (donation_map_context
            (dm_markers g (trace st) l1 ++ dm_markers g after l2)) ∧
     donations (donation_map g req st).1 =
       dm_rows g (trace st) l1 ++ d :: dm_rows g after l2) ∧
  (∀ g req st cu,
     current_user req st = Some cu →
     let animal_filter := default "" (args req !! "animal_type") in
     let sel := report_filter animal_filter in
     ∃ markers distinct_animals heat_data,
       (map_view g req st).2 =
         render_template "map.html"
           (map_context markers distinct_animals animal_filter heat_data) ∧
       (∀ r la lo,
          r ∈ reports st → sel r = true →
          Report.latitude r = Some la → Report.longitude r = Some lo →
          mk_marker la lo (report_popup r) ∈ markers) ∧
       (∀ l1 r l2 la lo,
          reports st = l1 ++ r :: l2 → sel r = true → report_cached r = false →
          g (mv_trace g sel (trace st) l1) (Report.location r) = Located la lo →
          mk_marker la lo (report_popup r) ∈ markers)) ∧
  (∀ g req st cu,
     current_user req st = Some cu →
     ∃ markers,
       (donation_map g req st).2 =
         render_template "donation_map.html" (donation_map_context markers) ∧
       (∀ d la lo,
          d ∈ donations st →
          Donation.pickup_latitude d = Some la →
          Donation.pickup_longitude d = Some lo →
          mk_marker la lo (donation_popup d) ∈ markers) ∧
       (∀ l1 d l2 la lo,
          donations st = l1 ++ d :: l2 → donation_cached d = false →
          g (dm_trace g (trace st) l1) (Donation.pickup_location d) =
            Located la lo →
          mk_marker la lo (donation_popup d) ∈ markers)).
Proof using Type.
  split.
  { intros g sel tr l1 r l2 Hsel Hc Hg.
    destruct (map_view_unresolved g sel tr l1 r l2 Hsel Hc) as (Hm & _);
      [intros ??; by rewrite Hg|done]. }
  split.
  { intros g tr l1 d l2 Hc Hg.
    destruct (donation_map_unresolved g tr l1 d l2 Hc) as (Hm & _);
      [intros ??; by rewrite Hg|done]. }
  split.
  { intros g req st cu Hcu.
    split; [by apply (map_view_renders g req st cu)|
            by apply (donation_map_renders g req st cu)]. }
  split; [exact map_view_stored_marker|].
  split; [exact donation_map_stored_marker|].
  split; [|split; [|split; [|split; [|split; [exact map_view_page_includes|
                                              exact donation_map_page_includes]]]]].
  - intros g sel tr l1 r l2 la lo Hsel Hc Hg.
    destruct (map_view_resolved g sel tr l1 r l2 la lo Hsel Hc Hg) as [-> _].
    apply elem_of_app. right. left.
  - intros g tr l1 d l2 la lo Hc Hg.
    destruct (donation_map_resolved g tr l1 d l2 la lo Hc Hg) as [-> _].
    apply elem_of_app. right. left.
  - intros g req st cu l1 r l2 Hcu Hrows animal_filter sel Hsel Hc Hg.
    apply (map_view_page_unresolved g req st cu l1 r l2 Hcu Hrows Hsel Hc).
    intros la lo Heq. discriminate (eq_trans (eq_sym Hg) Heq).
  - intros g req st cu l1 d l2 Hcu Hrows Hc Hg.
    apply (donation_map_page_unresolved g req st cu l1 d l2 Hcu Hrows Hc).
    intros ??. by rewrite Hg.
Qed.

(** C5.  A donation submitted with its five fields and a well-formed
    pickup time adds exactly one donation, last in the table, with a fresh
    key and the submitter as donor, and adds exactly 10 to the points of
    the submitter; a report submitted with its four fields adds exactly one
    report with a fresh key and the submitter as reporter, and adds exactly
    5.  The rows already in the tables are as before, and so is every user
    other than the submitter. *)
Theorem intake_persists_and_awards :
  (∀ req st cu description food_type quantity pickup_location pickup_time_str
     pickup_time,
     current_user req st = Some cu → req_method req = POST →
     form req !! "description" = Some description →
     form req !! "food_type" = Some food_type →
     form req !! "quantity" = Some quantity →
     form req !! "pickup_location" = Some pickup_location →
     form req !! "pickup_time" = Some pickup_time_str →
     datetime.strptime pickup_time_str = Some pickup_time →
     let st' := (add_donation req st).1 in
     let d := Donation.mk (next_id (Donation.id <$> donations st))
                description food_type quantity pickup_location
                (Some pickup_time) (User.id cu) None None in
     (add_donation req st).2 = redirect "dashboard" ∧
     donations st' = donations st ++ [d] ∧
     (Donation.id d ∉ (Donation.id <$> donations st)) ∧
     load_user st' (User.id cu) = Some (User.add_points 10 cu) ∧
     User.points (User.add_points 10 cu) = (User.points cu + 10)%Z ∧
     Forall2 (λ u u', if decide (User.id u = User.id cu)
                      then u' = User.add_points 10 u else u' = u)
             (users st) (users st') ∧
     reports st' = reports st ∧ events st' = events st) ∧
  (∀ now req st cu animal_type description location contact,
     current_user req st = Some cu → req_method req = POST →
     form req !! "animal_type" = Some animal_type →
     form req !! "description" = Some description →
     form req !! "location" = Some location →
     form req !! "contact" = Some contact →
     let st' := (report_animal nfkd_ascii os_nt now req st).1 in
     ∃ r,
       (report_animal nfkd_ascii os_nt now req st).2 = redirect "dashboard" ∧
       reports st' = reports st ++ [r] ∧
       Report.id r = next_id (Report.id <$> reports st) ∧
       (Report.id r ∉ (Report.id <$> reports st)) ∧
       Report.reporter_id r = User.id cu ∧
       (Report.animal_type r, Report.description r, Report.location r,
        Report.contact r) = (animal_type, description, location, contact) ∧
       Report.report_time r = Some now ∧
       load_user st' (User.id cu) = Some (User.add_points 5 cu) ∧
       User.points (User.add_points 5 cu) = (User.points cu + 5)%Z ∧
       Forall2 (λ u u', if decide (User.id u = User.id cu)
                        then u' = User.add_points 5 u else u' = u)
               (users st) (users st') ∧
       donations st' = donations st ∧ events st' = events st).
Proof using Type.
  split.
  - intros req st cu description food_type quantity pickup_location
      pickup_time_str pickup_time Hcu Hpost Hd Hf Hq Hl Ht Hparse.
    unfold add_donation, login_required, add_donation_body, form_get.
    rewrite Hcu, Hpost, Hd, Hf, Hq, Hl, Ht. simpl. rewrite Hparse. simpl.
    split; [done|]. split; [done|]. split; [apply next_id_fresh|].
    split.
    { unfold load_user, award_points. simpl. rewrite find_award.
      pose proof (current_user_load req st cu Hcu) as Hload.
      unfold load_user in Hload. rewrite Hload. simpl.
      by rewrite bool_decide_true. }
    split; [done|]. split; [|done].
    apply award_points_others.
  - intros now req st cu animal_type description location contact
      Hcu Hpost Ha Hd Hl Hc.
    unfold report_animal, login_required, report_animal_body, form_get.
    rewrite Hcu, Hpost, Ha, Hd, Hl, Hc. simpl.
    pose proof (current_user_load req st cu Hcu) as Hload.
    unfold load_user in Hload.
    destruct (files req !! "image") as [fn|]; simpl;
      [destruct (negb _ && _); simpl|].
    all: eexists; split; [reflexivity|]; split; [reflexivity|].
    all: split; [reflexivity|]; split; [apply next_id_fresh|].
    all: split; [reflexivity|]; split; [reflexivity|]; split; [reflexivity|].
    all: split;
      [unfold load_user, award_points; simpl; rewrite find_award, Hload; simpl;
       by rewrite bool_decide_true|].
    all: split; [reflexivity|]; split; [|done].
    all: apply award_points_others.
Qed.

(** C6.  [allowed_file] accepts exactly the names whose part after the
    last dot is, in any letter case, png, jpg, jpeg or gif.  Whatever the
    submitted name, what [secure_filename] returns has no path separator
    and is a single path component other than "." and "..".  A report
    submitted with its four fields is persisted in every case; its
    [image_filename] is the secured name when the attached file is
    allowed, and stays unset, with nothing saved, when the file is not
    allowed or no file is attached.  "payload.exe" is not allowed;
    "../../evil.png" is allowed and stored as "evil.png". *)
Theorem image_upload_filtered :
  (∀ fn,
     allowed_file fn = true ↔
     ∃ stem ext,
       fn = stem +:+ "." +:+ ext ∧ Py.contains "." ext = false ∧
       (Py.lower ext = "png" ∨ Py.lower ext = "jpg" ∨
        Py.lower ext = "jpeg" ∨ Py.lower ext = "gif")) ∧
  (∀ fn, path_safe (secure_filename nfkd_ascii os_nt fn)) ∧
  (∀ now req st cu animal_type description location contact,
     current_user req st = Some cu → req_method req = POST →
     form req !! "animal_type" = Some animal_type →
     form req !! "description" = Some description →
     form req !! "location" = Some location →
     form req !! "contact" = Some contact →
     let st' := (report_animal nfkd_ascii os_nt now req st).1 in
     ∃ r,
       (report_animal nfkd_ascii os_nt now req st).2 = redirect "dashboard" ∧
       reports st' = reports st ++ [r] ∧
       match files req !! "image" with
       | Some fn =>
           (allowed_file fn = true →
            Report.image_filename r = Some (secure_filename nfkd_ascii os_nt fn) ∧
            uploads st' = uploads st ++ [secure_filename nfkd_ascii os_nt fn]) ∧
           (allowed_file fn = false →
            Report.image_filename r = None ∧ uploads st' = uploads st)
       | None => Report.image_filename r = None ∧ uploads st' = uploads st
       end ∧
       ∀ f, Report.image_filename r = Some f →
            path_safe f ∧
            ∃ fn, files req !! "image" = Some fn ∧ allowed_file fn = true ∧
                  f = secure_filename nfkd_ascii os_nt fn) ∧
  allowed_file "payload.exe" = false ∧
  allowed_file "../../evil.png" = true ∧
  (nfkd_ascii "../../evil.png" = "../../evil.png" →
   secure_filename nfkd_ascii os_nt "../../evil.png" = "evil.png").
Proof using Type.
  split.
  { intros fn. rewrite allowed_file_spec.
    by setoid_rewrite allowed_extensions. }
  split; [intros fn; apply secure_filename_safe|].
  split.
  { intros now req st cu animal_type description location contact
      Hcu Hpost Ha Hd Hl Hc.
    unfold report_animal, login_required, report_animal_body, form_get.
    rewrite Hcu, Hpost, Ha, Hd, Hl, Hc. simpl.
    destruct (files req !! "image") as [fn|]; simpl.
    - destruct (allowed_file fn) eqn:Hallowed.
      + assert (Hne : bool_decide (fn = "") = false).
        { apply bool_decide_eq_false. by intros ->. }
        rewrite Hne. simpl. eexists. split; [reflexivity|]. split; [reflexivity|].
        simpl. split; [done|]. intros f [= <-].
        split; [apply secure_filename_safe|]. by exists fn.
      + rewrite andb_false_r. simpl.
        eexists. split; [reflexivity|]. split; [reflexivity|].
        simpl. split; [done|]. by intros f.
    - eexists. split; [reflexivity|]. split; [reflexivity|].
      simpl. split; [done|]. by intros f. }
  split; [by vm_compute|]. split; [by vm_compute|].
  intros Hid. unfold secure_filename. rewrite Hid. by destruct os_nt; vm_compute.
Qed.

(** C7 (amended).  A donation or report submission that lacks a required
    form field makes the handler raise the bad-request error of the first
    missing field, and a donation whose pickup time does not parse makes it
    raise a value error.  In each case the state is exactly as before:
    nothing is persisted and nothing is flashed, and the response is the
    error, not a redirect. *)
Theorem invalid_submission_aborts :
  (∀ req st cu key,
     current_user req st = Some cu → req_method req = POST →
     key ∈ ["description"; "food_type"; "quantity"; "pickup_location";
            "pickup_time"] →
     form req !! key = None →
     ∃ k, form req !! k = None ∧
          add_donation req st = (st, raised (BadRequestKeyError k))) ∧
  (∀ req st cu description food_type quantity pickup_location pickup_time_str,
     current_user req st = Some cu → req_method req = POST →
     form req !! "description" = Some description →
     form req !! "food_type" = Some food_type →
     form req !! "quantity" = Some quantity →
     form req !! "pickup_location" = Some pickup_location →
     form req !! "pickup_time" = Some pickup_time_str →
     datetime.strptime pickup_time_str = None →
     add_donation req st = (st, raised ValueError)) ∧
  (∀ now req st cu key,
     current_user req st = Some cu → req_method req = POST →
     key ∈ ["animal_type"; "description"; "location"; "contact"] →
     form req !! key = None →
     ∃ k, form req !! k = None ∧
          report_animal nfkd_ascii os_nt now req st =
            (st, raised (BadRequestKeyError k))).
Proof using Type.
  clear generate_password_hash check_password_hash.
  split; [|split].
  - intros req st cu key Hcu Hpost Hkey Hmiss.
    unfold add_donation, login_required, add_donation_body, form_get.
    rewrite Hcu, Hpost.
    destruct (form req !! "description") eqn:E1; [|by eexists].
    destruct (form req !! "food_type") eqn:E2; [|by eexists].
    destruct (form req !! "quantity") eqn:E3; [|by eexists].
    destruct (form req !! "pickup_location") eqn:E4; [|by eexists].
    destruct (form req !! "pickup_time") eqn:E5; [|by eexists].
    set_unfold. naive_solver.
  - intros req st cu description food_type quantity pickup_location
      pickup_time_str Hcu Hpost Hd Hf Hq Hl Ht Hparse.
    unfold add_donation, login_required, add_donation_body, form_get.
    rewrite Hcu, Hpost, Hd, Hf, Hq, Hl, Ht. simpl. by rewrite Hparse.
  - intros now req st cu key Hcu Hpost Hkey Hmiss.
    unfold report_animal, login_required, report_animal_body, form_get.
    rewrite Hcu, Hpost.
    destruct (form req !! "animal_type") eqn:E1; [|by eexists].
    destruct (form req !! "description") eqn:E2; [|by eexists].
    destruct (form req !! "location") eqn:E3; [|by eexists].
    destruct (form req !! "contact") eqn:E4; [|by eexists].
    set_unfold. naive_solver.
Qed.

(** C8 (what the code does).  A registration whose email is already
    registered is answered with a flashed message and a redirect to the
    registration form, the users unchanged.  A registration whose email is
    new but whose username is already registered is not caught: it reaches
    the commit, which raises the integrity error of the unique constraint;
    no user is added and nothing is flashed. *)
Theorem duplicate_username_uncaught :
  (∀ req st username password email role,
     req_method req = POST →
     form req !! "username" = Some username →
     form req !! "password" = Some password →
     form req !! "email" = Some email →
     form req !! "role" = Some role →
     email ∈ (User.email <$> users st) →
     register generate_password_hash req st =
       (flash "Email already registered. Please use a different email." st,
        redirect "register")) ∧
  (∀ req st username password email role,
     req_method req = POST →
     form req !! "username" = Some username →
     form req !! "password" = Some password →
     form req !! "email" = Some email →
     form req !! "role" = Some role →
     email ∉ (User.email <$> users st) →
     username ∈ (User.username <$> users st) →
     register generate_password_hash req st = (st, raised IntegrityError)).
Proof using Type.
  split.
  - intros req st username password email role Hpost Hu Hp He Hr Hdup.
    unfold register, form_get. rewrite Hpost, Hu, Hp, He, Hr. simpl.
    by destruct (find_email_some email (users st) Hdup) as [u ->].
  - intros req st username password email role Hpost Hu Hp He Hr Hnew Hdup.
    unfold register, form_get. rewrite Hpost, Hu, Hp, He, Hr. simpl.
    rewrite (find_email_none email (users st) Hnew).
    unfold insert_user. simpl. by rewrite (bool_decide_true _ Hdup).
Qed.

(** C9.  Registration needs no session and stores the submitted role as it
    is: with a new email and a new username, the user added has exactly
    the role of the form, whatever string that is.  The registrant can then
    log in with the submitted password; and when the submitted role is
    "admin", a session of the new user passes the admin test of
    [create_event], which shows the creation form, and of [stats], which
    neither flashes nor redirects. *)
Theorem registration_role_unrestricted :
  ∀ req st username password email role,
    req_method req = POST →
    form req !! "username" = Some username →
    form req !! "password" = Some password →
    form req !! "email" = Some email →
    form req !! "role" = Some role →
    email ∉ (User.email <$> users st) →
    username ∉ (User.username <$> users st) →
    let st' := (register generate_password_hash req st).1 in
    let u := User.mk (next_id (User.id <$> users st)) username
                     (generate_password_hash password) email role 0 in
    (register generate_password_hash req st).2 = redirect "login" ∧
    users st' = users st ++ [u] ∧
    User.role u = role ∧
    (check_password_hash (generate_password_hash password) password = true →
     ∀ req1,
       req_method req1 = POST →
       form req1 !! "username" = Some username →
       form req1 !! "password" = Some password →
       login check_password_hash req1 st' =
         (st', redirect "dashboard", Some (User.id u))) ∧
    (role = "admin" →
     ∀ req2,
       session_user req2 = Some (User.id u) →
       current_user req2 st' = Some u ∧
       (req_method req2 = GET →
        create_event req2 st' =
          (st', render_template "create_event.html" no_context)) ∧
       (stats req2 st').1 = st' ∧
       ∀ endpoint, (stats req2 st').2 ≠ redirect endpoint).
Proof using Type.
  intros req st username password email role Hpost Hu Hp He Hr Hemail Huser.
  unfold register, form_get. rewrite Hpost, Hu, Hp, He, Hr. simpl.
  rewrite (find_email_none email (users st) Hemail).
  unfold insert_user. simpl.
  rewrite (bool_decide_false _ Huser), (bool_decide_false _ Hemail). simpl.
  split; [done|]. split; [done|]. split; [done|].
  set (u := User.mk _ _ _ _ _ _).
  assert (Hload : ∀ req2, session_user req2 = Some (User.id u) →
            current_user req2
              (flash "Registration successful! Please login."
                     (set_users (users st ++ [u]) st)) = Some u).
  { intros req2 Hs. unfold current_user, load_user. rewrite Hs. simpl.
    apply find_new_user; [|by apply bool_decide_eq_true].
    intros x Hx. apply bool_decide_eq_false. intros Hid.
    apply (next_id_fresh (User.id <$> users st)).
    replace (next_id (User.id <$> users st)) with (User.id x) by exact Hid.
    by apply list_elem_of_fmap_2. }
  split.
  - intros Hcheck req1 Hpost1 Hu1 Hp1.
    unfold login, form_get. rewrite Hpost1, Hu1, Hp1. simpl.
    rewrite (find_new_user _ (users st) u).
    + simpl. by rewrite Hcheck.
    + intros x Hx. apply bool_decide_eq_false. intros Hname.
      apply Huser. rewrite <- Hname. by apply list_elem_of_fmap_2.
    + by apply bool_decide_eq_true.
  - intros -> req2 Hs. specialize (Hload req2 Hs).
    split; [done|]. split; [|split].
    + intros Hget. unfold create_event, login_required, create_event_body.
      rewrite Hload, Hget. simpl. done.
    + unfold stats, login_required, stats_body. rewrite Hload. simpl.
      by destruct (report_buckets _ _).
    + intros endpoint. unfold stats, login_required, stats_body.
      rewrite Hload. simpl. by destruct (report_buckets _ _).
Qed.

(** C10 (amended).  The report loop of the analytics view has no case for a
    report without [report_time]: as soon as the table holds one, the view
    raises an attribute error and shows no chart.  When every report has
    its [report_time], no report is left out: each is counted under the
    label of its month, and the counts add up to the number of reports.
    Report intake always sets [report_time], and no handler clears it: from
    a table whose reports all have it, the view shows its charts after any
    history of requests. *)
Theorem untimed_report_raises :
  (∀ cu st,
     User.role cu = "admin" →
     Exists (λ r, Report.report_time r = None) (reports st) →
     stats_body cu st = (st, raised AttributeError)) ∧
  (∀ cu st,
     User.role cu = "admin" →
     Forall (λ r, is_Some (Report.report_time r)) (reports st) →
     ∃ donation_chart report_chart,
       stats_body cu st =
         (st, render_template "stats.html"
                (stats_context donation_chart report_chart
                               (length (donations st)))) ∧
       (∀ r, r ∈ reports st → report_key r ∈ labels report_chart) ∧
       counts report_chart =
         (λ k, key_count report_key k (reports st)) <$> labels report_chart ∧
       sum_list (counts report_chart) = length (reports st)) ∧
  (∀ now req st cu animal_type description location contact,
     current_user req st = Some cu → req_method req = POST →
     form req !! "animal_type" = Some animal_type →
     form req !! "description" = Some description →
     form req !! "location" = Some location →
     form req !! "contact" = Some contact →
     ∃ r, reports (report_animal nfkd_ascii os_nt now req st).1 =
            reports st ++ [r] ∧
          Report.report_time r = Some now) ∧
  (∀ st0 acts cu,
     Forall (λ r, is_Some (Report.report_time r)) (reports st0) →
     User.role cu = "admin" →
     ∃ ctx, stats_body cu (run acts st0) =
              (run acts st0, render_template "stats.html" ctx)).
Proof using Type.
  split; [|split; [|split]]; cycle 3.
  { intros st0 acts cu Hall Hadmin. unfold stats_body.
    destruct (decide (User.role cu ≠ "admin")) as [Hne|_]; [by destruct Hne|].
    rewrite (report_buckets_all_timed _ _
               (run_timed nfkd_ascii os_nt generate_password_hash
                          check_password_hash acts st0 Hall)).
    by eexists. }
  - intros cu st Hadmin Hex. unfold stats_body.
    destruct (decide (User.role cu ≠ "admin")) as [Hne|_]; [by destruct Hne|].
    by rewrite (report_buckets_untimed _ _ Hex).
  - intros cu st Hadmin Htimed. unfold stats_body.
    destruct (decide (User.role cu ≠ "admin")) as [Hne|_]; [by destruct Hne|].
    rewrite (report_buckets_all_timed _ _ Htimed).
    eexists _, _. split; [reflexivity|].
    destruct (chart_of_tally report_key (reports st)) as (_ & Hnd & Hmem & Hcounts).
    split; [|split; [done|]].
    + intros r Hr. apply Hmem. by exists r.
    + rewrite Hcounts. apply key_count_total; [done|].
      intros r Hr. apply Hmem. by exists r.
  - intros now req st cu animal_type description location contact
      Hcu Hpost Ha Hd Hl Hc.
    unfold report_animal, login_required, report_animal_body, form_get.
    rewrite Hcu, Hpost, Ha, Hd, Hl, Hc. simpl.
    destruct (files req !! "image") as [fn|]; simpl;
      [destruct (negb _ && _); simpl|]; by eexists.
Qed.

End Claims.

(** * The statements at work on sample data *)


(** C3: a donation whose address finds no match gets no marker at all, so
    in particular none at the fallback coordinate. *)
Lemma donation_unmatched_omitted :
  donation_cached (rice 1 None) = false ∧
  geocode_nothing [] (Donation.pickup_location (rice 1 None)) = NoMatch ∧
  dm_markers geocode_nothing [] [rice 1 None] = [] ∧
  (mk_marker DEFAULT_LAT DEFAULT_LNG (donation_popup (rice 1 None)) ∉
     dm_markers geocode_nothing [] [rice 1 None]) ∧
  (donation_map geocode_nothing (get_as 1 ∅) sample_state).2 =
    render_template "donation_map.html" (donation_map_context []).
Proof.
  split; [reflexivity|]. split; [reflexivity|]. split; [reflexivity|].
  split; [apply not_elem_of_nil|reflexivity].
Qed.

Lemma unmatched_address_policy_witness :
  (mv_markers geocode_nothing (λ _, true) [] ([] ++ stray 1 None :: []) =
     mv_markers geocode_nothing (λ _, true) [] [] ++
     mk_marker DEFAULT_LAT DEFAULT_LNG (report_popup (stray 1 None)) ::
     mv_markers geocode_nothing (λ _, true)
       (mv_trace geocode_nothing (λ _, true) [] [] ++
        [Geocode KReport 1 "Indiranagar"; Sleep]) [] ∧
   mv_rows geocode_nothing (λ _, true) [] ([] ++ stray 1 None :: []) =
     mv_rows geocode_nothing (λ _, true) [] [] ++ stray 1 None ::
     mv_rows geocode_nothing (λ _, true)
       (mv_trace geocode_nothing (λ _, true) [] [] ++
        [Geocode KReport 1 "Indiranagar"; Sleep]) []) ∧
  (dm_markers geocode_nothing [] ([] ++ rice 1 None :: []) =
     dm_markers geocode_nothing [] [] ++
     dm_markers geocode_nothing
       (dm_trace geocode_nothing [] [] ++ [Geocode KDonation 1 "MG Road"]) [] ∧
   dm_rows geocode_nothing [] ([] ++ rice 1 None :: []) =
     dm_rows geocode_nothing [] [] ++ rice 1 None ::
     dm_rows geocode_nothing
       (dm_trace geocode_nothing [] [] ++ [Geocode KDonation 1 "MG Road"]) []) ∧
  (∃ distinct_animals heat_data,
     (map_view geocode_nothing (get_as 1 ∅) mapped_state).2 =
       render_template "map.html"
         (map_context
            [mk_marker 12.9784%Q 77.6408%Q (report_popup (housed_stray 1));
             mk_marker 12.9716%Q 77.5946%Q
               (report_popup (stray 2 (Some (at_month 2024 2))))]
            distinct_animals "" heat_data) ∧
     reports (map_view geocode_nothing (get_as 1 ∅) mapped_state).1 =
       [housed_stray 1; stray 2 (Some (at_month 2024 2))]) ∧
  ((donation_map geocode_nothing (get_as 1 ∅) mapped_state).2 =
     render_template "donation_map.html"
       (donation_map_context
          [mk_marker 12.9756%Q 77.6050%Q (donation_popup (mapped_rice 1))]) ∧
   donations (donation_map geocode_nothing (get_as 1 ∅) mapped_state).1 =
     [mapped_rice 1; rice 2 None]).
Proof.
  destruct unmatched_address_policy
    as (_ & Hreports & Hdonations & Hpage & Hdpage).
  split; [|split; [|split]].
  - apply (Hreports geocode_nothing (λ _, true) [] [] (stray 1 None) []);
      reflexivity.
  - apply (Hdonations geocode_nothing [] [] (rice 1 None) []); reflexivity.
  - exact (Hpage geocode_nothing (get_as 1 ∅) mapped_state admin_ann
             [housed_stray 1] (stray 2 (Some (at_month 2024 2))) []
             eq_refl eq_refl eq_refl eq_refl eq_refl).
  - exact (Hdpage geocode_nothing (get_as 1 ∅) mapped_state admin_ann
             [mapped_rice 1] (rice 2 None) []
             eq_refl eq_refl eq_refl eq_refl).
Defined.

Lemma geocoder_failure_contained_witness :
  mv_markers geocode_down (λ _, true) []
    ([] ++ stray 1 None :: [stray 2 None]) =
    mv_markers geocode_down (λ _, true) [] [] ++
    mk_marker 12.9716%Q 77.5946%Q (report_popup (stray 1 None)) ::
    mv_markers geocode_down (λ _, true)
      (mv_trace geocode_down (λ _, true) [] [] ++
       [Geocode KReport 1 "Indiranagar"; Sleep]) [stray 2 None] ∧
  dm_markers geocode_down [] ([] ++ rice 1 None :: [rice 2 None]) =
    dm_markers geocode_down [] [] ++
    dm_markers geocode_down
      (dm_trace geocode_down [] [] ++ [Geocode KDonation 1 "MG Road"])
      [rice 2 None] ∧
  ((∃ ctx, (map_view geocode_down (get_as 1 ∅) mapped_state).2 =
             render_template "map.html" ctx) ∧
   (∃ ctx, (donation_map geocode_down (get_as 1 ∅) mapped_state).2 =
             render_template "donation_map.html" ctx)) ∧
  mk_marker 12.9784%Q 77.6408%Q (report_popup (housed_stray 1)) ∈
    mv_markers geocode_down (λ _, true) [] [stray 2 None; housed_stray 1] ∧
  mk_marker 12.9756%Q 77.6050%Q (donation_popup (mapped_rice 1)) ∈
    dm_markers geocode_down [] [rice 2 None; mapped_rice 1] ∧
  mk_marker 12.9352%Q 77.6245%Q (report_popup (stray 2 None)) ∈
    mv_markers geocode_found (λ _, true) [] ([stray 1 None] ++ stray 2 None :: []) ∧
  mk_marker 12.9352%Q 77.6245%Q (donation_popup (rice 2 None)) ∈
    dm_markers geocode_found [] ([rice 1 None] ++ rice 2 None :: []) ∧
  (∃ distinct_animals heat_data,
     (map_view geocode_down (get_as 1 ∅) mapped_state).2 =
       render_template "map.html"
         (map_context
            [mk_marker 12.9784%Q 77.6408%Q (report_popup (housed_stray 1));
             mk_marker 12.9716%Q 77.5946%Q
               (report_popup (stray 2 (Some (at_month 2024 2))))]
            distinct_animals "" heat_data) ∧
     reports (map_view geocode_down (get_as 1 ∅) mapped_state).1 =
       [housed_stray 1; stray 2 (Some (at_month 2024 2))]) ∧
  ((donation_map geocode_down (get_as 1 ∅) mapped_state).2 =
     render_template "donation_map.html"
       (donation_map_context
          [mk_marker 12.9756%Q 77.6050%Q (donation_popup (mapped_rice 1))]) ∧
   donations (donation_map geocode_down (get_as 1 ∅) mapped_state).1 =
     [mapped_rice 1; rice 2 None]) ∧
  (∃ markers distinct_animals heat_data,
     (map_view geocode_down (get_as 1 ∅) mapped_state).2 =
       render_template "map.html"
         (map_context markers distinct_animals "" heat_data) ∧
     (∀ r la lo,
        r ∈ reports mapped_state → report_filter "" r = true →
        Report.latitude r = Some la → Report.longitude r = Some lo →
        mk_marker la lo (report_popup r) ∈ markers) ∧
     (∀ l1 r l2 la lo,
        reports mapped_state = l1 ++ r :: l2 → report_filter "" r = true →
        report_cached r = false →
        geocode_down (mv_trace geocode_down (report_filter "")
                               (trace mapped_state) l1) (Report.location r) =
          Located la lo →
        mk_marker la lo (report_popup r) ∈ markers)) ∧
  (∃ markers,
     (donation_map geocode_down (get_as 1 ∅) mapped_state).2 =
       render_template "donation_map.html" (donation_map_context markers) ∧
     (∀ d la lo,
        d ∈ donations mapped_state →
        Donation.pickup_latitude d = Some la →
        Donation.pickup_longitude d = Some lo →
        mk_marker la lo (donation_popup d) ∈ markers) ∧
     (∀ l1 d l2 la lo,
        donations mapped_state = l1 ++ d :: l2 → donation_cached d = false →
        geocode_down (dm_trace geocode_down (trace mapped_state) l1)
                     (Donation.pickup_location d) = Located la lo →
        mk_marker la lo (donation_popup d) ∈ markers)).
Proof.
  destruct geocoder_failure_contained
    as (Hreports & Hdonations & Hrender & Hstored & Hdstored & Hfound & Hdfound &
        Hpage & Hdpage & Hincl & Hdincl).
  split.
  { apply (Hreports geocode_down (λ _, true) [] [] (stray 1 None) [stray 2 None]);
      reflexivity. }
  split.
  { apply (Hdonations geocode_down [] [] (rice 1 None) [rice 2 None]); reflexivity. }
  split; [by apply (Hrender _ _ _ admin_ann)|].
  split.
  { apply Hstored; [right; left|reflexivity..]. }
  split.
  { apply Hdstored; [right; left|reflexivity..]. }
  split; [apply Hfound; reflexivity|].
  split; [apply Hdfound; reflexivity|].
  split.
  { exact (Hpage geocode_down (get_as 1 ∅) mapped_state admin_ann
             [housed_stray 1] (stray 2 (Some (at_month 2024 2))) []
             eq_refl eq_refl eq_refl eq_refl eq_refl). }
  split.
  { exact (Hdpage geocode_down (get_as 1 ∅) mapped_state admin_ann
             [mapped_rice 1] (rice 2 None) []
             eq_refl eq_refl eq_refl eq_refl). }
  split.
  - exact (Hincl geocode_down (get_as 1 ∅) mapped_state admin_ann eq_refl).
  - exact (Hdincl geocode_down (get_as 1 ∅) mapped_state admin_ann eq_refl).
Defined.

(** C5: the donation of the specification's example, submitted by bob. *)
Lemma intake_persists_and_awards_witness :
  (let st' := (add_donation (post_as 2 donation_form ∅) sample_state).1 in
   let d := Donation.mk 4 "rice" "cooked" "5" "X"
              (Some (datetime.mk 2024 6 1 10 0 0)) 2 None None in
   (add_donation (post_as 2 donation_form ∅) sample_state).2 =
     redirect "dashboard" ∧
   donations st' = donations sample_state ++ [d] ∧
   (Donation.id d ∉ (Donation.id <$> donations sample_state)) ∧
   load_user st' 2 = Some (User.add_points 10 donor_bob) ∧
   User.points (User.add_points 10 donor_bob) = (15 + 10)%Z ∧
   Forall2 (λ u u', if decide (User.id u = 2)
                    then u' = User.add_points 10 u else u' = u)
           (users sample_state) (users st') ∧
   reports st' = reports sample_state ∧ events st' = events sample_state) ∧
  (let st' :=
     (report_animal ascii_name posix noon (post_as 2 report_form ∅)
                    sample_state).1 in
   ∃ r,
     (report_animal ascii_name posix noon (post_as 2 report_form ∅)
                    sample_state).2 = redirect "dashboard" ∧
     reports st' = reports sample_state ++ [r] ∧
     Report.id r = 2 ∧
     (Report.id r ∉ (Report.id <$> reports sample_state)) ∧
     Report.reporter_id r = 2 ∧
     (Report.animal_type r, Report.description r, Report.location r,
      Report.contact r) = ("dog", "limping", "Indiranagar", "080-1234") ∧
     Report.report_time r = Some noon ∧
     load_user st' 2 = Some (User.add_points 5 donor_bob) ∧
     User.points (User.add_points 5 donor_bob) = (15 + 5)%Z ∧
     Forall2 (λ u u', if decide (User.id u = 2)
                      then u' = User.add_points 5 u else u' = u)
             (users sample_state) (users st') ∧
     donations st' = donations sample_state ∧ events st' = events sample_state).
Proof.
  destruct (intake_persists_and_awards ascii_name posix) as [Hdonation Hreport].
  split.
  - apply (Hdonation (post_as 2 donation_form ∅) sample_state donor_bob
             "rice" "cooked" "5" "X" "2024-06-01T10:00"
             (datetime.mk 2024 6 1 10 0 0)); reflexivity.
  - apply (Hreport noon (post_as 2 report_form ∅) sample_state donor_bob
             "dog" "limping" "Indiranagar" "080-1234"); reflexivity.
Defined.

(** C6: a report with the attachment "../../evil.png". *)
Lemma image_upload_filtered_witness :
  secure_filename ascii_name posix "../../evil.png" = "evil.png" ∧
  let req := post_as 2 report_form {[ "image" := "../../evil.png" ]} in
  let st' := (report_animal ascii_name posix noon req sample_state).1 in
  ∃ r,
    (report_animal ascii_name posix noon req sample_state).2 =
      redirect "dashboard" ∧
    reports st' = reports sample_state ++ [r] ∧
    match files req !! "image" with
    | Some fn =>
        (allowed_file fn = true →
         Report.image_filename r = Some (secure_filename ascii_name posix fn) ∧
         uploads st' = uploads sample_state ++ [secure_filename ascii_name posix fn]) ∧
        (allowed_file fn = false →
         Report.image_filename r = None ∧ uploads st' = uploads sample_state)
    | None => Report.image_filename r = None ∧ uploads st' = uploads sample_state
    end ∧
    ∀ f, Report.image_filename r = Some f →
         path_safe f ∧
         ∃ fn, files req !! "image" = Some fn ∧ allowed_file fn = true ∧
               f = secure_filename ascii_name posix fn.
Proof.
  destruct (image_upload_filtered ascii_name posix)
    as (_ & _ & Hintake & _ & _ & Hevil).
  split; [by apply Hevil|].
  apply (Hintake noon
           (post_as 2 report_form {[ "image" := "../../evil.png" ]})
           sample_state donor_bob "dog" "limping" "Indiranagar" "080-1234");
    reflexivity.
Defined.

(** C7: a donation without its quantity, a donation with a pickup time
    that is no timestamp, a report without its contact.  Each ends in the
    error, with the state untouched: no message, no redirect. *)
Lemma invalid_submission_not_redirected :
  add_donation (post_as 2 (delete "quantity" donation_form) ∅) sample_state =
    (sample_state, raised (BadRequestKeyError "quantity")) ∧
  add_donation (post_as 2 (<["pickup_time" := "tomorrow"]> donation_form) ∅)
               sample_state =
    (sample_state, raised ValueError) ∧
  report_animal ascii_name posix noon
                (post_as 2 (delete "contact" report_form) ∅) sample_state =
    (sample_state, raised (BadRequestKeyError "contact")) ∧
  flashes
    (add_donation (post_as 2 (delete "quantity" donation_form) ∅) sample_state).1
    = [] ∧
  ∀ endpoint,
    (add_donation (post_as 2 (delete "quantity" donation_form) ∅) sample_state).2
    ≠ redirect endpoint.
Proof.
  split; [by vm_compute|]. split; [by vm_compute|]. split; [by vm_compute|].
  split; [by vm_compute|]. intros endpoint. by vm_compute.
Qed.

Lemma invalid_submission_aborts_witness :
  (∃ k,
     form (post_as 2 (delete "quantity" donation_form) ∅) !! k = None ∧
     add_donation (post_as 2 (delete "quantity" donation_form) ∅) sample_state =
       (sample_state, raised (BadRequestKeyError k))) ∧
  add_donation (post_as 2 (<["pickup_time" := "tomorrow"]> donation_form) ∅)
               sample_state =
    (sample_state, raised ValueError) ∧
  (∃ k,
     form (post_as 2 (delete "contact" report_form) ∅) !! k = None ∧
     report_animal ascii_name posix noon
                   (post_as 2 (delete "contact" report_form) ∅) sample_state =
       (sample_state, raised (BadRequestKeyError k))).
Proof.
  destruct (invalid_submission_aborts ascii_name posix)
    as (Hmissing & Hmalformed & Hreport).
  split; [|split].
  - apply (Hmissing (post_as 2 (delete "quantity" donation_form) ∅)
             sample_state donor_bob "quantity").
    + reflexivity.
    + reflexivity.
    + apply (bool_decide_unpack _). vm_compute. exact I.
    + reflexivity.
  - apply (Hmalformed _ sample_state donor_bob "rice" "cooked" "5" "X" "tomorrow");
      reflexivity.
  - apply (Hreport noon (post_as 2 (delete "contact" report_form) ∅)
             sample_state donor_bob "contact").
    + reflexivity.
    + reflexivity.
    + apply (bool_decide_unpack _). vm_compute. exact I.
    + reflexivity.
Defined.

(** C8: a registration under the username of bob with an email of its
    own. *)
Lemma duplicate_username_uncaught_witness :
  register sample_hash
    (anonymous_post (registration_form "robert" "bob@strays.example" "donor"))
    sample_state =
  (flash "Email already registered. Please use a different email." sample_state,
   redirect "register") ∧
  register sample_hash
    (anonymous_post (registration_form "bob" "robert@strays.example" "donor"))
    sample_state =
  (sample_state, raised IntegrityError).
Proof.
  destruct (duplicate_username_uncaught sample_hash) as [Hemail Husername].
  split.
  - apply (Hemail _ sample_state "robert" "s3cret" "bob@strays.example" "donor").
    + reflexivity.
    + reflexivity.
    + reflexivity.
    + reflexivity.
    + reflexivity.
    + apply (bool_decide_unpack _). vm_compute. exact I.
  - apply (Husername _ sample_state "bob" "s3cret" "robert@strays.example" "donor").
    + reflexivity.
    + reflexivity.
    + reflexivity.
    + reflexivity.
    + reflexivity.
    + apply (bool_decide_unpack _). vm_compute. exact I.
    + apply (bool_decide_unpack _). vm_compute. exact I.
Defined.

(** C9: nobody is logged in, the form says "admin". *)
Lemma registration_role_unrestricted_witness :
  let req :=
    anonymous_post (registration_form "mallory" "mallory@strays.example" "admin") in
  let st' := (register sample_hash req sample_state).1 in
  session_user req = None ∧
  (∃ u, users st' = users sample_state ++ [u] ∧ User.id u = 3 ∧
        User.username u = "mallory" ∧ User.role u = "admin") ∧
  login sample_check
        (anonymous_post (list_to_map [("username", "mallory");
                                      ("password", "s3cret")])) st' =
    (st', redirect "dashboard", Some 3) ∧
  create_event (get_as 3 ∅) st' =
    (st', render_template "create_event.html" no_context) ∧
  (stats (get_as 3 ∅) st').1 = st'.
Proof.
  intros req st'.
  destruct (registration_role_unrestricted sample_hash sample_check req
              sample_state "mallory" "s3cret" "mallory@strays.example" "admin")
    as (_ & Husers & _ & Hlogin & Hadmin).
  - reflexivity.
  - reflexivity.
  - reflexivity.
  - reflexivity.
  - reflexivity.
  - apply (bool_decide_unpack _). vm_compute. exact I.
  - apply (bool_decide_unpack _). vm_compute. exact I.
  - split; [reflexivity|]. split; [by eexists|].
    split; [apply Hlogin; reflexivity|].
    destruct (Hadmin eq_refl (get_as 3 ∅) eq_refl) as (_ & Hcreate & Hstats & _).
    split; [by apply Hcreate|exact Hstats].
Defined.

(** C10: with an untimed report in the table the view shows no chart. *)
Lemma untimed_report_not_excluded :
  stats (get_as 1 ∅) untimed_state = (untimed_state, raised AttributeError) ∧
  ∀ ctx, (stats (get_as 1 ∅) untimed_state).2 ≠ render_template "stats.html" ctx.
Proof. split; [by vm_compute|]. intros ctx. by vm_compute. Qed.

Lemma untimed_report_raises_witness :
  stats_body admin_ann untimed_state = (untimed_state, raised AttributeError) ∧
  (∃ donation_chart report_chart,
     stats_body admin_ann sample_state =
       (sample_state,
        render_template "stats.html"
          (stats_context donation_chart report_chart 3)) ∧
     (∀ r, r ∈ reports sample_state → report_key r ∈ labels report_chart) ∧
     counts report_chart =
       (λ k, key_count report_key k (reports sample_state)) <$>
         labels report_chart ∧
     sum_list (counts report_chart) = 1) ∧
  (∃ r, reports (report_animal ascii_name posix noon (post_as 2 report_form ∅)
                               sample_state).1 =
          reports sample_state ++ [r] ∧
        Report.report_time r = Some noon) ∧
  (∃ ctx,
     stats_body admin_ann
       (run ascii_name posix sample_hash sample_check
            [ReportAnimal noon (post_as 2 report_form ∅);
             MapView geocode_found (get_as 1 ∅)] sample_state) =
     (run ascii_name posix sample_hash sample_check
          [ReportAnimal noon (post_as 2 report_form ∅);
           MapView geocode_found (get_as 1 ∅)] sample_state,
      render_template "stats.html" ctx)).
Proof.
  destruct (untimed_report_raises ascii_name posix sample_hash sample_check)
    as (Hraise & Hcount & Hintake & Hhistory).
  split; [|split; [|split]]; cycle 3.
  { apply (Hhistory sample_state); [|reflexivity].
    repeat constructor. by eexists. }
  - apply (Hraise admin_ann untimed_state).
    + reflexivity.
    + apply (bool_decide_unpack _). vm_compute. exact I.
  - apply (Hcount admin_ann sample_state).
    + reflexivity.
    + repeat constructor. by eexists.
  - apply (Hintake noon (post_as 2 report_form ∅) sample_state donor_bob
             "dog" "limping" "Indiranagar" "080-1234"); reflexivity.
Defined.

(** The two attachments of the specification, run through the handler. *)
Example evil_png_stored :
  Report.image_filename <$>
    reports (report_animal ascii_name posix noon
               (post_as 2 report_form {[ "image" := "../../evil.png" ]})
               sample_state).1 =
  [None; Some "evil.png"].
Proof. by vm_compute. Qed.

Example payload_exe_rejected :
  Report.image_filename <$>
    reports (report_animal ascii_name posix noon
               (post_as 2 report_form {[ "image" := "payload.exe" ]})
               sample_state).1 =
  [None; None] ∧
  uploads (report_animal ascii_name posix noon
             (post_as 2 report_form {[ "image" := "payload.exe" ]})
             sample_state).1 = [].
Proof. by vm_compute. Qed.

(** * Further properties of the handlers *)

(** ** Login *)

Lemma find_some_elem {A} (f : A → bool) l x :
  List.find f l = Some x → x ∈ l ∧ f x = true.
Proof.
  intros [Hin Hf]%find_some. split; [by apply list_elem_of_In|done].
Qed.

(** X1.  [login] opens a session only for a user of the table whose name
    is the submitted one and whose stored hash accepts the submitted
    password; it then redirects to the dashboard and leaves the state as
    it is.  In every other case no session is opened and the tables are
    unchanged. *)
Theorem login_sound check_password_hash req st :
  (∀ uid,
     (login check_password_hash req st).2 = Some uid →
     ∃ u username password,
       req_method req = POST ∧
       form req !! "username" = Some username ∧
       form req !! "password" = Some password ∧
       u ∈ users st ∧ User.id u = uid ∧ User.username u = username ∧
       check_password_hash (User.password u) password = true ∧
       login check_password_hash req st = (st, redirect "dashboard", Some uid)) ∧
  users (login check_password_hash req st).1.1 = users st ∧
  ((login check_password_hash req st).2 = None →
   (login check_password_hash req st).1.2 ≠ redirect "dashboard").
Proof.
  unfold login. destruct (req_method req) eqn:Hm; [by repeat split|].
  unfold form_get.
  destruct (form req !! "username") as [username|]; [|by repeat split].
  destruct (form req !! "password") as [password|]; [|by repeat split].
  simpl.
  destruct (List.find _ (users st)) as [u|] eqn:Hfind; [|by repeat split].
  apply find_some_elem in Hfind as [Hin Hname%bool_decide_eq_true].
  destruct (check_password_hash (User.password u) password) eqn:Hcheck;
    [|by repeat split].
  split; [|by split].
  intros uid [= <-]. by exists u, username, password.
Qed.

Lemma login_sound_witness :
  ∃ u username password,
    req_method (anonymous_post (list_to_map [("username", "ann"); ("password", "ann")]))
      = POST ∧
    form (anonymous_post (list_to_map [("username", "ann"); ("password", "ann")]))
      !! "username" = Some username ∧
    form (anonymous_post (list_to_map [("username", "ann"); ("password", "ann")]))
      !! "password" = Some password ∧
    u ∈ users sample_state ∧ User.id u = 1 ∧ User.username u = username ∧
    sample_check (User.password u) password = true ∧
    login sample_check
      (anonymous_post (list_to_map [("username", "ann"); ("password", "ann")]))
      sample_state =
    (sample_state, redirect "dashboard", Some 1).
Proof.
  destruct (login_sound sample_check
              (anonymous_post (list_to_map [("username", "ann"); ("password", "ann")]))
              sample_state) as (Hsession & _).
  apply Hsession. reflexivity.
Defined.

(** ** The unique columns of the users *)

Lemma alter_first_none {A} (p : A → bool) f l :
  (∀ x, x ∈ l → p x = false) → alter_first p f l = l.
Proof.
  induction l as [|x l IH]; [done|]. intros Hall. simpl.
  rewrite (Hall x) by left. f_equal. apply IH. intros y Hy. apply Hall. by right.
Qed.

Lemma filter_all {A} (p : A → bool) l :
  (∀ x, x ∈ l → p x = true) → List.filter p l = l.
Proof.
  induction l as [|x l IH]; [done|]. intros Hall. simpl.
  rewrite (Hall x) by left. f_equal. apply IH. intros y Hy. apply Hall. by right.
Qed.

(** A committed profile keeps the three columns unique. *)
Lemma commit_profile_unique uid username email st st' :
  users_unique st →
  commit_profile uid username email st = Ok st' →
  users_unique st'.
Proof.
  unfold users_unique, commit_profile. intros (Hid & Hname & Hmail).
  destruct (_ || _) eqn:Hdup; [done|]. intros [= <-]. simpl.
  apply orb_false_iff in Hdup as [Hn He].
  apply bool_decide_eq_false in Hn. apply bool_decide_eq_false in He.
  revert Hid Hname Hmail Hn He.
  induction (users st) as [|u us IH]; [done|].
  rewrite !fmap_cons, !NoDup_cons. simpl.
  intros [Hi Hid] [Hu Hname] [Hm Hmail].
  case_bool_decide as Hself; simpl.
  - (* the changed row: no later row has its key *)
    assert (Hrest : List.filter (λ u0, negb (bool_decide (User.id u0 = uid))) us = us).
    { apply filter_all. intros x Hx. apply negb_true_iff, bool_decide_eq_false.
      intros Hx'. apply Hi. rewrite Hself, <- Hx'. by apply list_elem_of_fmap_2. }
    rewrite Hrest. intros Hn He. rewrite ?fmap_cons, ?NoDup_cons. simpl. done.
  - rewrite ?fmap_cons, !not_elem_of_cons. intros [Hn1 Hn] [He1 He].
    specialize (IH Hid Hname Hmail Hn He) as (IHi & IHn & IHm).
    rewrite ?fmap_cons, ?NoDup_cons.
    assert (Hsame : ∀ x, x ∈ alter_first (λ u0, bool_decide (User.id u0 = uid))
                              (set_profile username email) us →
              (User.id x ∈ (User.id <$> us)) ∧
              (User.username x = username ∨ User.username x ∈ (User.username <$> us)) ∧
              (User.email x = email ∨ User.email x ∈ (User.email <$> us))).
    { clear. induction us as [|v vs IHv]; [by intros x ?%elem_of_nil|].
      intros x. simpl. destruct (bool_decide (User.id v = uid)).
      - intros [->|Hx]%elem_of_cons.
        + split; [left|]. by split; left.
        + split; [right; by apply list_elem_of_fmap_2|].
          split; right; right; by apply list_elem_of_fmap_2.
      - intros [->|Hx]%elem_of_cons.
        + split; [left|]. split; right; left.
        + destruct (IHv x Hx) as (Hxi & Hxn & Hxm).
          split; [by right|]. split.
          * destruct Hxn; [by left|right; by right].
          * destruct Hxm; [by left|right; by right]. }
    split; [|split]; (split; [|done]).
    + intros (x & Hx & Hin)%list_elem_of_fmap. apply Hi.
      rewrite Hx. by apply Hsame.
    + intros (x & Hx & Hin)%list_elem_of_fmap.
      destruct (Hsame x Hin) as (_ & [Hxn|Hxn] & _); congruence.
    + intros (x & Hx & Hin)%list_elem_of_fmap.
      destruct (Hsame x Hin) as (_ & _ & [Hxm|Hxm]); congruence.
Qed.

(** X2.  Registration and profile updates keep user keys, usernames and
    emails unique: whatever the request, a table in which no key, no
    username and no email occurs twice is still such a table afterwards. *)
Theorem users_stay_unique generate_password_hash req st :
  users_unique st →
  users_unique (register generate_password_hash req st).1 ∧
  users_unique (profile req st).1.
Proof.
  intros Huniq. split.
  - unfold register. destruct (req_method req); [done|].
    unfold form_get.
    destruct (form req !! "username") as [username|]; [|done].
    destruct (form req !! "password") as [password|]; [|done].
    destruct (form req !! "email") as [email|]; [|done].
    destruct (form req !! "role") as [role|]; [|done]. simpl.
    destruct (List.find _ (users st)); [done|].
    unfold insert_user. simpl.
    destruct (_ || _) eqn:Hdup; [done|]. simpl.
    apply orb_false_iff in Hdup as [Hn He].
    apply bool_decide_eq_false in Hn. apply bool_decide_eq_false in He.
    destruct Huniq as (Hid & Hname & Hmail). unfold users_unique. simpl.
    rewrite !fmap_app. simpl.
    split; [|split]; apply NoDup_app; (split; [done|]);
      (split; [|apply NoDup_singleton]);
      intros x Hx [->|[]%elem_of_nil]%elem_of_cons; try done.
    revert Hx. apply next_id_fresh.
  - unfold profile, login_required, profile_body.
    destruct (current_user req st) as [cu|]; [|done].
    destruct (req_method req); [done|].
    unfold form_get.
    destruct (form req !! "username") as [username|]; [|done].
    destruct (form req !! "email") as [email|]; [|done]. simpl.
    destruct (commit_profile (User.id cu) username email st) as [st'|e] eqn:Hc;
      [|done].
    by apply (commit_profile_unique _ _ _ _ _ Huniq Hc).
Qed.

Lemma users_stay_unique_witness :
  users_unique
    (register sample_hash
       (anonymous_post (registration_form "carol" "carol@strays.example" "volunteer"))
       sample_state).1 ∧
  users_unique
    (profile (post_as 2 (list_to_map [("username", "robert");
                                      ("email", "bob@strays.example")]) ∅)
             sample_state).1.
Proof.
  assert (Hsample : users_unique sample_state)
    by (repeat split; apply (bool_decide_unpack _); vm_compute; exact I).
  split.
  - apply (users_stay_unique sample_hash _ sample_state Hsample).
  - apply (users_stay_unique sample_hash _ sample_state Hsample).
Defined.

(** ** Profile updates *)

Lemma alter_first_Forall2 {A} (R : A → A → Prop) (p : A → bool) f l :
  (∀ x, R x x) → (∀ x, p x = true → R x (f x)) →
  Forall2 R l (alter_first p f l).
Proof.
  intros Hrefl Hf. induction l as [|x l IH]; [constructor|]. simpl.
  destruct (p x) eqn:Hp.
  - constructor; [by apply Hf|]. by apply Forall_Forall2_diag, Forall_forall.
  - by constructor.
Qed.

(** X3.  A profile update touches the username and the email of the
    logged-in user and nothing else: every user keeps key, password hash,
    role and points, every other user is unchanged, and so are the other
    tables.  When the submitted username or email belongs to another user,
    the commit raises the integrity error and the state is as before. *)
Theorem profile_changes_names_only req st :
  Forall2
    (λ u u',
       User.id u' = User.id u ∧ User.password u' = User.password u ∧
       User.role u' = User.role u ∧ User.points u' = User.points u ∧
       (u' = u ∨ ∃ cu, current_user req st = Some cu ∧ User.id u = User.id cu))
    (users st) (users (profile req st).1) ∧
  donations (profile req st).1 = donations st ∧
  reports (profile req st).1 = reports st ∧
  events (profile req st).1 = events st ∧
  (∀ cu username email other,
     current_user req st = Some cu → req_method req = POST →
     form req !! "username" = Some username →
     form req !! "email" = Some email →
     other ∈ users st → User.id other ≠ User.id cu →
     User.username other = username ∨ User.email other = email →
     profile req st = (st, raised IntegrityError)).
Proof.
  assert (Hsame : Forall2
    (λ u u',
       User.id u' = User.id u ∧ User.password u' = User.password u ∧
       User.role u' = User.role u ∧ User.points u' = User.points u ∧
       (u' = u ∨ ∃ cu, current_user req st = Some cu ∧ User.id u = User.id cu))
    (users st) (users st)).
  { apply Forall_Forall2_diag, Forall_forall. intros u _. by repeat split; try left. }
  unfold profile, login_required, profile_body.
  destruct (current_user req st) as [cu|] eqn:Hcu; [|by repeat split].
  destruct (req_method req); [by repeat split|].
  unfold form_get.
  destruct (form req !! "username") as [username|]; [|by repeat split].
  destruct (form req !! "email") as [email|]; [|by repeat split]. simpl.
  unfold commit_profile.
  destruct (_ || _) eqn:Hdup; simpl.
  - by repeat split.
  - split; [|split; [done|split; [done|split; [done|]]]].
    + apply alter_first_Forall2.
      * intros u. by repeat split; try left.
      * intros u Hu%bool_decide_eq_true. repeat split. right. by exists cu.
    + intros cu' username' email' other [= <-] _ [= <-] [= <-] Hin Hne Hclash.
      apply orb_false_iff in Hdup as [Hn He].
      apply bool_decide_eq_false in Hn. apply bool_decide_eq_false in He.
      assert (Hother : other ∈ List.filter
                (λ u, negb (bool_decide (User.id u = User.id cu))) (users st)).
      { apply list_elem_of_In, filter_In. split; [by apply list_elem_of_In|].
        by apply negb_true_iff, bool_decide_eq_false. }
      destruct Hclash as [<-|<-].
      * destruct Hn. by apply list_elem_of_fmap_2.
      * destruct He. by apply list_elem_of_fmap_2.
Qed.

Lemma profile_changes_names_only_witness :
  profile (post_as 2 (list_to_map [("username", "ann");
                                   ("email", "bob@strays.example")]) ∅)
          sample_state =
  (sample_state, raised IntegrityError).
Proof.
  destruct (profile_changes_names_only
              (post_as 2 (list_to_map [("username", "ann");
                                       ("email", "bob@strays.example")]) ∅)
              sample_state) as (_ & _ & _ & _ & Hclash).
  apply (Hclash donor_bob "ann" "bob@strays.example" admin_ann).
  - reflexivity.
  - reflexivity.
  - reflexivity.
  - reflexivity.
  - left.
  - simpl. lia.
  - by left.
Defined.

(** ** Event sign-up *)

Lemma find_alter_first {A} (p : A → bool) f l :
  (∀ x, p (f x) = p x) →
  List.find p (alter_first p f l) = f <$> List.find p l.
Proof.
  intros Hp. induction l as [|x l IH]; [done|]. simpl.
  destruct (p x) eqn:Hx; simpl.
  - by rewrite Hp, Hx.
  - by rewrite Hx.
Qed.

Lemma alter_first_elem {A} (p : A → bool) f l y :
  y ∈ alter_first p f l → y ∈ l ∨ ∃ x, List.find p l = Some x ∧ y = f x.
Proof.
  induction l as [|x l IH]; [by intros ?%elem_of_nil|]. simpl.
  destruct (p x) eqn:Hx.
  - intros [->|Hy]%elem_of_cons.
    + right. by exists x.
    + left. by right.
  - intros [->|Hy]%elem_of_cons; [left; left|].
    destruct (IH Hy) as [?|(z & Hz & ->)]; [left; by right|].
    right. by exists z.
Qed.

(** X4.  Signing up for an event is answered to POST only.  For a
    logged-in user, an unknown event gives the not-found error and changes
    nothing; a known event lists the user as participant afterwards, and
    signing up again changes no event.  No participant is ever listed
    twice, and users, donations and reports are untouched. *)
Theorem signup_event_once event_id req st :
  (req_method req = GET →
   signup_event event_id req st = (st, method_not_allowed)) ∧
  (∀ cu,
     current_user req st = Some cu → req_method req = POST →
     get_event st event_id = None →
     signup_event event_id req st = (st, not_found)) ∧
  (∀ cu e,
     current_user req st = Some cu → req_method req = POST →
     get_event st event_id = Some e →
     ∃ e1,
       get_event (signup_event event_id req st).1 event_id = Some e1 ∧
       User.id cu ∈ Event.participants e1 ∧
       (signup_event event_id req st).2 = plain (redirect "events") ∧
       events (signup_event event_id req (signup_event event_id req st).1).1 =
       events (signup_event event_id req st).1) ∧
  (participants_unique st →
   participants_unique (signup_event event_id req st).1) ∧
  users (signup_event event_id req st).1 = users st ∧
  donations (signup_event event_id req st).1 = donations st ∧
  reports (signup_event event_id req st).1 = reports st.
Proof.
  assert (Hkey : ∀ uid x,
    bool_decide (Event.id (add_participant uid x) = event_id) =
    bool_decide (Event.id x = event_id)) by done.
  unfold signup_event.
  split; [by intros ->|].
  split.
  { intros cu Hcu -> Hnone. unfold login_required_page, signup_event_body.
    by rewrite Hcu, Hnone. }
  split.
  { intros cu e Hcu -> Hget.
    unfold login_required_page, signup_event_body. rewrite Hcu, Hget.
    case_bool_decide as Hin; simpl.
    - exists e. split; [done|]. split; [done|]. split; [done|].
      unfold current_user, load_user in *. simpl. rewrite Hcu.
      unfold get_event in *. simpl. rewrite Hget. by rewrite bool_decide_true.
    - exists (add_participant (User.id cu) e).
      assert (Hget1 : List.find (λ e0, bool_decide (Event.id e0 = event_id))
                (alter_first (λ e0, bool_decide (Event.id e0 = event_id))
                   (add_participant (User.id cu)) (events st)) =
              Some (add_participant (User.id cu) e)).
      { rewrite find_alter_first by apply Hkey.
        unfold get_event in Hget. by rewrite Hget. }
      split; [exact Hget1|].
      split; [simpl; apply elem_of_app; right; left|]. split; [done|].
      unfold current_user, load_user in *. simpl. rewrite Hcu.
      unfold get_event. simpl. rewrite Hget1.
      rewrite bool_decide_true; [done|].
      simpl. apply elem_of_app. right. left. }
  split.
  { intros Huniq. destruct (req_method req); [done|].
    unfold login_required_page, signup_event_body.
    destruct (current_user req st) as [cu|]; [|done].
    destruct (get_event st event_id) as [e|] eqn:Hget; [|done].
    case_bool_decide as Hin; [done|].
    unfold participants_unique. simpl. intros x Hx.
    apply alter_first_elem in Hx as [Hx|(y & Hy & ->)]; [by apply Huniq|].
    unfold get_event in Hget. rewrite Hget in Hy. injection Hy as <-.
    apply find_some_elem in Hget as [He _].
    simpl. apply NoDup_app. split; [by apply Huniq|].
    split; [|apply NoDup_singleton].
    by intros z Hz [->|[]%elem_of_nil]%elem_of_cons. }
  destruct (req_method req); [done|].
  unfold login_required_page, signup_event_body.
  destruct (current_user req st) as [cu|]; [|done].
  destruct (get_event st event_id) as [e|]; [|done].
  by case_bool_decide.
Qed.

Lemma signup_event_once_witness :
  signup_event 1 (get_as 2 ∅) event_state = (event_state, method_not_allowed) ∧
  signup_event 7 (post_as 2 ∅ ∅) event_state = (event_state, not_found) ∧
  (∃ e1,
     get_event (signup_event 1 (post_as 2 ∅ ∅) event_state).1 1 = Some e1 ∧
     User.id donor_bob ∈ Event.participants e1 ∧
     (signup_event 1 (post_as 2 ∅ ∅) event_state).2 = plain (redirect "events") ∧
     events (signup_event 1 (post_as 2 ∅ ∅)
               (signup_event 1 (post_as 2 ∅ ∅) event_state).1).1 =
     events (signup_event 1 (post_as 2 ∅ ∅) event_state).1) ∧
  participants_unique (signup_event 1 (post_as 2 ∅ ∅) event_state).1.
Proof.
  split; [|split; [|split]].
  - by apply (signup_event_once 1 (get_as 2 ∅) event_state).
  - destruct (signup_event_once 7 (post_as 2 ∅ ∅) event_state) as (_ & H & _).
    by apply (H donor_bob).
  - destruct (signup_event_once 1 (post_as 2 ∅ ∅) event_state) as (_ & _ & H & _).
    by apply (H donor_bob walk).
  - destruct (signup_event_once 1 (post_as 2 ∅ ∅) event_state)
      as (_ & _ & _ & H & _).
    apply H. intros e [->|[]%elem_of_nil]%elem_of_cons.
    apply (bool_decide_unpack _). vm_compute. exact I.
Defined.

(** ** Leaderboard *)

Lemma by_points_desc_trans : Transitive by_points_desc.
Proof. unfold by_points_desc. intros x y z ??. lia. Qed.
Lemma by_points_desc_total : Total by_points_desc.
Proof. unfold by_points_desc. intros x y. lia. Qed.

(** X5.  The leaderboard of a logged-in user shows ten users, or all of
    them when there are fewer, in descending order of points, and nobody
    left out has more points than anybody shown. *)
Theorem leaderboard_top_ten req st cu :
  current_user req st = Some cu →
  ∃ top rest,
    leaderboard req st = (st, leaderboard_page top) ∧
    length top = min 10 (length (users st)) ∧
    top ++ rest ≡ₚ users st ∧
    StronglySorted by_points_desc top ∧
    ∀ u v, u ∈ top → v ∈ rest → (User.points v ≤ User.points u)%Z.
Proof.
  intros Hcu. unfold leaderboard, login_required_page, leaderboard_body.
  rewrite Hcu.
  set (sorted := merge_sort by_points_desc (users st)).
  assert (Hperm : sorted ≡ₚ users st) by apply merge_sort_Permutation.
  assert (Hsorted : StronglySorted by_points_desc sorted)
    by apply (@StronglySorted_merge_sort _ by_points_desc _
                by_points_desc_trans by_points_desc_total).
  exists (take 10 sorted), (drop 10 sorted).
  rewrite <- (take_drop 10 sorted) in Hsorted.
  split; [done|]. split; [by rewrite length_take, Hperm|].
  split; [by rewrite take_drop|].
  split; [by apply StronglySorted_app_1_l in Hsorted|].
  intros u v Hu Hv.
  by apply (StronglySorted_app_1_elem_of by_points_desc _ _ u v Hsorted).
Qed.

Lemma leaderboard_top_ten_witness :
  ∃ top rest,
    leaderboard (get_as 1 ∅) sample_state = (sample_state, leaderboard_page top) ∧
    length top = min 10 (length (users sample_state)) ∧
    top ++ rest ≡ₚ users sample_state ∧
    StronglySorted by_points_desc top ∧
    ∀ u v, u ∈ top → v ∈ rest → (User.points v ≤ User.points u)%Z.
Proof. by apply (leaderboard_top_ten (get_as 1 ∅) sample_state admin_ann). Defined.

(** ** Report details *)

Lemma find_none_elem {A} (f : A → bool) l :
  (∀ x, x ∈ l → f x = false) → List.find f l = None.
Proof.
  induction l as [|x l IH]; [done|]. intros Hall. simpl.
  rewrite (Hall x) by left. apply IH. intros y Hy. apply Hall. by right.
Qed.

Lemma find_unique_key (rows : list Report.t) r :
  NoDup (Report.id <$> rows) → r ∈ rows →
  List.find (λ x, bool_decide (Report.id x = Report.id r)) rows = Some r.
Proof.
  induction rows as [|x rows IH]; [by intros _ ?%elem_of_nil|].
  rewrite fmap_cons, NoDup_cons. intros [Hnot Hnd] [->|Hin]%elem_of_cons; simpl.
  - by rewrite bool_decide_true.
  - rewrite bool_decide_false; [by apply IH|].
    intros Heq. apply Hnot. rewrite Heq. by apply list_elem_of_fmap_2.
Qed.

Lemma find_appended {A} (f : A → bool) l x :
  (∀ y, y ∈ l → f y = false) → f x = true → List.find f (l ++ [x]) = Some x.
Proof.
  intros Hold Hx. induction l as [|y l IH]; simpl.
  - by rewrite Hx.
  - rewrite (Hold y) by left. apply IH. intros z Hz. apply Hold. by right.
Qed.

(** X6.  For a logged-in user, the details view answers an unknown key
    with the not-found error, and with unique keys it shows every report of
    the table under its own key.  A report just submitted is shown, with
    the submitted fields, under the key it was given. *)
Theorem report_details_finds nfkd_ascii os_nt :
  (∀ report_id req st cu,
     current_user req st = Some cu →
     report_id ∉ (Report.id <$> reports st) →
     report_details report_id req st = (st, not_found)) ∧
  (∀ req st cu r,
     current_user req st = Some cu →
     NoDup (Report.id <$> reports st) → r ∈ reports st →
     report_details (Report.id r) req st = (st, report_details_page r)) ∧
  (∀ now req st cu animal_type description location contact req1 cu1,
     current_user req st = Some cu → req_method req = POST →
     form req !! "animal_type" = Some animal_type →
     form req !! "description" = Some description →
     form req !! "location" = Some location →
     form req !! "contact" = Some contact →
     let st' := (report_animal nfkd_ascii os_nt now req st).1 in
     current_user req1 st' = Some cu1 →
     ∃ r,
       report_details (next_id (Report.id <$> reports st)) req1 st' =
         (st', report_details_page r) ∧
       (Report.animal_type r, Report.description r, Report.location r,
        Report.contact r) = (animal_type, description, location, contact) ∧
       Report.reporter_id r = User.id cu ∧ Report.report_time r = Some now).
Proof.
  split; [|split].
  - intros report_id req st cu Hcu Hnot.
    unfold report_details, login_required_page, report_details_body.
    rewrite Hcu, find_none_elem; [done|].
    intros x Hx. apply bool_decide_eq_false. intros <-.
    apply Hnot. by apply list_elem_of_fmap_2.
  - intros req st cu r Hcu Hnd Hin.
    unfold report_details, login_required_page, report_details_body.
    by rewrite Hcu, (find_unique_key _ r Hnd Hin).
  - intros now req st cu animal_type description location contact req1 cu1
      Hcu Hpost Ha Hd Hl Hc.
    unfold report_animal, login_required, report_animal_body, form_get.
    rewrite Hcu, Hpost, Ha, Hd, Hl, Hc. simpl.
    assert (Hfresh : ∀ y, y ∈ reports st →
              bool_decide (Report.id y = next_id (Report.id <$> reports st)) = false).
    { intros y Hy. apply bool_decide_eq_false. intros Heq.
      apply (next_id_fresh (Report.id <$> reports st)). rewrite <- Heq.
      by apply list_elem_of_fmap_2. }
    destruct (files req !! "image") as [fn|]; simpl;
      [destruct (negb _ && _); simpl|].
    all: intros Hcu1;
      unfold report_details, login_required_page, report_details_body;
      rewrite Hcu1; simpl;
      rewrite (find_appended _ (reports st) _ Hfresh)
        by (by apply bool_decide_eq_true);
      by eexists.
Qed.

Lemma report_details_finds_witness :
  report_details 9 (get_as 1 ∅) sample_state = (sample_state, not_found) ∧
  report_details 1 (get_as 1 ∅) sample_state =
    (sample_state, report_details_page (stray 1 (Some (at_month 2024 2)))) ∧
  (let st' :=
     (report_animal ascii_name posix noon (post_as 2 report_form ∅)
                    sample_state).1 in
   ∃ r,
     report_details 2 (get_as 1 ∅) st' = (st', report_details_page r) ∧
     (Report.animal_type r, Report.description r, Report.location r,
      Report.contact r) = ("dog", "limping", "Indiranagar", "080-1234") ∧
     Report.reporter_id r = 2 ∧ Report.report_time r = Some noon).
Proof.
  destruct (report_details_finds ascii_name posix) as (Hnone & Hrow & Hnew).
  split; [|split].
  - apply (Hnone 9 _ sample_state admin_ann); [reflexivity|].
    apply (bool_decide_unpack _). vm_compute. exact I.
  - apply (Hrow (get_as 1 ∅) sample_state admin_ann
             (stray 1 (Some (at_month 2024 2)))); [reflexivity| |left].
    apply (bool_decide_unpack _). vm_compute. exact I.
  - apply (Hnew noon (post_as 2 report_form ∅) sample_state donor_bob
             "dog" "limping" "Indiranagar" "080-1234" (get_as 1 ∅) admin_ann);
      reflexivity.
Defined.

(** ** The markers of the two maps *)

Lemma visit_report_marker g tr r :
  mk_marker (visit_report g tr r).2.1 (visit_report g tr r).2.2
            (report_popup (visit_report g tr r).1.2) =
  report_marker (visit_report g tr r).1.2.
Proof.
  unfold visit_report, report_marker.
  destruct (Report.latitude r) as [la|] eqn:Hla,
           (Report.longitude r) as [lo|] eqn:Hlo.
  1: simpl; by rewrite Hla, Hlo.
  all: destruct (g tr (Report.location r)); simpl; by rewrite ?Hla, ?Hlo.
Qed.

Lemma visit_report_row g tr r :
  (visit_report g tr r).1.2 = r ∨
  ∃ la lo, (visit_report g tr r).1.2 = Report.set_coordinates la lo r.
Proof.
  unfold visit_report.
  destruct (Report.latitude r), (Report.longitude r); [by left|..];
    (destruct (g tr (Report.location r)); [right; by eexists _, _|by left..]).
Qed.

Lemma visit_donation_marker g tr d :
  match (visit_donation g tr d).2 with
  | Some (la, lo) =>
      Some (mk_marker la lo (donation_popup (visit_donation g tr d).1.2))
  | None => None
  end = donation_marker (visit_donation g tr d).1.2.
Proof.
  unfold visit_donation, donation_marker.
  destruct (Donation.pickup_latitude d) as [la|] eqn:Hla,
           (Donation.pickup_longitude d) as [lo|] eqn:Hlo.
  1: simpl; by rewrite Hla, Hlo.
  all: destruct (g tr (Donation.pickup_location d)); simpl; by rewrite ?Hla, ?Hlo.
Qed.

Lemma map_view_loop_markers g sel tr rows :
  (∀ la lo r, sel (Report.set_coordinates la lo r) = sel r) →
  mv_markers g sel tr rows =
    report_marker <$> List.filter sel (mv_rows g sel tr rows) ∧
  mv_heat g sel tr rows =
    (λ m, (lat m, lng m, 1)) <$> mv_markers g sel tr rows ∧
  length (mv_rows g sel tr rows) = length rows.
Proof.
  intros Hsel. unfold mv_markers, mv_rows, mv_heat. revert tr.
  induction rows as [|r rows IH]; intros tr; [done|]. simpl.
  destruct (sel r) eqn:Hr.
  - pose proof (visit_report_marker g tr r) as Hm.
    pose proof (visit_report_row g tr r) as Hrow.
    destruct (visit_report g tr r) as [[tr1 r1] [la lo]]. simpl in Hm, Hrow.
    destruct (IH tr1) as (IHm & IHh & IHl).
    destruct (map_view_loop g sel tr1 rows) as [[[tr2 rows2] m2] h2].
    simpl in *.
    assert (Hr1 : sel r1 = true).
    { destruct Hrow as [->|(la' & lo' & ->)]; [done|by rewrite Hsel]. }
    rewrite Hr1. simpl. subst h2 m2. by rewrite Hm, IHl.
  - destruct (IH tr) as (IHm & IHh & IHl).
    destruct (map_view_loop g sel tr rows) as [[[tr2 rows2] m2] h2].
    simpl in *. subst h2 m2. by rewrite Hr, IHl.
Qed.

Lemma donation_map_loop_markers g tr rows :
  dm_markers g tr rows = omap donation_marker (dm_rows g tr rows) ∧
  length (dm_rows g tr rows) = length rows.
Proof.
  unfold dm_markers, dm_rows. revert tr.
  induction rows as [|d rows IH]; intros tr; [done|]. simpl.
  pose proof (visit_donation_marker g tr d) as Hm.
  destruct (visit_donation g tr d) as [[tr1 d1] coords]. simpl in Hm.
  destruct (IH tr1) as (IHm & IHl).
  destruct (donation_map_loop g tr1 rows) as [[tr2 rows2] m2]. simpl in *.
  rewrite <- Hm, IHl. split; [|done].
  destruct coords as [[la lo]|]; simpl; by rewrite IHm.
Qed.

Lemma report_filter_coordinates f la lo r :
  report_filter f (Report.set_coordinates la lo r) = report_filter f r.
Proof. done. Qed.

(** X7.  What the reports map shows to a logged-in user is read off the
    store as the request leaves it: one marker for each report that passes
    the filter, in table order, at the stored coordinates of the report or,
    when it has none, at the fallback coordinate; the heat data repeat the
    coordinates of the markers with weight 1; and the animal types offered
    for filtering are those of all reports, each once, whatever the
    filter. *)
Theorem map_view_shows_store g req st cu :
  current_user req st = Some cu →
  let animal_filter := default "" (args req !! "animal_type") in
  let st' := (map_view g req st).1 in
  ∃ markers distinct_animals heat_data,
    (map_view g req st).2 =
      render_template "map.html"
        (map_context markers distinct_animals animal_filter heat_data) ∧
    markers =
      report_marker <$> List.filter (report_filter animal_filter) (reports st') ∧
    heat_data = (λ m, (lat m, lng m, 1)) <$> markers ∧
    length (reports st') = length (reports st) ∧
    NoDup distinct_animals ∧
    ∀ a, a ∈ distinct_animals ↔ ∃ r, r ∈ reports st ∧ Report.animal_type r = a.
Proof.
  intros Hcu. simpl.
  destruct (map_view_loop_markers g
              (report_filter (default "" (args req !! "animal_type")))
              (trace st) (reports st)) as (Hm & Hh & Hl);
    [intros; apply report_filter_coordinates|].
  unfold mv_markers, mv_rows, mv_heat in *.
  unfold map_view, login_required, map_view_body. rewrite Hcu.
  destruct (map_view_loop _ _ _ _) as [[[tr rows] ms] hs]. simpl in *.
  eexists _, _, _. split; [reflexivity|].
  split; [done|]. split; [done|]. split; [done|].
  split; [apply NoDup_remove_dups|].
  intros a. rewrite elem_of_remove_dups, list_elem_of_fmap. naive_solver.
Qed.

Lemma map_view_shows_store_witness :
  let req := get_as 1 {[ "animal_type" := "DOG" ]} in
  let animal_filter := default "" (args req !! "animal_type") in
  let st' := (map_view geocode_nothing req mapped_state).1 in
  ∃ markers distinct_animals heat_data,
    (map_view geocode_nothing req mapped_state).2 =
      render_template "map.html"
        (map_context markers distinct_animals animal_filter heat_data) ∧
    markers =
      report_marker <$> List.filter (report_filter animal_filter) (reports st') ∧
    heat_data = (λ m, (lat m, lng m, 1)) <$> markers ∧
    length (reports st') = length (reports mapped_state) ∧
    NoDup distinct_animals ∧
    ∀ a, a ∈ distinct_animals ↔
         ∃ r, r ∈ reports mapped_state ∧ Report.animal_type r = a.
Proof.
  by apply (map_view_shows_store geocode_nothing
              (get_as 1 {[ "animal_type" := "DOG" ]}) mapped_state admin_ann).
Defined.

(** X8.  The donations map shows to a logged-in user exactly the donations
    that have coordinates in the store as the request leaves it, in table
    order, each at its stored coordinates; a donation without coordinates
    has no marker. *)
Theorem donation_map_shows_store g req st cu :
  current_user req st = Some cu →
  let st' := (donation_map g req st).1 in
  (donation_map g req st).2 =
    render_template "donation_map.html"
      (donation_map_context (omap donation_marker (donations st'))) ∧
  length (donations st') = length (donations st).
Proof.
  intros Hcu. simpl.
  destruct (donation_map_loop_markers g (trace st) (donations st)) as (Hm & Hl).
  unfold dm_markers, dm_rows in *.
  unfold donation_map, login_required, donation_map_body. rewrite Hcu.
  destruct (donation_map_loop _ _ _) as [[tr rows] ms]. simpl in *.
  by rewrite Hm.
Qed.

Lemma donation_map_shows_store_witness :
  (donation_map geocode_down (get_as 1 ∅) mapped_state).2 =
    render_template "donation_map.html"
      (donation_map_context
         (omap donation_marker
               (donations (donation_map geocode_down (get_as 1 ∅) mapped_state).1))) ∧
  length (donations (donation_map geocode_down (get_as 1 ∅) mapped_state).1) =
    length (donations mapped_state).
Proof.
  by apply (donation_map_shows_store geocode_down (get_as 1 ∅) mapped_state admin_ann).
Defined.

(** ** Calls and pauses *)

Lemma calls_app tr1 tr2 : calls (tr1 ++ tr2) = calls tr1 + calls tr2.
Proof. unfold calls. by rewrite List.filter_app, length_app. Qed.
Lemma sleeps_app tr1 tr2 : sleeps (tr1 ++ tr2) = sleeps tr1 + sleeps tr2.
Proof. unfold sleeps. by rewrite List.filter_app, length_app. Qed.
Lemma persists_app tr1 tr2 : persists (tr1 ++ tr2) = persists tr1 + persists tr2.
Proof. unfold persists. by rewrite List.filter_app, length_app. Qed.

Lemma visit_report_calls g tr r :
  ∃ new,
    (visit_report g tr r).1.1 = tr ++ new ∧
    calls new = (if report_cached r then 0 else 1) ∧
    sleeps new = calls new ∧ persists new ≤ calls new.
Proof.
  destruct (report_cached r) eqn:Hc.
  - destruct (report_cached_inv r Hc) as (la & lo & Hla & Hlo).
    exists []. rewrite (visit_report_stored g tr r la lo Hla Hlo), app_nil_r.
    by repeat split.
  - destruct (g tr (Report.location r)) as [la lo| |] eqn:Hg.
    + eexists. rewrite (visit_report_located g tr r la lo Hc Hg).
      split; [reflexivity|]. by repeat split.
    + eexists. rewrite (visit_report_fallback g tr r Hc);
        [|intros ??; by rewrite Hg].
      split; [reflexivity|]. repeat split. unfold persists, calls. simpl. lia.
    + eexists. rewrite (visit_report_fallback g tr r Hc);
        [|intros ??; by rewrite Hg].
      split; [reflexivity|]. repeat split. unfold persists, calls. simpl. lia.
Qed.

Lemma visit_donation_calls g tr d :
  ∃ new,
    (visit_donation g tr d).1.1 = tr ++ new ∧
    calls new = (if donation_cached d then 0 else 1) ∧
    sleeps new = persists new ∧ persists new ≤ calls new.
Proof.
  destruct (donation_cached d) eqn:Hc.
  - destruct (donation_cached_inv d Hc) as (la & lo & Hla & Hlo).
    exists []. rewrite (visit_donation_stored g tr d la lo Hla Hlo), app_nil_r.
    by repeat split.
  - destruct (g tr (Donation.pickup_location d)) as [la lo| |] eqn:Hg.
    + eexists. rewrite (visit_donation_located g tr d la lo Hc Hg).
      split; [reflexivity|]. by repeat split.
    + eexists. rewrite (visit_donation_skipped g tr d Hc);
        [|intros ??; by rewrite Hg].
      split; [reflexivity|]. repeat split. unfold persists, calls. simpl. lia.
    + eexists. rewrite (visit_donation_skipped g tr d Hc);
        [|intros ??; by rewrite Hg].
      split; [reflexivity|]. repeat split. unfold persists, calls. simpl. lia.
Qed.

Lemma map_view_loop_calls g sel tr rows :
  ∃ new,
    mv_trace g sel tr rows = tr ++ new ∧
    calls new =
      length (List.filter (λ r, sel r && negb (report_cached r)) rows) ∧
    sleeps new = calls new ∧ persists new ≤ calls new.
Proof.
  unfold mv_trace. revert tr. induction rows as [|r rows IH]; intros tr.
  - exists []. simpl. by rewrite app_nil_r.
  - simpl. destruct (sel r); simpl.
    + destruct (visit_report_calls g tr r) as (new1 & Ht1 & Hc1 & Hs1 & Hp1).
      destruct (visit_report g tr r) as [[tr1 r1] [la lo]]. simpl in Ht1. subst tr1.
      destruct (IH (tr ++ new1)) as (new2 & Ht2 & Hc2 & Hs2 & Hp2).
      destruct (map_view_loop g sel (tr ++ new1) rows) as [[[tr2 rows2] m2] h2].
      simpl in *. subst tr2. exists (new1 ++ new2).
      rewrite calls_app, sleeps_app, persists_app, app_assoc.
      split; [done|].
      destruct (report_cached r); simpl; repeat split; lia.
    + destruct (IH tr) as (new2 & Ht2 & Hc2 & Hs2 & Hp2).
      destruct (map_view_loop g sel tr rows) as [[[tr2 rows2] m2] h2].
      simpl in *. by exists new2.
Qed.

Lemma donation_map_loop_calls g tr rows :
  ∃ new,
    dm_trace g tr rows = tr ++ new ∧
    calls new = length (List.filter (λ d, negb (donation_cached d)) rows) ∧
    sleeps new = persists new ∧ persists new ≤ calls new.
Proof.
  unfold dm_trace. revert tr. induction rows as [|d rows IH]; intros tr.
  - exists []. simpl. by rewrite app_nil_r.
  - simpl.
    destruct (visit_donation_calls g tr d) as (new1 & Ht1 & Hc1 & Hs1 & Hp1).
    destruct (visit_donation g tr d) as [[tr1 d1] coords]. simpl in Ht1. subst tr1.
    destruct (IH (tr ++ new1)) as (new2 & Ht2 & Hc2 & Hs2 & Hp2).
    destruct (donation_map_loop g (tr ++ new1) rows) as [[tr2 rows2] m2].
    simpl in *. subst tr2. exists (new1 ++ new2).
    rewrite calls_app, sleeps_app, persists_app, app_assoc.
    split; [done|].
    destruct (donation_cached d); simpl; repeat split; lia.
Qed.

(** X9.  A request for the reports map calls the geocoder exactly once for
    each report that passes the filter and lacks stored coordinates, and
    pauses once after each call.  A request for the donations map calls it
    exactly once for each donation that lacks stored coordinates, but
    pauses only after the calls whose result it persists. *)
Theorem geocoding_cost g req st cu :
  current_user req st = Some cu →
  (∃ new,
     trace (map_view g req st).1 = trace st ++ new ∧
     calls new =
       length (List.filter
                 (λ r, report_filter (default "" (args req !! "animal_type")) r &&
                       negb (report_cached r)) (reports st)) ∧
     sleeps new = calls new) ∧
  (∃ new,
     trace (donation_map g req st).1 = trace st ++ new ∧
     calls new =
       length (List.filter (λ d, negb (donation_cached d)) (donations st)) ∧
     sleeps new = persists new ∧ persists new ≤ calls new).
Proof.
  intros Hcu. split.
  - rewrite (map_view_state g req st cu Hcu). simpl.
    destruct (map_view_loop_calls g
                (report_filter (default "" (args req !! "animal_type")))
                (trace st) (reports st)) as (new & Ht & Hc & Hs & _).
    by exists new.
  - rewrite (donation_map_state g req st cu Hcu). simpl.
    destruct (donation_map_loop_calls g (trace st) (donations st))
      as (new & Ht & Hc & Hs & Hp).
    by exists new.
Qed.

Lemma geocoding_cost_witness :
  (∃ new,
     trace (map_view geocode_down (get_as 1 ∅) mapped_state).1 =
       trace mapped_state ++ new ∧
     calls new =
       length (List.filter
                 (λ r, report_filter
                         (default "" (args (get_as 1 ∅) !! "animal_type")) r &&
                       negb (report_cached r)) (reports mapped_state)) ∧
     sleeps new = calls new) ∧
  (∃ new,
     trace (donation_map geocode_down (get_as 1 ∅) mapped_state).1 =
       trace mapped_state ++ new ∧
     calls new =
       length (List.filter (λ d, negb (donation_cached d))
                           (donations mapped_state)) ∧
     sleeps new = persists new ∧ persists new ≤ calls new).
Proof. by apply (geocoding_cost geocode_down (get_as 1 ∅) mapped_state admin_ann). Defined.

(** ** The animal filter of the reports map *)

Lemma list_ascii_app (a b : string) :
  list_ascii_of_string (a +:+ b) = list_ascii_of_string a ++ list_ascii_of_string b.
Proof.
  induction a as [|c a IH]; [done|].
  change (String c a +:+ b) with (String c (a +:+ b)). simpl. by rewrite IH.
Qed.

Lemma string_of_list_app (a b : list ascii) :
  string_of_list_ascii (a ++ b) = string_of_list_ascii a +:+ string_of_list_ascii b.
Proof. induction a as [|c a IH]; [done|]. simpl. by rewrite IH. Qed.

Lemma lower_app (a b : string) : Py.lower (a +:+ b) = Py.lower a +:+ Py.lower b.
Proof.
  induction a as [|c a IH]; [done|].
  change (String c a +:+ b) with (String c (a +:+ b)). simpl. by rewrite IH.
Qed.

Lemma append_empty_r (s : string) : s +:+ "" = s.
Proof.
  induction s as [|c s IH]; [done|].
  change (String c s +:+ "") with (String c (s +:+ "")). by rewrite IH.
Qed.

Lemma lower_char_wildcard c :
  bool_decide (Py.lower_char c = "%"%char) || bool_decide (Py.lower_char c = "_"%char) =
  bool_decide (c = "%"%char) || bool_decide (c = "_"%char).
Proof. by destruct c as [[] [] [] [] [] [] [] []]. Qed.

Lemma no_wildcard_lower f : no_wildcard (Py.lower f) = no_wildcard f.
Proof.
  unfold no_wildcard. induction f as [|c f IH]; [done|]. simpl.
  by rewrite lower_char_wildcard, IH.
Qed.

(** A leading [%] lets the rest of the pattern start anywhere. *)
Lemma like_percent p s :
  like ("%"%char :: p) s = true ↔ ∃ pre suf, s = pre ++ suf ∧ like p suf = true.
Proof.
  simpl. induction s as [|a s IH].
  - rewrite orb_false_r. split.
    + intros Hp. by exists [], [].
    + intros (pre & suf & Heq & Hp). symmetry in Heq.
      apply app_eq_nil in Heq as [-> ->]. done.
  - rewrite orb_true_iff, IH. split.
    + intros [Hp|(pre & suf & -> & Hp)].
      * by exists [], (a :: s).
      * by exists (a :: pre), suf.
    + intros (pre & suf & Heq & Hp). destruct pre as [|b pre].
      * left. simpl in Heq. by subst suf.
      * right. injection Heq as -> ->. by exists pre, suf.
Qed.

(** A text without wildcards followed by [%] matches what starts with it. *)
Lemma like_literal f s :
  no_wildcard f = true →
  like (list_ascii_of_string f ++ ["%"%char]) s = true ↔
  ∃ suf, s = list_ascii_of_string f ++ suf.
Proof.
  unfold no_wildcard. revert s. induction f as [|c f IH]; intros s.
  - intros _. split; [intros _; by exists s|]. intros _.
    apply (like_percent [] s). exists s, []. by rewrite app_nil_r.
  - intros [Hc Hf]%andb_true_iff.
    apply negb_true_iff, orb_false_iff in Hc as [Hc1 Hc2].
    apply bool_decide_eq_false in Hc1.
    change (list_ascii_of_string (String c f) ++ ["%"%char])
      with (c :: (list_ascii_of_string f ++ ["%"%char])).
    cbn [like]. rewrite decide_False by done. rewrite Hc2. simpl.
    destruct s as [|a s].
    + split; [done|]. by intros [suf Hsuf].
    + rewrite andb_true_iff, bool_decide_eq_true, (IH s Hf). split.
      * intros [-> [suf ->]]. by exists suf.
      * intros [suf [= -> ->]]. split; [done|]. by exists suf.
Qed.

(** X10.  For a filter text without the wildcards [%] and [_] of LIKE, the
    reports map keeps exactly the reports whose animal type contains the
    text, letter case aside on both sides. *)
Theorem report_filter_substring animal_filter r :
  no_wildcard animal_filter = true →
  report_filter animal_filter r = true ↔
  ∃ pre suf,
    Py.lower (Report.animal_type r) = pre +:+ Py.lower animal_filter +:+ suf.
Proof.
  intros Hwild. unfold report_filter.
  destruct (decide (animal_filter = "")) as [->|Hne].
  - split; [intros _|done]. exists (Py.lower (Report.animal_type r)), "".
    change (Py.lower "" +:+ "") with "". by rewrite append_empty_r.
  - unfold ilike.
    assert (Hpat :
      list_ascii_of_string (Py.lower ("%" +:+ animal_filter +:+ "%")) =
      "%"%char :: (list_ascii_of_string (Py.lower animal_filter) ++ ["%"%char])).
    { rewrite !lower_app, !list_ascii_app. reflexivity. }
    rewrite Hpat, like_percent. setoid_rewrite like_literal;
      [|by rewrite no_wildcard_lower].
    split.
    + intros (pre & suf & Heq & suf' & ->).
      exists (string_of_list_ascii pre), (string_of_list_ascii suf').
      rewrite <- (string_of_list_ascii_of_string (Py.lower (Report.animal_type r))).
      rewrite Heq, !string_of_list_app.
      by rewrite string_of_list_ascii_of_string.
    + intros (pre & suf & Heq).
      exists (list_ascii_of_string pre),
             (list_ascii_of_string (Py.lower animal_filter) ++
              list_ascii_of_string suf).
      split; [by rewrite Heq, !list_ascii_app|]. by eexists.
Qed.

Lemma report_filter_substring_witness :
  report_filter "DOG" (stray 1 None) = true ↔
  ∃ pre suf,
    Py.lower (Report.animal_type (stray 1 None)) = pre +:+ Py.lower "DOG" +:+ suf.
Proof. by apply (report_filter_substring "DOG" (stray 1 None)). Defined.

(** ** Event creation *)


Ltac open_forms :=
  repeat match goal with
         | |- context [form_get ?req ?k] => destruct (form_get req k); simpl
         end.

Lemma register_events gph req st : events (register gph req st).1 = events st.
Proof.
  unfold register, insert_user. destruct (req_method req); [done|].
  simpl. open_forms; try done.
  destruct (List.find _ _); [done|].
  by destruct (_ || _).
Qed.

Lemma login_events cph req st : events (login cph req st).1.1 = events st.
Proof.
  unfold login. destruct (req_method req); [done|].
  simpl. open_forms; try done.
  destruct (List.find _ _); [|done].
  by destruct (cph _ _).
Qed.

Lemma profile_events req st : events (profile req st).1 = events st.
Proof.
  unfold profile, login_required, profile_body, commit_profile.
  destruct (current_user req st); [|done].
  destruct (req_method req); [done|].
  simpl. open_forms; try done.
  by destruct (_ || _).
Qed.

Lemma add_donation_events req st : events (add_donation req st).1 = events st.
Proof.
  unfold add_donation, login_required, add_donation_body.
  destruct (current_user req st); [|done].
  destruct (req_method req); [done|].
  simpl. open_forms; try done.
  by destruct (datetime.strptime _).
Qed.

Lemma report_animal_events nfkd_ascii os_nt now req st :
  events (report_animal nfkd_ascii os_nt now req st).1 = events st.
Proof.
  unfold report_animal, login_required, report_animal_body.
  destruct (current_user req st); [|done].
  destruct (req_method req); [done|].
  simpl. open_forms; try done.
  destruct (files req !! "image") as [fn|]; simpl; [|done].
  by destruct (negb _ && _).
Qed.

Lemma stats_events req st : events (stats req st).1 = events st.
Proof. by destruct (stats_tables req st) as [->|[msg ->]]. Qed.

Lemma map_view_events g req st : events (map_view g req st).1 = events st.
Proof.
  destruct (current_user req st) as [cu|] eqn:Hcu.
  - by rewrite (map_view_state g req st cu Hcu).
  - by rewrite (map_view_anonymous g req st Hcu).
Qed.

Lemma donation_map_events g req st : events (donation_map g req st).1 = events st.
Proof.
  destruct (current_user req st) as [cu|] eqn:Hcu.
  - by rewrite (donation_map_state g req st cu Hcu).
  - by rewrite (donation_map_anonymous g req st Hcu).
Qed.

Lemma leaderboard_events req st : events (leaderboard req st).1 = events st.
Proof.
  unfold leaderboard, login_required_page. by destruct (current_user req st).
Qed.

Lemma report_details_events report_id req st :
  events (report_details report_id req st).1 = events st.
Proof.
  unfold report_details, login_required_page, report_details_body.
  destruct (current_user req st); [|done]. by destruct (List.find _ _).
Qed.

(** Signing up leaves every event in its place and changes nothing of it
    but, for one event, the participants, to which it adds the user. *)
Lemma signup_event_events event_id req st :
  Forall2
    (λ e e', e' = e ∨
             ∃ cu, current_user req st = Some cu ∧ req_method req = POST ∧
                   Event.id e = event_id ∧ e' = add_participant (User.id cu) e)
    (events st) (events (signup_event event_id req st).1).
Proof.
  assert (Hsame : ∀ l : list Event.t,
            Forall2
              (λ e e', e' = e ∨
                 ∃ cu, current_user req st = Some cu ∧ req_method req = POST ∧
                       Event.id e = event_id ∧ e' = add_participant (User.id cu) e)
              l l).
  { intros l. apply Forall_Forall2_diag, Forall_forall. intros; by left. }
  unfold signup_event. destruct (req_method req) eqn:Hm; [apply Hsame|].
  unfold login_required_page, signup_event_body.
  destruct (current_user req st) as [cu|] eqn:Hcu; [|apply Hsame].
  destruct (get_event st event_id); [|apply Hsame].
  destruct (bool_decide _); [apply Hsame|]. simpl.
  apply alter_first_Forall2; [intros; by left|].
  intros e He%bool_decide_eq_true. right. by exists cu.
Qed.

(** What [create_event] does to the tables. *)
Lemma create_event_effect req st :
  (events (create_event req st).1 = events st ∨
   ∃ cu e event_time_str,
     current_user req st = Some cu ∧ User.role cu = "admin" ∧
     req_method req = POST ∧
     events (create_event req st).1 = events st ++ [e] ∧
     (Event.id e ∉ (Event.id <$> events st)) ∧
     Event.participants e = [] ∧
     form req !! "title" = Some (Event.title e) ∧
     form req !! "location" = Some (Event.location e) ∧
     form req !! "event_time" = Some event_time_str ∧
     datetime.strptime event_time_str = Some (Event.event_time e)) ∧
  (∀ cu title description event_time_str event_time location,
     current_user req st = Some cu → User.role cu = "admin" →
     req_method req = POST →
     form req !! "title" = Some title →
     form req !! "description" = Some description →
     form req !! "event_time" = Some event_time_str →
     datetime.strptime event_time_str = Some event_time →
     form req !! "location" = Some location →
     create_event req st =
       (flash "Event created successfully!"
          (set_events
             (events st ++
              [Event.mk (next_id (Event.id <$> events st)) title description
                        event_time location []]) st),
        redirect "events")) ∧
  users (create_event req st).1 = users st ∧
  donations (create_event req st).1 = donations st ∧
  reports (create_event req st).1 = reports st.
Proof.
  unfold create_event, login_required, create_event_body.
  destruct (current_user req st) as [cu|] eqn:Hcu; [|by repeat split; auto].
  destruct (decide (User.role cu ≠ "admin")) as [Hne|Hadmin].
  { split; [by left|]. split; [|done].
    intros cu' ????? [= <-] Hrole. by destruct Hne. }
  apply dec_stable in Hadmin.
  destruct (req_method req) eqn:Hpost.
  { split; [by left|]. by split. }
  unfold form_get.
  destruct (form req !! "title") as [title|] eqn:Ht;
    [|split; [by left|]; (split; [|done]); intros; simplify_eq].
  destruct (form req !! "description") as [description|] eqn:Hd;
    [|split; [by left|]; (split; [|done]); intros; simplify_eq].
  destruct (form req !! "event_time") as [event_time_str|] eqn:He;
    [|split; [by left|]; (split; [|done]); intros; simplify_eq].
  simpl.
  destruct (datetime.strptime event_time_str) as [event_time|] eqn:Hparse;
    [|split; [by left|]; (split; [|done]); intros; simplify_eq].
  simpl.
  destruct (form req !! "location") as [location|] eqn:Hl;
    [|split; [by left|]; (split; [|done]); intros; simplify_eq].
  simpl. split; [|split; [|done]].
  - right. eexists cu, _, event_time_str. simpl.
    repeat split; try done. apply next_id_fresh.
  - intros cu' t d s et l _ _ _ [= <-] [= <-] [= <-] Hp [= <-].
    rewrite Hparse in Hp. by injection Hp as <-.
Qed.

(** X11.  The table of events changes only by a POST to [create_event] of
    a logged-in user whose role is "admin", and then by one event appended
    with a fresh key, no participants, and the submitted title, place and
    parsed time; such a POST with its four fields and a well-formed time
    always appends it.  Event creation changes no other table.  Of the
    other handlers, [signup_event] leaves every event in its place and
    changes nothing of it but the participants of the event signed up for,
    and registration, login, the profile, the two intake handlers, the
    analytics view, the two maps, the leaderboard and the report details
    leave the table of events as it is. *)
Theorem events_change_by_admin_post req st :
  (events (create_event req st).1 = events st ∨
   ∃ cu e event_time_str,
     current_user req st = Some cu ∧ User.role cu = "admin" ∧
     req_method req = POST ∧
     events (create_event req st).1 = events st ++ [e] ∧
     (Event.id e ∉ (Event.id <$> events st)) ∧
     Event.participants e = [] ∧
     form req !! "title" = Some (Event.title e) ∧
     form req !! "location" = Some (Event.location e) ∧
     form req !! "event_time" = Some event_time_str ∧
     datetime.strptime event_time_str = Some (Event.event_time e)) ∧
  (∀ cu title description event_time_str event_time location,
     current_user req st = Some cu → User.role cu = "admin" →
     req_method req = POST →
     form req !! "title" = Some title →
     form req !! "description" = Some description →
     form req !! "event_time" = Some event_time_str →
     datetime.strptime event_time_str = Some event_time →
     form req !! "location" = Some location →
     create_event req st =
       (flash "Event created successfully!"
          (set_events
             (events st ++
              [Event.mk (next_id (Event.id <$> events st)) title description
                        event_time location []]) st),
        redirect "events")) ∧
  users (create_event req st).1 = users st ∧
  donations (create_event req st).1 = donations st ∧
  reports (create_event req st).1 = reports st ∧
  (∀ event_id,
     Forall2
       (λ e e', e' = e ∨
                ∃ cu, current_user req st = Some cu ∧ req_method req = POST ∧
                      Event.id e = event_id ∧
                      e' = add_participant (User.id cu) e)
       (events st) (events (signup_event event_id req st).1)) ∧
  (∀ generate_password_hash,
     events (register generate_password_hash req st).1 = events st) ∧
  (∀ check_password_hash,
     events (login check_password_hash req st).1.1 = events st) ∧
  events (profile req st).1 = events st ∧
  events (add_donation req st).1 = events st ∧
  (∀ nfkd_ascii os_nt now,
     events (report_animal nfkd_ascii os_nt now req st).1 = events st) ∧
  events (stats req st).1 = events st ∧
  (∀ g, events (map_view g req st).1 = events st) ∧
  (∀ g, events (donation_map g req st).1 = events st) ∧
  events (leaderboard req st).1 = events st ∧
  (∀ report_id, events (report_details report_id req st).1 = events st).
Proof.
  destruct (create_event_effect req st) as (Hchange & Hcreate & Hu & Hd & Hr).
  split; [exact Hchange|]. split; [exact Hcreate|].
  split; [exact Hu|]. split; [exact Hd|]. split; [exact Hr|].
  split; [intros event_id; apply signup_event_events|].
  split; [intros gph; apply register_events|].
  split; [intros cph; apply login_events|].
  split; [apply profile_events|].
  split; [apply add_donation_events|].
  split; [intros nfkd os_nt now; apply report_animal_events|].
  split; [apply stats_events|].
  split; [intros g; apply map_view_events|].
  split; [intros g; apply donation_map_events|].
  split; [apply leaderboard_events|].
  intros report_id. apply report_details_events.
Qed.

Lemma events_change_by_admin_post_witness :
  create_event
    (post_as 1 (list_to_map [("title", "Vaccination camp"); ("description", "free");
                             ("event_time", "2024-08-15T09:30");
                             ("location", "Lalbagh")]) ∅)
    sample_state =
  (flash "Event created successfully!"
     (set_events
        (events sample_state ++
         [Event.mk (next_id (Event.id <$> events sample_state))
                   "Vaccination camp" "free" (datetime.mk 2024 8 15 9 30 0)
                   "Lalbagh" []]) sample_state),
   redirect "events").
Proof.
  destruct (events_change_by_admin_post
              (post_as 1 (list_to_map [("title", "Vaccination camp");
                                       ("description", "free");
                                       ("event_time", "2024-08-15T09:30");
                                       ("location", "Lalbagh")]) ∅)
              sample_state) as (_ & Hcreate & _).
  apply (Hcreate admin_ann "Vaccination camp" "free" "2024-08-15T09:30");
    reflexivity.
Defined.

(** ** The totals of the analytics view *)

Lemma report_buckets_ok rows data data' :
  report_buckets data rows = Ok data' →
  Forall (λ r, is_Some (Report.report_time r)) rows.
Proof.
  revert data. induction rows as [|r rows IH]; intros data; [constructor|].
  simpl. destruct (Report.report_time r) as [t|] eqn:Ht; [|done].
  intros Hok. constructor; [by rewrite Ht|by apply (IH _ Hok)].
Qed.

(** X12.  Whenever the analytics view shows its page, the user is an
    admin, the state is as before, each chart has as many counts as
    labels, the counts of the donation chart add up to the total number of
    donations shown beside it, which is the number of donations in the
    table, and the counts of the report chart add up to the number of
    reports. *)
Theorem stats_totals_agree cu st st' donation_chart report_chart total :
  stats_body cu st =
    (st', render_template "stats.html"
            (stats_context donation_chart report_chart total)) →
  User.role cu = "admin" ∧ st' = st ∧
  total = length (donations st) ∧
  sum_list (counts donation_chart) = total ∧
  sum_list (counts report_chart) = length (reports st) ∧
  length (counts donation_chart) = length (labels donation_chart) ∧
  length (counts report_chart) = length (labels report_chart).
Proof.
  unfold stats_body.
  destruct (decide (User.role cu ≠ "admin")) as [|Hadmin]; [done|].
  apply dec_stable in Hadmin.
  destruct (report_buckets ∅ (reports st)) as [data|] eqn:Hbuckets; [|done].
  intros [= <- <- <- <-].
  pose proof (report_buckets_ok _ _ _ Hbuckets) as Htimed.
  rewrite (report_buckets_all_timed _ _ Htimed) in Hbuckets.
  injection Hbuckets as <-.
  destruct (chart_of_tally donation_key (donations st)) as (_ & Hnd & Hmem & Hc).
  destruct (chart_of_tally report_key (reports st)) as (_ & Hnd' & Hmem' & Hc').
  split; [done|]. split; [done|]. split; [done|].
  split; [|split; [|split]].
  - unfold donation_buckets. rewrite Hc. apply key_count_total; [done|].
    intros d Hd. apply Hmem. by exists d.
  - rewrite Hc'. apply key_count_total; [done|].
    intros r Hr. apply Hmem'. by exists r.
  - unfold donation_buckets. by rewrite Hc, length_fmap.
  - by rewrite Hc', length_fmap.
Qed.

Lemma stats_totals_agree_witness :
  User.role admin_ann = "admin" ∧ sample_state = sample_state ∧
  3 = length (donations sample_state) ∧
  sum_list (counts (chart_of (donation_buckets (donations sample_state)))) = 3 ∧
  sum_list (counts (mk_chart ["2024-02"] [1])) = length (reports sample_state) ∧
  length (counts (chart_of (donation_buckets (donations sample_state)))) =
    length (labels (chart_of (donation_buckets (donations sample_state)))) ∧
  length (counts (mk_chart ["2024-02"] [1])) =
    length (labels (mk_chart ["2024-02"] [1])).
Proof.
  apply (stats_totals_agree admin_ann sample_state sample_state
           (chart_of (donation_buckets (donations sample_state)))
           (mk_chart ["2024-02"] [1]) 3).
  by vm_compute.
Defined.

(** ** Points and owners over histories *)

Lemma visit_donation_row g tr d :
  (visit_donation g tr d).1.2 = d ∨
  ∃ la lo, (visit_donation g tr d).1.2 = Donation.set_coordinates la lo d.
Proof.
  unfold visit_donation.
  destruct (Donation.pickup_latitude d), (Donation.pickup_longitude d); [by left|..];
    (destruct (g tr (Donation.pickup_location d)); [right; by eexists _, _|by left..]).
Qed.

Lemma map_view_loop_owners g sel tr rows :
  Report.reporter_id <$> mv_rows g sel tr rows = Report.reporter_id <$> rows.
Proof.
  unfold mv_rows. revert tr. induction rows as [|r rows IH]; intros tr; [done|].
  simpl. destruct (sel r).
  - pose proof (visit_report_row g tr r) as Hrow.
    destruct (visit_report g tr r) as [[tr1 r1] [la lo]]. simpl in Hrow.
    specialize (IH tr1).
    destruct (map_view_loop g sel tr1 rows) as [[[tr2 rows2] m2] h2].
    simpl in *. rewrite ?fmap_cons. f_equal; [|done].
    by destruct Hrow as [->|(la' & lo' & ->)].
  - specialize (IH tr).
    destruct (map_view_loop g sel tr rows) as [[[tr2 rows2] m2] h2].
    simpl in *. rewrite ?fmap_cons. by f_equal.
Qed.

Lemma donation_map_loop_owners g tr rows :
  Donation.donor_id <$> dm_rows g tr rows = Donation.donor_id <$> rows.
Proof.
  unfold dm_rows. revert tr. induction rows as [|d rows IH]; intros tr; [done|].
  simpl. pose proof (visit_donation_row g tr d) as Hrow.
  destruct (visit_donation g tr d) as [[tr1 d1] coords]. simpl in Hrow.
  specialize (IH tr1).
  destruct (donation_map_loop g tr1 rows) as [[tr2 rows2] m2].
  simpl in *. rewrite ?fmap_cons. f_equal; [|done].
  by destruct Hrow as [->|(la' & lo' & ->)].
Qed.

Lemma current_user_elem req st cu : current_user req st = Some cu → cu ∈ users st.
Proof.
  unfold current_user, load_user. destruct (session_user req); [|done]. simpl.
  by intros [? _]%find_some_elem.
Qed.

Lemma award_keeps_ids uid n (us : list User.t) :
  User.id <$> ((λ u, if bool_decide (User.id u = uid)
                     then User.add_points n u else u) <$> us) =
  User.id <$> us.
Proof.
  induction us as [|u us IH]; [done|]. rewrite !fmap_cons, IH. f_equal.
  by destruct (bool_decide (User.id u = uid)).
Qed.

Lemma award_skips uid n (us : list User.t) :
  uid ∉ (User.id <$> us) →
  (λ u, if bool_decide (User.id u = uid) then User.add_points n u else u) <$> us = us.
Proof.
  induction us as [|u us IH]; [done|].
  rewrite !fmap_cons, not_elem_of_cons. intros [Hne Hnot].
  rewrite bool_decide_false by done. by rewrite IH.
Qed.

Lemma award_total cu n (us : list User.t) :
  NoDup (User.id <$> us) → cu ∈ us →
  foldr (λ u m, (User.points u + m)%Z) 0%Z
    ((λ u, if bool_decide (User.id u = User.id cu)
           then User.add_points n u else u) <$> us) =
  (foldr (λ u m, (User.points u + m)%Z) 0%Z us + n)%Z.
Proof.
  induction us as [|u us IH]; [by intros _ ?%elem_of_nil|].
  rewrite !fmap_cons, NoDup_cons. intros [Hnot Hnd] [->|Hin]%elem_of_cons.
  - rewrite bool_decide_true by done. rewrite award_skips by done. simpl. lia.
  - rewrite bool_decide_false.
    + simpl. rewrite IH by done. lia.
    + intros Heq. apply Hnot. rewrite Heq. by apply list_elem_of_fmap_2.
Qed.

Lemma total_points_app (us vs : list User.t) :
  foldr (λ u m, (User.points u + m)%Z) 0%Z (us ++ vs) =
  (foldr (λ u m, (User.points u + m)%Z) 0%Z us +
   foldr (λ u m, (User.points u + m)%Z) 0%Z vs)%Z.
Proof. induction us as [|u us IH]; simpl; lia. Qed.

Lemma ledger_step_accounted st st' :
  ledger_step st st' → points_accounted st → points_accounted st'.
Proof.
  unfold points_accounted, total_points. intros Hstep [Hnd Hsum].
  destruct Hstep as [(Hu & Hd & Hr)|[(u & Hu & Hid & Hp & Hd & Hr)|
    [(cu & d & Hcu & Hu & Hd & Hdonor & Hr)|(cu & r & Hcu & Hu & Hr & Hrep & Hd)]]].
  - rewrite Hu. split; [done|]. rewrite Hsum.
    apply (f_equal length) in Hd. apply (f_equal length) in Hr.
    rewrite !length_fmap in Hd. rewrite !length_fmap in Hr. lia.
  - rewrite Hu, Hd, Hr, fmap_app, total_points_app. split.
    + apply NoDup_app. split; [done|]. split; [|apply NoDup_singleton].
      intros x Hx [->|[]%elem_of_nil]%elem_of_cons.
      revert Hx. rewrite Hid. apply next_id_fresh.
    + simpl. lia.
  - rewrite Hu, Hd, Hr, award_keeps_ids, (award_total cu 10 _ Hnd Hcu).
    split; [done|]. rewrite length_app. simpl. lia.
  - rewrite Hu, Hd, Hr, award_keeps_ids, (award_total cu 5 _ Hnd Hcu).
    split; [done|]. rewrite length_app. simpl. lia.
Qed.

Lemma ledger_step_owners st st' :
  ledger_step st st' → owners_exist st → owners_exist st'.
Proof.
  unfold owners_exist. intros Hstep [Hdon Hrep].
  assert (Hlist : ∀ {A} (f : A → nat) (l l' : list A) (ids : list nat),
            f <$> l' = f <$> l → (∀ x, x ∈ l → f x ∈ ids) →
            ∀ x, x ∈ l' → f x ∈ ids).
  { intros A f l l' ids Heq Hall x Hx.
    assert (Hfx : f x ∈ (f <$> l')) by (by apply list_elem_of_fmap_2).
    rewrite Heq in Hfx. apply list_elem_of_fmap in Hfx as (y & -> & Hy).
    by apply Hall. }
  destruct Hstep as [(Hu & Hd & Hr)|[(u & Hu & Hid & Hp & Hd & Hr)|
    [(cu & d & Hcu & Hu & Hd & Hdonor & Hr)|(cu & r & Hcu & Hu & Hr & Hrep' & Hd)]]].
  - rewrite Hu. split; [by apply (Hlist _ _ _ _ _ Hd)|by apply (Hlist _ _ _ _ _ Hr)].
  - rewrite Hu, Hd, Hr, fmap_app. split; intros x Hx; apply elem_of_app; left; auto.
  - rewrite Hu, Hd, Hr, award_keeps_ids. split; [|done].
    intros x [Hx|[->|[]%elem_of_nil]%elem_of_cons]%elem_of_app; [auto|].
    rewrite Hdonor. by apply list_elem_of_fmap_2.
  - rewrite Hu, Hd, Hr, award_keeps_ids. split; [done|].
    intros x [Hx|[->|[]%elem_of_nil]%elem_of_cons]%elem_of_app; [auto|].
    rewrite Hrep'. by apply list_elem_of_fmap_2.
Qed.

Section Ledger.

Variable nfkd_ascii : string → string.
Variable os_nt : bool.
Variable generate_password_hash : string → string.
Variable check_password_hash : string → string → bool.

Local Abbreviation step :=
  (step nfkd_ascii os_nt generate_password_hash check_password_hash).
Local Abbreviation run :=
  (run nfkd_ascii os_nt generate_password_hash check_password_hash).

Lemma ledger_step_same st st' :
  users st' = users st → donations st' = donations st → reports st' = reports st →
  ledger_step st st'.
Proof. intros Hu Hd Hr. left. by rewrite Hu, Hd, Hr. Qed.

Lemma step_ledger a st : ledger_step st (step a st).
Proof.
  destruct a as [req|req|req|now req|req|req|g req|g req]; simpl.
  - (* register *)
    unfold register. destruct (req_method req); [by apply ledger_step_same|].
    unfold form_get.
    destruct (form req !! "username"); [|by apply ledger_step_same].
    destruct (form req !! "password"); [|by apply ledger_step_same].
    destruct (form req !! "email"); [|by apply ledger_step_same].
    destruct (form req !! "role"); [|by apply ledger_step_same]. simpl.
    destruct (List.find _ _); [by apply ledger_step_same|].
    unfold insert_user. destruct (_ || _); [by apply ledger_step_same|].
    right. left. by eexists.
  - (* login *)
    unfold login. destruct (req_method req); [by apply ledger_step_same|].
    unfold form_get.
    destruct (form req !! "username"); [|by apply ledger_step_same].
    destruct (form req !! "password"); [|by apply ledger_step_same]. simpl.
    destruct (List.find _ _); [|by apply ledger_step_same].
    destruct (check_password_hash _ _); by apply ledger_step_same.
  - (* add_donation *)
    unfold add_donation, login_required, add_donation_body.
    destruct (current_user req st) as [cu|] eqn:Hcu; [|by apply ledger_step_same].
    destruct (req_method req); [by apply ledger_step_same|].
    unfold form_get.
    destruct (form req !! "description"); [|by apply ledger_step_same].
    destruct (form req !! "food_type"); [|by apply ledger_step_same].
    destruct (form req !! "quantity"); [|by apply ledger_step_same].
    destruct (form req !! "pickup_location"); [|by apply ledger_step_same].
    destruct (form req !! "pickup_time"); [|by apply ledger_step_same]. simpl.
    destruct (datetime.strptime _); simpl; [|by apply ledger_step_same].
    right. right. left. eexists cu, _.
    split; [by apply (current_user_elem req)|done].
  - (* report_animal *)
    unfold report_animal, login_required, report_animal_body.
    destruct (current_user req st) as [cu|] eqn:Hcu; [|by apply ledger_step_same].
    destruct (req_method req); [by apply ledger_step_same|].
    unfold form_get.
    destruct (form req !! "animal_type"); [|by apply ledger_step_same].
    destruct (form req !! "description"); [|by apply ledger_step_same].
    destruct (form req !! "location"); [|by apply ledger_step_same].
    destruct (form req !! "contact"); [|by apply ledger_step_same]. simpl.
    destruct (files req !! "image") as [fn|]; simpl;
      [destruct (negb _ && _); simpl|].
    all: right; right; right; eexists cu, _;
      (split; [by apply (current_user_elem req)|done]).
  - (* create_event *)
    unfold create_event, login_required, create_event_body.
    destruct (current_user req st); [|by apply ledger_step_same].
    destruct (decide _); [by apply ledger_step_same|].
    destruct (req_method req); [by apply ledger_step_same|].
    unfold form_get.
    destruct (form req !! "title"); [|by apply ledger_step_same].
    destruct (form req !! "description"); [|by apply ledger_step_same].
    destruct (form req !! "event_time"); [|by apply ledger_step_same]. simpl.
    destruct (datetime.strptime _); simpl; [|by apply ledger_step_same].
    destruct (form req !! "location"); by apply ledger_step_same.
  - (* stats *)
    destruct (stats_tables req st) as [->|[msg ->]]; by apply ledger_step_same.
  - (* map_view *)
    destruct (current_user req st) as [cu|] eqn:Hcu.
    + rewrite (map_view_state g req st cu Hcu). left. simpl.
      split; [done|]. split; [done|]. apply map_view_loop_owners.
    + rewrite (map_view_anonymous g req st Hcu). by apply ledger_step_same.
  - (* donation_map *)
    destruct (current_user req st) as [cu|] eqn:Hcu.
    + rewrite (donation_map_state g req st cu Hcu). left. simpl.
      split; [done|]. split; [apply donation_map_loop_owners|done].
    + rewrite (donation_map_anonymous g req st Hcu). by apply ledger_step_same.
Qed.

(** X13.  Over any history of requests the books stay balanced: if user
    keys are unique and the points of all users are ten for each donation
    and five for each report, the same holds after the history. *)
Theorem points_stay_accounted acts st :
  points_accounted st → points_accounted (run acts st).
Proof using Type.
  revert st. induction acts as [|a acts IH]; intros st Hst; [done|].
  simpl. apply IH. apply (ledger_step_accounted st); [apply step_ledger|done].
Qed.

(** X14.  Over any history of requests every donation and every report
    belongs to a user of the table: if that holds before, it holds
    after. *)
Theorem owners_stay acts st :
  owners_exist st → owners_exist (run acts st).
Proof using Type.
  revert st. induction acts as [|a acts IH]; intros st Hst; [done|].
  simpl. apply IH. apply (ledger_step_owners st); [apply step_ledger|done].
Qed.

End Ledger.

Lemma points_stay_accounted_witness :
  points_accounted
    (run ascii_name posix sample_hash sample_check first_history empty_state).
Proof.
  apply points_stay_accounted. split; [apply NoDup_nil_2|reflexivity].
Defined.

Lemma owners_stay_witness :
  owners_exist
    (run ascii_name posix sample_hash sample_check first_history empty_state).
Proof.
  apply owners_stay. split; intros x Hx; by apply elem_of_nil in Hx.
Defined.

Example first_history_points :
  User.points <$>
    users (run ascii_name posix sample_hash sample_check first_history empty_state)
  = [15%Z].
Proof. by vm_compute. Qed.

(** ** The stored name of an accepted upload *)

Lemma append_assoc (a b c : string) : (a +:+ b) +:+ c = a +:+ (b +:+ c).
Proof.
  induction a as [|x a IH]; [done|].
  change ((String x a +:+ b) +:+ c) with (String x ((a +:+ b) +:+ c)).
  by rewrite IH.
Qed.

Lemma letter_facts c :
  is_letter c = true →
  filename_char c = true ∧ Py.is_space c = false ∧ dot_or_underscore c = false ∧
  is_separator c = false.
Proof. destruct c as [[] [] [] [] [] [] [] []]; by vm_compute. Qed.

Lemma lower_char_letter c :
  Py.is_lower (Py.lower_char c) = true → is_letter c = true.
Proof. destruct c as [[] [] [] [] [] [] [] []]; by vm_compute. Qed.

Lemma lower_letters s :
  all_chars Py.is_lower (Py.lower s) = true → all_chars is_letter s = true.
Proof.
  induction s as [|c s IH]; [done|]. simpl.
  intros [Hc Hs]%andb_true_iff. by rewrite (lower_char_letter c Hc), IH.
Qed.

Lemma extension_letters ext :
  Py.lower ext ∈ ALLOWED_EXTENSIONS → all_chars is_letter ext = true ∧ ext ≠ "".
Proof.
  intros Hext. split.
  - apply lower_letters. apply allowed_extensions in Hext.
    by destruct Hext as [-> | [-> | [-> | ->]]].
  - intros ->. apply allowed_extensions in Hext. simpl in Hext. naive_solver.
Qed.

Lemma replace_app c d a b :
  Py.replace c d (a +:+ b) = Py.replace c d a +:+ Py.replace c d b.
Proof.
  induction a as [|x a IH]; [done|].
  change (String x a +:+ b) with (String x (a +:+ b)). simpl. by rewrite IH.
Qed.

Lemma replace_letters c d t :
  is_letter c = false → all_chars is_letter t = true → Py.replace c d t = t.
Proof.
  intros Hc. induction t as [|x t IH]; [done|]. simpl.
  intros [Hx Ht]%andb_true_iff. rewrite (IH Ht).
  destruct (decide (x = c)) as [->|]; [congruence|done].
Qed.

Lemma filter_app p a b : Py.filter p (a +:+ b) = Py.filter p a +:+ Py.filter p b.
Proof.
  induction a as [|x a IH]; [done|].
  change (String x a +:+ b) with (String x (a +:+ b)). simpl.
  rewrite IH. by destruct (p x).
Qed.

Lemma filter_keeps p t : all_chars p t = true → Py.filter p t = t.
Proof.
  induction t as [|x t IH]; [done|]. simpl.
  intros [Hx Ht]%andb_true_iff. by rewrite Hx, (IH Ht).
Qed.

Lemma rev_app_append a b : String.rev_app a b = String.rev a +:+ b.
Proof.
  unfold String.rev. revert b. induction a as [|x a IH]; intros b; [done|].
  simpl. rewrite (IH (String x b)), (IH (String x "")).
  by rewrite append_assoc.
Qed.

(** A run of non-blank characters at the end of a text ends the last word
    of the text. *)
Lemma split_go_word cur t :
  all_chars (λ c, negb (Py.is_space c)) t = true → t ≠ "" →
  Py.split_go cur t = [String.rev (default "" cur) +:+ t].
Proof.
  revert cur. induction t as [|a t IH]; intros cur Hall Hne; [done|].
  simpl in Hall. apply andb_true_iff in Hall as [Ha Ht].
  apply negb_true_iff in Ha. simpl. rewrite Ha.
  destruct t as [|b t].
  - simpl. f_equal. unfold String.rev at 1. simpl.
    by rewrite rev_app_append.
  - rewrite (IH _ Ht) by done. simpl. f_equal.
    unfold String.rev at 1. simpl. rewrite rev_app_append.
    by rewrite append_assoc.
Qed.

Lemma split_go_last cur pre t :
  all_chars (λ c, negb (Py.is_space c)) t = true → t ≠ "" →
  ∃ l w, Py.split_go cur (pre +:+ t) = l ++ [w +:+ t].
Proof.
  intros Hall Hne. revert cur. induction pre as [|a pre IH]; intros cur.
  - exists [], (String.rev (default "" cur)).
    change ("" +:+ t) with t. by rewrite (split_go_word cur t Hall Hne).
  - change (String a pre +:+ t) with (String a (pre +:+ t)). simpl.
    destruct (Py.is_space a).
    + destruct (IH None) as (l & w & ->).
      exists (option_list (String.rev <$> cur) ++ l), w. by rewrite app_assoc.
    + apply IH.
Qed.

Lemma join_last sep l x t :
  ∃ pre, Py.join sep (l ++ [x +:+ t]) = pre +:+ t.
Proof.
  induction l as [|y l [pre IH]]; [by exists x|].
  exists (y +:+ sep +:+ pre).
  change ((y :: l) ++ [x +:+ t]) with (y :: (l ++ [x +:+ t])).
  destruct (l ++ [x +:+ t]) as [|z l'] eqn:Hl; [by destruct l|].
  change (Py.join sep (y :: z :: l')) with (y +:+ sep +:+ Py.join sep (z :: l')).
  by rewrite IH, !append_assoc.
Qed.

Lemma lstrip_keeps p pre t :
  (∀ a t', t = String a t' → p a = false) → t ≠ "" →
  ∃ pre', Py.lstrip p (pre +:+ t) = pre' +:+ t.
Proof.
  intros Hhead Hne. induction pre as [|a pre IH].
  - exists "". destruct t as [|b t]; [done|]. simpl. by rewrite (Hhead b t).
  - change (String a pre +:+ t) with (String a (pre +:+ t)). simpl.
    destruct (p a); [done|]. by exists (String a pre).
Qed.

Lemma rstrip_keeps p pre t :
  all_chars (λ c, negb (p c)) t = true → t ≠ "" →
  Py.rstrip p (pre +:+ t) = pre +:+ t.
Proof.
  intros Hall Hne.
  assert (Ht : Py.rstrip p t = t).
  { clear Hne. induction t as [|a t IH]; [done|]. simpl in *.
    apply andb_true_iff in Hall as [Ha Hs]. apply negb_true_iff in Ha.
    rewrite (IH Hs). destruct t; [by rewrite Ha|done]. }
  induction pre as [|a pre IH]; [done|].
  change (String a pre +:+ t) with (String a (pre +:+ t)). simpl. rewrite IH.
  destruct (pre +:+ t) eqn:Heq; [|done].
  destruct pre; [by simpl in Heq|done].
Qed.

(** X15.  When the captured file name is plain ASCII, so that its Unicode
    normalisation is the name itself, an accepted upload is saved under a
    name that is not empty and ends with the very extension that made it
    acceptable. *)
Theorem accepted_upload_keeps_extension nfkd_ascii os_nt fn :
  nfkd_ascii fn = fn → allowed_file fn = true →
  ∃ stem ext pre,
    fn = stem +:+ "." +:+ ext ∧ Py.contains "." ext = false ∧
    Py.lower ext ∈ ALLOWED_EXTENSIONS ∧ ext ≠ "" ∧
    secure_filename nfkd_ascii os_nt fn = pre +:+ ext ∧
    secure_filename nfkd_ascii os_nt fn ≠ "".
Proof.
  intros Hascii (stem & ext & -> & Hdot & Hext)%allowed_file_spec.
  destruct (extension_letters ext Hext) as [Hletters Hne].
  exists stem, ext.
  assert (Hfacts : ∀ c, is_letter c = true →
            filename_char c = true ∧ Py.is_space c = false ∧
            dot_or_underscore c = false ∧ is_separator c = false)
    by apply letter_facts.
  assert (Hends : ∃ pre, secure_filename nfkd_ascii os_nt (stem +:+ "." +:+ ext)
                         = pre +:+ ext).
  { unfold secure_filename. rewrite Hascii.
    (* the separators become blanks, the extension has none *)
    assert (H1 : ∃ p1,
      match os_altsep os_nt with
      | Some sep => Py.replace sep " " (Py.replace (os_sep os_nt) " " (stem +:+ "." +:+ ext))
      | None => Py.replace (os_sep os_nt) " " (stem +:+ "." +:+ ext)
      end = p1 +:+ ext).
    { rewrite <- append_assoc.
      destruct os_nt; simpl; rewrite ?replace_app, !(replace_letters _ _ ext) by done;
        by eexists. }
    destruct H1 as [p1 ->].
    (* the last word ends with the extension *)
    destruct (split_go_last None p1 ext) as (l & w & Hsplit); [|done|].
    { apply (all_chars_weaken is_letter); [|done].
      intros c Hc. apply negb_true_iff. by apply Hfacts. }
    unfold Py.split. rewrite Hsplit.
    destruct (join_last "_" l w ext) as [p2 ->].
    rewrite filter_app, (filter_keeps filename_char ext)
      by (apply (all_chars_weaken is_letter); [intros c Hc; by apply Hfacts|done]).
    unfold Py.strip.
    destruct (lstrip_keeps dot_or_underscore (Py.filter filename_char p2) ext)
      as [p3 ->]; [|done|].
    { intros a t' ->. simpl in Hletters.
      apply andb_true_iff in Hletters as [Ha _]. by apply Hfacts. }
    rewrite rstrip_keeps; [|
      apply (all_chars_weaken is_letter);
        [intros c Hc; apply negb_true_iff; by apply Hfacts|done] |done].
    destruct (_ && _ && _); [|by eexists].
    exists ("_" +:+ p3). by rewrite append_assoc. }
  destruct Hends as [pre Hpre]. exists pre.
  split; [done|]. split; [done|]. split; [done|]. split; [done|].
  split; [done|]. rewrite Hpre. intros Hempty. destruct pre; [|done].
  by simpl in Hempty.
Qed.

Lemma accepted_upload_keeps_extension_witness :
  ∃ stem ext pre,
    ".Kitty Photo.PNG" = stem +:+ "." +:+ ext ∧ Py.contains "." ext = false ∧
    Py.lower ext ∈ ALLOWED_EXTENSIONS ∧ ext ≠ "" ∧
    secure_filename ascii_name posix ".Kitty Photo.PNG" = pre +:+ ext ∧
    secure_filename ascii_name posix ".Kitty Photo.PNG" ≠ "".
Proof.
  apply (accepted_upload_keeps_extension ascii_name posix ".Kitty Photo.PNG");
    reflexivity.
Defined.

(** ** Registration, then login; histories without a session *)

(** X16.  With a password library whose check accepts every hash it
    generated, a registration under a name and an address that no user has
    yet is followed by a successful login: the name and the password of the
    form open a session for the new user, who has the submitted role and no
    points. *)
Theorem register_then_login generate_password_hash check_password_hash
    req req' st username password email role :
  (∀ p, check_password_hash (generate_password_hash p) p = true) →
  req_method req = POST →
  form req !! "username" = Some username →
  form req !! "password" = Some password →
  form req !! "email" = Some email →
  form req !! "role" = Some role →
  username ∉ User.username <$> users st →
  email ∉ User.email <$> users st →
  req_method req' = POST →
  form req' !! "username" = Some username →
  form req' !! "password" = Some password →
  ∃ st' uid,
    register generate_password_hash req st = (st', redirect "login") ∧
    login check_password_hash req' st' = (st', redirect "dashboard", Some uid) ∧
    load_user st' uid =
      Some (User.mk uid username (generate_password_hash password) email role 0) ∧
    uid ∉ User.id <$> users st.
Proof.
  intros Hlib Hm Hu Hp He Hr Hfresh Hmail Hm' Hu' Hp'.
  set (uid := next_id (User.id <$> users st)).
  set (u := User.mk uid username (generate_password_hash password) email role 0).
  assert (Hnew : ∀ x, x ∈ users st → User.id x ≠ uid).
  { intros x Hx Heq.
    assert (Hle : User.id x ≤ max_list (User.id <$> users st)).
    { apply max_list_elem_of_le. by apply list_elem_of_fmap_2. }
    unfold uid, next_id in Heq. lia. }
  exists (flash "Registration successful! Please login."
            (set_users (users st ++ [u]) st)), uid.
  split; [|split; [|split]].
  - unfold register, form_get. rewrite Hm, Hu, Hp, He, Hr. simpl.
    rewrite (find_email_none email (users st) Hmail).
    unfold insert_user. simpl.
    rewrite (bool_decide_false _ Hfresh), (bool_decide_false _ Hmail). done.
  - unfold login, form_get. rewrite Hm', Hu', Hp'. simpl.
    rewrite (find_appended _ (users st) u).
    + simpl. by rewrite Hlib.
    + intros y Hy. apply bool_decide_eq_false. intros Heq. apply Hfresh.
      rewrite <- Heq. by apply list_elem_of_fmap_2.
    + by apply bool_decide_eq_true.
  - unfold load_user. simpl. apply find_appended.
    + intros y Hy. apply bool_decide_eq_false. by apply Hnew.
    + by apply bool_decide_eq_true.
  - intros (x & Heq & Hx)%list_elem_of_fmap. by apply (Hnew x Hx).
Qed.

Lemma register_then_login_witness :
  ∃ st' uid,
    register sample_hash
      (anonymous_post (registration_form "carol" "carol@strays.example" "volunteer"))
      sample_state = (st', redirect "login") ∧
    login sample_check
      (anonymous_post (list_to_map [("username", "carol"); ("password", "s3cret")]))
      st' = (st', redirect "dashboard", Some uid) ∧
    load_user st' uid =
      Some (User.mk uid "carol" (sample_hash "s3cret") "carol@strays.example"
                    "volunteer" 0) ∧
    uid ∉ User.id <$> users sample_state.
Proof.
  apply (register_then_login sample_hash sample_check _ _ sample_state
           "carol" "s3cret" "carol@strays.example" "volunteer");
    [intros p; by apply bool_decide_eq_true|..];
    try reflexivity; apply (bool_decide_unpack _); vm_compute; exact I.
Defined.

Lemma login_required_signed_out view req st :
  session_user req = None →
  login_required view req st
  = (flash "Please log in to access this page." st, redirect "login").
Proof. intros Hs. unfold login_required, current_user. by rewrite Hs. Qed.

Section SignedOut.

Variable nfkd_ascii : string → string.
Variable os_nt : bool.
Variable generate_password_hash : string → string.
Variable check_password_hash : string → string → bool.

Local Abbreviation step :=
  (step nfkd_ascii os_nt generate_password_hash check_password_hash).
Local Abbreviation run :=
  (run nfkd_ascii os_nt generate_password_hash check_password_hash).

Lemma step_signed_out a st :
  session_user (request_of a) = None →
  donations (step a st) = donations st ∧ reports (step a st) = reports st ∧
  events (step a st) = events st ∧ uploads (step a st) = uploads st ∧
  trace (step a st) = trace st ∧ users st `prefix_of` users (step a st).
Proof using Type.
  intros Hs. destruct a as [req|req|req|now req|req|req|g req|g req];
    simpl in Hs; simpl.
  - unfold register. destruct (req_method req); [done|].
    destruct (_ ≫= _) as [[[[username password] email] role]|]; [|done].
    destruct (List.find _ _); [done|].
    unfold insert_user. destruct (_ || _); [done|]. simpl.
    repeat split. by apply prefix_app_r.
  - unfold login. destruct (req_method req); [done|].
    destruct (_ ≫= _) as [[username password]|]; [|done].
    destruct (List.find _ _); [|done]. by destruct (check_password_hash _ _).
  - unfold add_donation. by rewrite login_required_signed_out.
  - unfold report_animal. by rewrite login_required_signed_out.
  - unfold create_event. by rewrite login_required_signed_out.
  - unfold stats. by rewrite login_required_signed_out.
  - unfold map_view. by rewrite login_required_signed_out.
  - unfold donation_map. by rewrite login_required_signed_out.
Qed.

(** X17.  Requests without a session write nothing but registrations:
    after any history of them the donations, the reports with their
    coordinates, the events and the uploaded files are what they were, the
    geocoder has not been called, and the users of before are still the
    first rows of their table, unchanged. *)
Theorem signed_out_history acts st :
  signed_out acts →
  donations (run acts st) = donations st ∧ reports (run acts st) = reports st ∧
  events (run acts st) = events st ∧ uploads (run acts st) = uploads st ∧
  trace (run acts st) = trace st ∧ users st `prefix_of` users (run acts st).
Proof using Type.
  intros Hacts. revert st.
  induction Hacts as [|a acts Ha _ IH]; intros st; [done|].
  change (run (a :: acts) st) with (run acts (step a st)).
  destruct (step_signed_out a st Ha) as (Hd & Hr & He & Hu & Ht & Hp).
  destruct (IH (step a st)) as (Hd' & Hr' & He' & Hu' & Ht' & Hp').
  rewrite Hd', Hr', He', Hu', Ht'. repeat split; try done.
  by etrans.
Qed.

End SignedOut.

Lemma signed_out_history_witness :
  let acts :=
    [Register (anonymous_post (registration_form "carol" "carol@strays.example" "donor"));
     AddDonation (anonymous_post donation_form);
     ReportAnimal noon (anonymous_post report_form);
     MapView geocode_found (anonymous_post ∅)] in
  let st' := run ascii_name posix sample_hash sample_check acts sample_state in
  donations st' = donations sample_state ∧ reports st' = reports sample_state ∧
  events st' = events sample_state ∧ uploads st' = uploads sample_state ∧
  trace st' = trace sample_state ∧ users sample_state `prefix_of` users st'.
Proof.
  intros acts st'.
  apply (signed_out_history ascii_name posix sample_hash sample_check acts sample_state).
  repeat constructor.
Defined.

Example signed_out_registers :
  length (users (run ascii_name posix sample_hash sample_check
                   [Register (anonymous_post
                      (registration_form "carol" "carol@strays.example" "donor"));
                    AddDonation (anonymous_post donation_form)]
                   sample_state))
  = S (length (users sample_state)).
Proof. by vm_compute. Qed.
